(** * Obsidiosaurus: reconciliation engine and markdown rewrite pipeline

    A shallow embedding of the TypeScript sources
    - [src/MarkdownFileHandler.ts] (class [MarkdownFileHandler], and the
      markdown processor [processMarkdown] with its helpers),
    - [src/fileProcessor.ts] (class [FileProcessor]),
    - the main process [obsidiosaurusProcess] with its helpers,
    followed by the properties of the specification that were checked
    against them.

    Strings are sequences of code units, modelled as [string] (bytes).  The
    model is exact on ASCII text; other text is carried through as opaque
    bytes, and the character classes ([\s], [\d], line terminators, case
    mapping) are their ASCII parts: [Js.trim], [Js.toLowerCase] and the
    white space of the patterns are those of JavaScript on ASCII text only.

    Exceptions are kept ([Result], [Handler.Outcome]); what is written to
    the console or to the logger is left out, but for the logs of
    [deleteParentDirectories] and of [convertObsidianLinks].  The classes
    [MarkdownFile] and
    [MarkdownSourceFile], the module [types] and the configuration are not
    part of the sources: the records hold the fields the code reads, and
    [deleteFile], [convertMarkdownFile] and the file-system calls of the
    handler are the environment's. *)

From Stdlib Require Import ZArith Ascii String Lia Sorted.
From stdpp Require Import base list strings.

Local Open Scope Z_scope.

(** ** JavaScript string primitives *)

Module Js.

Definition code (c : ascii) : nat := nat_of_ascii c.

(** [\d] *)
Definition isDigit (c : ascii) : bool :=
  (Nat.leb 48 (code c)) && (Nat.leb (code c) 57).

(** [\s] within ASCII (tab, LF, VT, FF, CR, space) *)
Definition isSpace (c : ascii) : bool :=
  ((Nat.leb 9 (code c)) && (Nat.leb (code c) 13)) || Nat.eqb (code c) 32.

(** the characters [.] does not match *)
Definition isLineTerminator (c : ascii) : bool :=
  Nat.eqb (code c) 10 || Nat.eqb (code c) 13.

Fixpoint drop (n : nat) (s : string) : string :=
  match n, s with
  | O, _ => s
  | S _, EmptyString => EmptyString
  | S k, String _ s' => drop k s'
  end.

Fixpoint rev (s : string) : string :=
  match s with
  | EmptyString => EmptyString
  | String c s' => rev s' +:+ String c EmptyString
  end.

Fixpoint dropWhile (p : ascii -> bool) (s : string) : string :=
  match s with
  | EmptyString => EmptyString
  | String c s' => if p c then dropWhile p s' else s
  end.

Fixpoint takeWhile (p : ascii -> bool) (s : string) : string :=
  match s with
  | EmptyString => EmptyString
  | String c s' => if p c then String c (takeWhile p s') else EmptyString
  end.

Fixpoint all (p : ascii -> bool) (s : string) : bool :=
  match s with
  | EmptyString => true
  | String c s' => p c && all p s'
  end.

(** [s.startsWith(p)] *)
Definition startsWith (p s : string) : bool := String.prefix p s.

(** [s.endsWith(p)] *)
Definition endsWith (p s : string) : bool :=
  Nat.leb (String.length p) (String.length s)
  && String.eqb (drop (String.length s - String.length p) s) p.

(** The first occurrence of [needle] in [s]: the text before it and the text
    after it. *)
Fixpoint cut (needle s : string) : option (string * string) :=
  if startsWith needle s then Some (EmptyString, drop (String.length needle) s)
  else match s with
       | EmptyString => None
       | String c s' =>
           match cut needle s' with
           | Some (b, a) => Some (String c b, a)
           | None => None
           end
       end.

(** [s.indexOf(needle)] *)
Definition indexOf (needle s : string) : Z :=
  match cut needle s with
  | Some (b, _) => Z.of_nat (String.length b)
  | None => -1
  end.

(** [s.includes(needle)] *)
Definition includes (needle s : string) : bool :=
  match cut needle s with Some _ => true | None => false end.

(** The replacement text of [String.prototype.replace] for a string pattern
    (ECMAScript GetSubstitution with no captures): [$$] is a dollar sign,
    [$&] the matched text, [$`] the text before it, [$'] the text after it;
    every other character, a [$] before a digit or [<] too, stands for
    itself. *)
Fixpoint getSubstitution (matched before after tmpl : string) : string :=
  match tmpl with
  | EmptyString => EmptyString
  | String c r =>
      if Ascii.eqb c "$" then
        match r with
        | EmptyString => String c EmptyString
        | String d r' =>
            if Ascii.eqb d "$" then
              String "$" (getSubstitution matched before after r')
            else if Ascii.eqb d "&" then
              matched +:+ getSubstitution matched before after r'
            else if Ascii.eqb d "`" then
              before +:+ getSubstitution matched before after r'
            else if Ascii.eqb d "'" then
              after +:+ getSubstitution matched before after r'
            else String c (getSubstitution matched before after r)
        end
      else String c (getSubstitution matched before after r)
  end.

(** [s.replace(pat, repl)] with a string pattern: the first occurrence only. *)
Definition replace (pat repl s : string) : string :=
  match cut pat s with
  | Some (b, a) => b +:+ getSubstitution pat b a repl +:+ a
  | None => s
  end.

(** [s.replace(/pat/g, rep)] / [s.split(pat).join(rep)] for a literal,
    non-empty [pat] and a replacement without [$]: every occurrence, left to
    right.  [skip] counts the characters of a match still to be passed. *)
Fixpoint replaceAllFrom (pat rep s : string) (skip : nat) : string :=
  match s with
  | EmptyString => EmptyString
  | String c s' =>
      match skip with
      | S k => replaceAllFrom pat rep s' k
      | O =>
          if startsWith pat s
          then rep +:+ replaceAllFrom pat rep s' (String.length pat - 1)
          else String c (replaceAllFrom pat rep s' O)
      end
  end.

Definition replaceAll (pat rep s : string) : string := replaceAllFrom pat rep s O.

(** [s.split(c)] for a one-character separator. *)
Fixpoint split (c : ascii) (s : string) : list string :=
  match s with
  | EmptyString => [EmptyString]
  | String a s' =>
      if Ascii.eqb a c then EmptyString :: split c s'
      else match split c s' with
           | h :: t => String a h :: t
           | [] => [String a EmptyString]
           end
  end.

(** [parts.join(sep)] *)
Definition join (sep : string) (parts : list string) : string :=
  String.concat sep parts.

(** [s.trim()], for the white space of ASCII; JavaScript also strips the
    white space beyond ASCII (U+00A0, U+2028, U+FEFF, ...) *)
Definition trimStart (s : string) : string := dropWhile isSpace s.
Definition trimEnd (s : string) : string := rev (dropWhile isSpace (rev s)).
Definition trim (s : string) : string := trimEnd (trimStart s).

(** [s.slice(n)] *)
Definition slice (n : Z) (s : string) : string :=
  if n <? 0 then drop (String.length s - Z.to_nat (- n)) s
  else drop (Z.to_nat n) s.

Definition lowerChar (c : ascii) : ascii :=
  if Nat.leb 65 (code c) && Nat.leb (code c) 90
  then ascii_of_nat (code c + 32) else c.

(** [s.toLowerCase()], for the letters of ASCII; JavaScript also lowers the
    cased letters beyond ASCII *)
Fixpoint toLowerCase (s : string) : string :=
  match s with
  | EmptyString => EmptyString
  | String c s' => String (lowerChar c) (toLowerCase s')
  end.

(** the line feed character as a string *)
Definition nl : string := String (ascii_of_nat 10) EmptyString.

(** a string is truthy when it is not empty *)
Definition truthy (s : string) : bool :=
  match s with EmptyString => false | _ => true end.

End Js.

(** ** Exceptions *)

(** A computation either returns a value or throws an [Error] with a
    message. *)
Inductive Result (A : Type) : Type :=
| Ok (a : A)
| Throw (message : string).
Arguments Ok {A} a.
Arguments Throw {A} message.

#[global] Instance Result_ret : MRet Result := fun A a => Ok a.
#[global] Instance Result_bind : MBind Result := fun A B k r =>
  match r with
  | Ok a => k a
  | Throw m => Throw m
  end.

(** ** The records of [types.ts], as the code uses them *)

(** [Partial<SourceFileInfo>]: every field may be undefined.  Only the
    fields read by the functions below are kept. *)
Record SourceFileInfo : Type := {
  fileName : option string;
  pathSourceRelative : option string;
  pathSourceAbsolute : option string;
  pathTargetRelative : option string;
  pathTargetAbsolute : option string;
  dateModified : option Z   (* milliseconds, [Date.getTime()] *)
}.

(** [Size]: one size variant of an asset. *)
Record Size : Type := {
  size : string;
  inDocuments : list string;
  newName : list string
}.

(** [Asset]: one entry of the asset registry ([assetJson]). *)
Record Asset : Type := {
  assetFileName : string;
  originalFileName : option string;
  fileExtension : option string;
  assetDateModified : string;
  sourcePathRelative : string;
  sizes : list Size
}.

(** [Admonition] *)
Record Admonition : Type := {
  type : string;
  title : string;
  whitespaces : Z
}.

(** the part of the plugin configuration read by the processor *)
Record Config : Type := {
  convertedImageType : string;
  docusaurusAssetSubfolderName : string
}.

(** a template literal prints an undefined value as [undefined] *)
Definition show (o : option string) : string :=
  match o with Some s => s | None => "undefined" end.

(** ** [fileProcessor.ts]: class [FileProcessor] *)

Record FileProcessor : Type := {
  sourceFileInfoList : list SourceFileInfo;
  assetInfoList : list SourceFileInfo
}.

(** [list.find(info => info.fileName === filename)] *)
Definition findByFileName (filename : string) (infos : list SourceFileInfo)
  : option SourceFileInfo :=
  snd <$> list_find (fun info => fileName info = Some filename) infos.

Definition getPathOfImage (fp : FileProcessor) (filename : string) : option string :=
  match findByFileName filename (assetInfoList fp) with
  | Some assetInfo => pathSourceRelative assetInfo
  | None => None
  end.

Definition getPathOfFile (fp : FileProcessor) (filename : string) : option string :=
  match findByFileName filename (sourceFileInfoList fp) with
  | Some fileInfo => pathSourceRelative fileInfo
  | None => None
  end.

(** ** The markdown processor: pattern matching *)

(** One match of a pattern in a line: the text before the match, the
    captured groups, and the text after the match. *)
Record Match (G : Type) : Type := {
  before : string;
  groups : G;
  after : string
}.
Arguments before {G} _.
Arguments groups {G} _.
Arguments after {G} _.

(** [RegExp] search: the match at the leftmost position where the pattern
    (given by [at_] as a match at the start of a string) applies. *)
Fixpoint search {G : Type} (at_ : string -> option (G * string)) (s : string)
  : option (Match G) :=
  match at_ s with
  | Some (g, rest) => Some {| before := EmptyString; groups := g; after := rest |}
  | None =>
      match s with
      | EmptyString => None
      | String c s' =>
          match search at_ s' with
          | Some m => Some {| before := String c (before m);
                              groups := groups m; after := after m |}
          | None => None
          end
      end
  end.

Definition noLineTerminator (s : string) : bool :=
  Js.all (fun c => negb (Js.isLineTerminator c)) s.

(** [/(?:!)?\[\[(.*?)\]\]/] at the start of [s]: the groups are [match[0]]
    and [match[1]]. *)
Definition wikiAt (s : string) : option ((string * string) * string) :=
  let bang := if Js.startsWith "!" s then "!" else "" in
  let s1 := Js.drop (String.length bang) s in
  if Js.startsWith "[[" s1 then
    match Js.cut "]]" (Js.drop 2 s1) with
    | Some (inner, rest) =>
        if noLineTerminator inner
        then Some ((bang +:+ "[[" +:+ inner +:+ "]]", inner), rest)
        else None
    | None => None
    end
  else None.

Definition matchWiki (line : string) : option (Match (string * string)) :=
  search wikiAt line.

(** [/\[([^\]]+)\]\(([^)]+)\)/] at the start of [s]: the groups are
    [match[1]] (the text) and [match[2]] (the url). *)
Definition linkAt (s : string) : option ((string * string) * string) :=
  if Js.startsWith "[" s then
    match Js.cut "]" (Js.drop 1 s) with
    | Some (text, r) =>
        if Js.truthy text && Js.startsWith "(" r then
          match Js.cut ")" (Js.drop 1 r) with
          | Some (url, rest) =>
              if Js.truthy url then Some ((text, url), rest) else None
          | None => None
          end
        else None
    | None => None
    end
  else None.

Definition matchLink (line : string) : option (Match (string * string)) :=
  search linkAt line.

(** [(?:\|(?<size>\d+(x\d+)?))?] at the start of [s]: the size group when it
    takes part, and the rest.  [None]: the bar is there but no size follows,
    so the pattern cannot go on ([\]] is expected and [|] is found). *)
Definition sizeAt (s : string) : option (option string * string) :=
  if Js.startsWith "|" s then
    let r := Js.drop 1 s in
    let w := Js.takeWhile Js.isDigit r in
    let r1 := Js.dropWhile Js.isDigit r in
    if Js.truthy w then
      let h := Js.takeWhile Js.isDigit (Js.drop 1 r1) in
      if Js.startsWith "x" r1 && Js.truthy h
      then Some (Some (w +:+ "x" +:+ h), Js.dropWhile Js.isDigit (Js.drop 1 r1))
      else Some (Some w, r1)
    else None
  else Some (None, s).

(** [/!\[(?:\|(?<size>\d+(x\d+)?))?\]\((?<path>.*?)\)/] at the start of
    [s]: the groups are [size] and [path]. *)
Definition assetAt (s : string) : option ((option string * string) * string) :=
  if Js.startsWith "![" s then
    match sizeAt (Js.drop 2 s) with
    | Some (sz, r) =>
        if Js.startsWith "](" r then
          match Js.cut ")" (Js.drop 2 r) with
          | Some (path, rest) =>
              if noLineTerminator path then Some ((sz, path), rest) else None
          | None => None
          end
        else None
    | None => None
    end
  else None.

Definition matchAsset (line : string) : option (Match (option string * string)) :=
  search assetAt line.

(** The last occurrence of the character [c] in [s]: the text before it and
    the text after it (a greedy group followed by a closing bracket). *)
Fixpoint cutLast (c : ascii) (s : string) : option (string * string) :=
  match s with
  | EmptyString => None
  | String a s' =>
      match cutLast c s' with
      | Some (b, r) => Some (String a b, r)
      | None => if Ascii.eqb a c then Some (EmptyString, s') else None
      end
  end.

(** The start marker of a callout: [>], white space, [[!], a greedy group
    [type], a closing bracket and an optional greedy group [title].  The dot
    stops at a line terminator, so both groups lie in the first line of
    [line], and [type] runs up to its last closing bracket. *)
Definition matchAdmonition (line : string) : option (string * string) :=
  if Js.startsWith ">" line then
    let r := Js.dropWhile Js.isSpace (Js.drop 1 line) in
    if Js.startsWith "[!" r then
      let firstLine :=
        Js.takeWhile (fun c => negb (Js.isLineTerminator c)) (Js.drop 2 r) in
      cutLast "]" firstLine
    else None
  else None.


(** ** The markdown processor: the four rewrites of a line *)

(** [convertObsidianLinks]: a wiki-style link [[filename|title]] becomes a
    markdown link or an image; only the first one of the line is looked at. *)
Definition convertObsidianLinks (line : string) (fileProcessor : FileProcessor)
  : string :=
  match matchWiki line with
  | Some m =>
      let '(match0, match1) := groups m in
      let split := Js.split "|" match1 in
      let title := List.last split EmptyString in
      let filenameWithExtension :=
        let first := List.hd EmptyString split in
        if negb (Js.endsWith ".md" first) then first +:+ ".md" else first in
      match getPathOfFile fileProcessor filenameWithExtension with
      | Some newPath =>
          Js.replace match0 ("[" +:+ title +:+ "](" +:+ newPath +:+ ")") line
      | None =>
          match getPathOfImage fileProcessor match1 with
          | Some newPath => Js.replace match0 ("![](" +:+ newPath +:+ ")") line
          | None => line
          end
      end
  | None => line
  end.

(** what [convertObsidianLinks] writes with [console.log], in the order of
    the calls *)
Definition convertObsidianLinksLog (line : string) (fileProcessor : FileProcessor)
  : list string :=
  match matchWiki line with
  | Some m =>
      let '(match0, match1) := groups m in
      let split := Js.split "|" match1 in
      let title := List.last split EmptyString in
      let filenameWithExtension :=
        let first := List.hd EmptyString split in
        if negb (Js.endsWith ".md" first) then first +:+ ".md" else first in
      match getPathOfFile fileProcessor filenameWithExtension with
      | Some newPath =>
          let newLine :=
            Js.replace match0 ("[" +:+ title +:+ "](" +:+ newPath +:+ ")") line in
          ["Converted note link: " +:+ line +:+ " to " +:+ newLine]
      | None =>
          ("Checking path for image: " +:+ match1)
          :: match getPathOfImage fileProcessor match1 with
             | Some newPath =>
                 let newLine := Js.replace match0 ("![](" +:+ newPath +:+ ")") line in
                 ["Converted image link: " +:+ line +:+ " to " +:+ newLine]
             | None => ["Could not find path for image: " +:+ match1]
             end
      end
  | None => []
  end.

(** [parseAdmonitionData] *)
Definition parseAdmonitionData (line : string) : Admonition :=
  match matchAdmonition line with
  | None => {| type := ""; title := ""; whitespaces := 0 |}
  | Some (ty, ti) =>
      {| type := ty;
         title := Js.trim ti;
         whitespaces := Js.indexOf "[" line - Js.indexOf ">" line |}
  end.

(** [convertAdmonition]: one step of the callout and quote state machine. *)
Definition convertAdmonition (line : string) (isInAdmonition isInQuote : bool)
    (admonition : Admonition) : string * bool * bool * Admonition :=
  let admonition :=
    if negb isInAdmonition && negb isInQuote
    then parseAdmonitionData line else admonition in
  if isInAdmonition then
    if String.eqb (Js.trim line) "" then
      (":::" +:+ Js.nl, false, isInQuote, admonition)
    else (Js.slice (whitespaces admonition) line, isInAdmonition, isInQuote, admonition)
  else if isInQuote then
    if String.eqb (Js.trim line) "" then
      (">" +:+ Js.nl +:+ "> â€” " +:+ title admonition +:+ Js.nl,
       isInAdmonition, false, admonition)
    else (line, isInAdmonition, isInQuote, admonition)
  else if Js.truthy (type admonition) then
    if String.eqb (type admonition) "quote" then
      ("", isInAdmonition, true, admonition)
    else
      let line := ":::" +:+ type admonition in
      let line :=
        if Js.truthy (title admonition) then line +:+ " " +:+ title admonition
        else line in
      (line +:+ Js.nl, true, isInQuote, admonition)
  else (line, isInAdmonition, isInQuote, admonition).

(** [removeNumberPrefix]: the pattern takes the leading digits, then the
    longest run of the characters [.], [-], [)], white space, [%], [2] and
    [0], then white space; nothing is removed when no digit leads. *)
Definition inPrefixClass (c : ascii) : bool :=
  Ascii.eqb c "." || Ascii.eqb c "-" || Ascii.eqb c ")" || Js.isSpace c
  || Ascii.eqb c "%" || Ascii.eqb c "2" || Ascii.eqb c "0".

Definition removeNumberPrefix (str : string) : string :=
  Js.trim
    (if Js.truthy (Js.takeWhile Js.isDigit str)
     then Js.dropWhile Js.isSpace
            (Js.dropWhile inPrefixClass (Js.dropWhile Js.isDigit str))
     else str).

Definition isBlogFolder (mainFolder : string) : bool :=
  String.eqb mainFolder "blog" || Js.endsWith "__blog" mainFolder.

Definition removeBlogSuffix (mainFolder : string) : string :=
  Js.replace "__blog" "" mainFolder.

(** [urlParts[urlParts.length - 1] = x] *)
Definition setLast (x : string) (urlParts : list string) : list string :=
  <[ Nat.pred (length urlParts) := x ]> urlParts.

(** [urlParts.pop()] *)
Definition pop (urlParts : list string) : list string := removelast urlParts.

(** [processUrlParts]; reading the last or the last but one part of a list
    that is too short throws a [TypeError]. *)
Definition processUrlParts (urlParts : list string) (isBlog : bool)
  : Result (list string) :=
  match List.rev urlParts with
  | lastPart :: parentFolder :: _ =>
      let fa := Js.split "#" lastPart in
      let file := List.hd EmptyString fa in
      let anchor := fa !! 1%nat in
      let urlParts :=
        if Js.endsWith "+" parentFolder then
          let parentFolder := Js.replace "+" "" parentFolder in
          let urlParts := pop urlParts in
          setLast (if isBlog then Js.join "/" (Js.split "-" parentFolder)
                   else removeNumberPrefix parentFolder) urlParts
        else if Js.endsWith ".md" file then setLast (Js.replace ".md" "" file) urlParts
        else urlParts in
      let urlParts :=
        if isBlog then
          setLast (Js.join "/" (Js.split "-" (List.last urlParts EmptyString))) urlParts
        else urlParts in
      let urlParts :=
        if negb isBlog then removeNumberPrefix <$> urlParts else urlParts in
      let urlParts :=
        match anchor with
        | Some a =>
            if Js.truthy a then
              setLast (List.last urlParts EmptyString +:+ "#"
                       +:+ Js.toLowerCase (Js.replaceAll "%20" "-" a)) urlParts
            else urlParts
        | None => urlParts
        end in
      Ok urlParts
  | _ => Throw "TypeError"
  end.

(** [checkForLinks]: the path of the first markdown link of the line is
    normalised, unless it is external or has a single part. *)
Definition checkForLinks (line : string) : Result string :=
  match matchLink line with
  | Some m =>
      let url := snd (groups m) in
      if Js.includes "http" url then Ok line
      else
        let urlParts := Js.split "/" url in
        if Nat.leb (length urlParts) 1 then Ok line
        else
          let mainFolder := List.hd EmptyString urlParts in
          let isBlog := isBlogFolder mainFolder in
          let urlParts :=
            if isBlog then <[ 0%nat := removeBlogSuffix mainFolder ]> urlParts
            else urlParts in
          processedUrlParts ← processUrlParts urlParts isBlog;
          let newUrl := "/" +:+ Js.join "/" processedUrlParts in
          Ok (Js.replace url newUrl line)
  | None => Ok line
  end.


(** ** The asset registry *)

Section Processor.

(** the configuration of the plugin, and the time of a registration
    ([new Date().toISOString()]) *)
Variable config : Config.
Variable now : string.

(** A [Size] object handed back by the registry is shared with it; the
    reference is the position of the asset and of its size variant. *)
Definition SizeRef : Type := (nat * nat)%type.

(** [getOrCreateSize]: the variant of that size, made if missing, with the
    document among its users; returns the list and the position of the
    variant. *)
Definition getOrCreateSize (sizes : list Size) (size' processedFileName : string)
  : list Size * nat :=
  match list_find (fun s => size s = size') sizes with
  | None =>
      (sizes ++ [ {| size := size'; inDocuments := [processedFileName]; newName := [] |} ],
       length sizes)
  | Some (j, existingSize) =>
      if bool_decide (processedFileName ∈ inDocuments existingSize) then (sizes, j)
      else (<[ j := {| size := size existingSize;
                       inDocuments := inDocuments existingSize ++ [processedFileName];
                       newName := newName existingSize |} ]> sizes, j)
  end.

(** [addToAssetJson] *)
Definition addToAssetJson (assetJson : list Asset) (fileName' : string)
    (fileNameWithExtension fileExtension' path : option string)
    (size' processedFileName : string) : Result (list Asset * SizeRef) :=
  match path with
  | None => Throw ("Could not find path for asset: " +:+ fileName')
  | Some path =>
      match list_find (fun item => assetFileName item = fileName') assetJson with
      | Some (i, existingAsset) =>
          let '(sizes', j) := getOrCreateSize (sizes existingAsset) size' processedFileName in
          Ok (<[ i := {| assetFileName := assetFileName existingAsset;
                         originalFileName := originalFileName existingAsset;
                         fileExtension := fileExtension existingAsset;
                         assetDateModified := assetDateModified existingAsset;
                         sourcePathRelative := sourcePathRelative existingAsset;
                         sizes := sizes' |} ]> assetJson, (i, j))
      | None =>
          let '(sizes', j) := getOrCreateSize [] size' processedFileName in
          Ok (assetJson ++ [ {| assetFileName := fileName';
                                originalFileName := fileNameWithExtension;
                                fileExtension := fileExtension';
                                assetDateModified := now;
                                sourcePathRelative := path;
                                sizes := sizes' |} ],
              (length assetJson, j))
      end
  end.

(** [sizeObject.newName.push(newName)] unless it is there already *)
Definition pushNewName (sizeObject : SizeRef) (name : string) (assetJson : list Asset)
  : list Asset :=
  let '(i, j) := sizeObject in
  match assetJson !! i with
  | Some a =>
      match sizes a !! j with
      | Some s =>
          if bool_decide (name ∈ newName s) then assetJson
          else <[ i := {| assetFileName := assetFileName a;
                          originalFileName := originalFileName a;
                          fileExtension := fileExtension a;
                          assetDateModified := assetDateModified a;
                          sourcePathRelative := sourcePathRelative a;
                          sizes := <[ j := {| size := size s;
                                              inDocuments := inDocuments s;
                                              newName := newName s ++ [name] |} ]> (sizes a) |} ]>
                 assetJson
      | None => assetJson
      end
  | None => assetJson
  end.

(** [processImage], called for the extensions of [imageExtensions] *)
Definition processImage (line fileName' fileExtension' size' : string)
    (sizeObject : SizeRef) (assetJson : list Asset) : string * list Asset :=
  let sizeSuffix := if String.eqb size' "standard" then "" else "_" +:+ size' in
  let plain := "/assets/" +:+ fileName' +:+ sizeSuffix +:+ "." +:+ fileExtension' in
  let extensionFormatMap : option string :=
    if String.eqb fileExtension' "gif" then Some plain
    else if String.eqb fileExtension' "svg" then Some plain
    else if String.eqb fileExtension' "excalidraw"
    then Some ("/assets/" +:+ fileName' +:+ sizeSuffix +:+ ".excalidraw.light.svg#light")
    else None in
  let newPath :=
    match extensionFormatMap with
    | Some p => p
    | None => "/assets/" +:+ fileName' +:+ sizeSuffix +:+ "." +:+ convertedImageType config
    end in
  let line := "![" +:+ fileName' +:+ "](" +:+ newPath +:+ ")" in
  let line :=
    if String.eqb fileExtension' "excalidraw" then
      let darkPath := Js.replace ".light.svg#light" ".dark.svg#dark" newPath in
      line +:+ Js.nl +:+ "![" +:+ fileName' +:+ "](" +:+ darkPath +:+ ")"
    else line in
  let newName' :=
    List.hd EmptyString (Js.split "#" (List.last (Js.split "/" newPath) EmptyString)) in
  (line, if Js.truthy newName' then pushNewName sizeObject newName' assetJson else assetJson).

(** [processAsset] *)
Definition processAsset (line fileName' : string) (fileExtension' : option string)
  : string :=
  "[Download " +:+ fileName' +:+ "." +:+ show fileExtension' +:+ "]("
  +:+ docusaurusAssetSubfolderName config +:+ "/" +:+ fileName' +:+ "."
  +:+ show fileExtension' +:+ ")".

Definition imageExtensions : list string :=
  ["jpg"; "png"; "webp"; "jpeg"; "bmp"; "gif"; "svg"; "excalidraw"].

(** the image or the download link of a registered asset *)
Definition emitAsset (line fileName' : string) (fileExtension' : option string)
    (size' : string) (existingSize : SizeRef) (assetJson : list Asset)
  : string * list Asset :=
  match fileExtension' with
  | Some ext =>
      if bool_decide (ext ∈ imageExtensions)
      then processImage line fileName' ext size' existingSize assetJson
      else (processAsset line fileName' fileExtension', assetJson)
  | None => (processAsset line fileName' fileExtension', assetJson)
  end.

(** the file name of an asset: spaces and escaped spaces become [_] *)
Definition cleanName (fileName' : string) : string :=
  Js.replaceAll "%20" "_" (Js.replaceAll " " "_" fileName').

(** [checkForAssets]: registers the asset of an image of the line, and of a
    wiki-style link still in the line, and rewrites the line to the asset. *)
Definition checkForAssets (line processedFileName : string) (assetJson : list Asset)
    (allSourceAssetsInfo : list SourceFileInfo) : Result (string * list Asset) :=
  '(line, assetJson) ←
    match matchAsset line with
    | Some m =>
        let '(size', path) := groups m in
        let fileNameWithExtension := List.last (Js.split "/" path) EmptyString in
        let parts := Js.split "." fileNameWithExtension in
        let fileName' := cleanName (List.hd EmptyString parts) in
        let fileExtension' := parts !! 1%nat in
        let size' :=
          match size' with
          | Some s => if Js.truthy (Js.trim s) then s else "standard"
          | None => "standard"
          end in
        '(assetJson, existingSize) ←
          addToAssetJson assetJson fileName' (Some fileNameWithExtension)
            fileExtension' (Some path) size' processedFileName;
        Ok (emitAsset line fileName' fileExtension' size' existingSize assetJson)
    | None => Ok (line, assetJson)
    end;
  match matchWiki line with
  | Some match2 =>
      let filenameWithExtension := snd (groups match2) in
      let parts := Js.split "." filenameWithExtension in
      let fileName' := cleanName (List.hd EmptyString parts) in
      let fileExtension' := parts !! 1%nat in
      let size' := "standard" in
      let path :=
        match findByFileName filenameWithExtension allSourceAssetsInfo with
        | Some item => pathSourceRelative item
        | None => None
        end in
      '(assetJson, existingSize) ←
        addToAssetJson assetJson fileName' (Some filenameWithExtension)
          fileExtension' path size' processedFileName;
      Ok (emitAsset line fileName' fileExtension' size' existingSize assetJson)
  | None => Ok (line, assetJson)
  end.

(** ** [processMarkdown] *)

(** The lines [readline] yields for a text: LF, CR LF and CR end a line, and
    no empty line follows the last line end. *)
Fixpoint splitLines (s : string) : list string :=
  match s with
  | EmptyString => [EmptyString]
  | String c s' =>
      if Nat.eqb (Js.code c) 10 then EmptyString :: splitLines s'
      else if Nat.eqb (Js.code c) 13 then
        match s' with
        | String d s'' =>
            if Nat.eqb (Js.code d) 10 then EmptyString :: splitLines s''
            else EmptyString :: splitLines s'
        | EmptyString => EmptyString :: splitLines s'
        end
      else match splitLines s' with
           | h :: t => String c h :: t
           | [] => [String c EmptyString]
           end
  end.

Definition readLines (content : string) : list string :=
  let l := splitLines content in
  if String.eqb (List.last l EmptyString) "" then removelast l else l.

(** the variables of the loop of [processMarkdown] *)
Record LoopState : Type := {
  transformedContent : string;
  inAdmonition : bool;
  inQuote : bool;
  admonition : Admonition;
  registry : list Asset
}.

(** the body of the loop, for one line *)
Definition processLine (fileProcessor : FileProcessor) (processedFileName : string)
    (allSourceAssetsInfo : list SourceFileInfo) (st : LoopState) (line : string)
  : Result LoopState :=
  let processedLine := convertObsidianLinks line fileProcessor in
  '(processedLine, assetJson) ←
    checkForAssets processedLine processedFileName (registry st) allSourceAssetsInfo;
  processedLine ← checkForLinks processedLine;
  let '(processedLine, inAdmonition', inQuote', admonition') :=
    convertAdmonition processedLine (inAdmonition st) (inQuote st) (admonition st) in
  Ok {| transformedContent := transformedContent st +:+ processedLine +:+ Js.nl;
        inAdmonition := inAdmonition';
        inQuote := inQuote';
        admonition := admonition';
        registry := assetJson |}.

Fixpoint processLines (fileProcessor : FileProcessor) (processedFileName : string)
    (allSourceAssetsInfo : list SourceFileInfo) (st : LoopState) (lines : list string)
  : Result LoopState :=
  match lines with
  | [] => Ok st
  | line :: rest =>
      st' ← processLine fileProcessor processedFileName allSourceAssetsInfo st line;
      processLines fileProcessor processedFileName allSourceAssetsInfo st' rest
  end.

(** [processMarkdown]: the transformed content, and the registry as the
    conversion leaves it. *)
Definition processMarkdown (processedFileName sourceContent : string)
    (assetJson : list Asset) (fileInfo allSourceAssetsInfo : list SourceFileInfo)
  : Result (string * list Asset) :=
  let fileProcessor :=
    {| sourceFileInfoList := fileInfo; assetInfoList := allSourceAssetsInfo |} in
  st ← processLines fileProcessor processedFileName allSourceAssetsInfo
         {| transformedContent := "";
            inAdmonition := false;
            inQuote := false;
            admonition := {| type := ""; title := ""; whitespaces := 0 |};
            registry := assetJson |}
         (readLines sourceContent);
  Ok (transformedContent st, registry st).

End Processor.


(** ** The file system *)

Module Fs.

(** A path, as the names of its segments from the innermost one to the root:
    [/site/docs/a.md] is [["a.md"; "docs"; "site"]], and the root is [[]]. *)
Definition Path : Type := list string.

(** [path.dirname]; the root is its own parent. *)
Definition dirname (p : Path) : Path := tail p.

(** the directories and the files that exist *)
Record FileSystem : Type := {
  directories : list Path;
  files : list Path
}.

Inductive Errno : Type := ENOENT | ENOTEMPTY | EISDIR | EBUSY.

Definition isChildOf (d p : Path) : bool :=
  match p with
  | [] => false
  | _ :: parent => bool_decide (parent = d)
  end.

(** [fs.readdirSync(d, { withFileTypes: true })] filtered to directories *)
Definition subdirectories (d : Path) (fs : FileSystem) : list Path :=
  filter (fun p => isChildOf d p = true) (directories fs).

(** [fs.readdirSync(d)]: the entries of the directory [d] *)
Definition readdir (d : Path) (fs : FileSystem) : list Path :=
  subdirectories d fs ++ filter (fun p => isChildOf d p = true) (files fs).

Definition removePath (p : Path) (l : list Path) : list Path :=
  filter (fun q => q <> p) l.

(** [fs.rmdir(d)]: removes an existing, empty directory other than the root *)
Definition rmdir (d : Path) (fs : FileSystem) : FileSystem + Errno :=
  if bool_decide (d ∈ directories fs) then
    match d with
    | [] => inr EBUSY
    | _ :: _ =>
        match readdir d fs with
        | [] => inl {| directories := removePath d (directories fs); files := files fs |}
        | _ :: _ => inr ENOTEMPTY
        end
    end
  else inr ENOENT.

(** [fs.unlink(p)]: removes an existing file *)
Definition unlink (p : Path) (fs : FileSystem) : FileSystem + Errno :=
  if bool_decide (p ∈ files fs)
  then inl {| directories := directories fs; files := removePath p (files fs) |}
  else if bool_decide (p ∈ directories fs) then inr EISDIR
  else inr ENOENT.

(** what [deleteParentDirectories] writes to the log *)
Inductive LogEntry : Type :=
| DeletedDirectory (d : Path)
| FailedToDelete (d : Path) (e : Errno).

(** The loop of [deleteParentDirectories], from the directory [dirPath]
    upwards: it goes on while [dirPath] has a parent directory, and returns
    at the first directory that cannot be removed.  An error other than
    ENOTEMPTY, EEXIST and EPERM is logged; none is thrown. *)
Fixpoint deleteDirectoriesFrom (dirPath : Path) (fs : FileSystem)
  : FileSystem * list LogEntry :=
  match dirPath with
  | [] => (fs, [])
  | _ :: parent =>
      match rmdir dirPath fs with
      | inl fs' =>
          let '(fs'', log) := deleteDirectoriesFrom parent fs' in
          (fs'', DeletedDirectory dirPath :: log)
      | inr e =>
          (fs, match e with
               | ENOTEMPTY => []
               | _ => [FailedToDelete dirPath e]
               end)
      end
  end.

(** [deleteParentDirectories(filepath)] *)
Definition deleteParentDirectories (filepath : Path) (fs : FileSystem)
  : FileSystem * list LogEntry :=
  deleteDirectoriesFrom (dirname filepath) fs.

(** [MarkdownFileHandler.removeEmptyDirectories(directoryPath)]: for every
    subdirectory, first the same in it, then the subdirectory is removed if
    it is empty and [directoryPath] is not the source folder.  Reading a
    directory that does not exist throws.  The recursion follows the depth
    of the tree, which [fuel] bounds: [None] when it is used up. *)
Fixpoint removeEmptyDirectories (fuel : nat) (sourceFolder directoryPath : Path)
    (fs : FileSystem) : option (Result FileSystem) :=
  match fuel with
  | O => None
  | S fuel' =>
      if bool_decide (directoryPath ∈ directories fs) then
        foldl (fun acc fullDirPath =>
                 match acc with
                 | Some (Ok fs) =>
                     match removeEmptyDirectories fuel' sourceFolder fullDirPath fs with
                     | Some (Ok fs1) =>
                         match readdir fullDirPath fs1 with
                         | [] =>
                             if bool_decide (directoryPath <> sourceFolder) then
                               match rmdir fullDirPath fs1 with
                               | inl fs2 => Some (Ok fs2)
                               | inr _ => Some (Throw "rmdir")
                               end
                             else Some (Ok fs1)
                         | _ :: _ => Some (Ok fs1)
                         end
                     | other => other
                     end
                 | other => other
                 end)
              (Some (Ok fs)) (subdirectories directoryPath fs)
      else Some (Throw "ENOENT")
  end.

End Fs.


(** ** [MarkdownFileHandler.ts]: class [MarkdownFileHandler] *)

Module Handler.

(** [MarkdownFile]: the part the handler reads.  [dateModified] is compared
    with [>], as a number of milliseconds. *)
Record MarkdownFile : Type := {
  absolutepath : string;
  dateModified : Z
}.

(** [MarkdownSourceFile extends MarkdownFile], with the path of the file its
    conversion writes *)
Record MarkdownSourceFile : Type := {
  asMarkdownFile :> MarkdownFile;
  fileTargetPath : string   (* [sourceFile.targetPath] *)
}.

Record MdConversionEntry : Type := {
  sourcePath : string;
  targetPath : string
}.

(** What a run has in hand: the array [mdConversionEntries], the content of
    the data file on disk (if it exists), and the calls made so far to
    [targetFile.deleteFile()] and [sourceFile.convertMarkdownFile()]. *)
Record State : Type := {
  mdConversionEntries : list MdConversionEntry;
  dataFile : option (list MdConversionEntry);
  deletedFiles : list MarkdownFile;
  conversions : list MarkdownSourceFile
}.

(** A run goes on with a state, or an exception has ended it in a state. *)
Inductive Outcome : Type :=
| Done (st : State)
| Aborted (st : State).

Definition andThen (o : Outcome) (k : State -> Outcome) : Outcome :=
  match o with
  | Done st => k st
  | Aborted st => Aborted st
  end.

Section Run.

(** [convertMarkdownFile], [writeFileSync] and [unlinkSync] are the
    environment's: whether each returns or throws is given. *)
Variable convertOk : MarkdownSourceFile -> bool.
Variable writeOk : bool.
Variable unlinkOk : bool.

(** [loadMdFilesFromJson] *)
Definition loadMdFilesFromJson (st : State) : list MdConversionEntry :=
  match dataFile st with
  | Some data => data
  | None => []
  end.

(** [saveMdFilesToJson]: an error is logged, not thrown *)
Definition saveMdFilesToJson (data : list MdConversionEntry) (st : State) : State :=
  if writeOk then
    {| mdConversionEntries := mdConversionEntries st;
       dataFile := Some data;
       deletedFiles := deletedFiles st;
       conversions := conversions st |}
  else st.

(** [resetDatabase]: removes the data file; an error is logged, not thrown *)
Definition resetDatabase (st : State) : State :=
  if unlinkOk then
    {| mdConversionEntries := mdConversionEntries st;
       dataFile := None;
       deletedFiles := deletedFiles st;
       conversions := conversions st |}
  else st.

(** [deleteAndLog] *)
Definition deleteAndLog (targetFile : MarkdownFile) (entryIndex : option nat)
    (st : State) : State :=
  {| mdConversionEntries :=
       match entryIndex with
       | Some i => delete i (mdConversionEntries st)   (* [splice(i, 1)] *)
       | None => mdConversionEntries st
       end;
     dataFile := dataFile st;
     deletedFiles := deletedFiles st ++ [targetFile];
     conversions := conversions st |}.

(** the body of the loop of [checkTargetFiles], for one target file *)
Definition checkTargetFile (sourceFiles : list MarkdownSourceFile) (st : State)
    (targetFile : MarkdownFile) : State :=
  match list_find (fun entry => absolutepath targetFile = targetPath entry)
                  (mdConversionEntries st) with
  | None => deleteAndLog targetFile None st
  | Some (entryIndex, entry) =>
      match list_find (fun sourceFile : MarkdownSourceFile =>
                         absolutepath sourceFile = sourcePath entry) sourceFiles with
      | None => deleteAndLog targetFile (Some entryIndex) st
      | Some (_, sourceFile) =>
          if dateModified sourceFile >? dateModified targetFile
          then deleteAndLog targetFile (Some entryIndex) st
          else st
      end
  end.

(** [checkTargetFiles] *)
Definition checkTargetFiles (targetFiles : list MarkdownFile)
    (sourceFiles : list MarkdownSourceFile) (st : State) : State :=
  foldl (checkTargetFile sourceFiles) st targetFiles.

(** [convertAndLog]: a conversion that throws ends the run *)
Definition convertAndLog (sourceFile : MarkdownSourceFile) (st : State) : Outcome :=
  let st := {| mdConversionEntries := mdConversionEntries st;
               dataFile := dataFile st;
               deletedFiles := deletedFiles st;
               conversions := conversions st ++ [sourceFile] |} in
  if convertOk sourceFile then
    Done {| mdConversionEntries :=
              mdConversionEntries st
              ++ [ {| sourcePath := absolutepath sourceFile;
                      targetPath := fileTargetPath sourceFile |} ];
            dataFile := dataFile st;
            deletedFiles := deletedFiles st;
            conversions := conversions st |}
  else Aborted st.

(** the body of the loop of [checkSourceFiles], for one source file *)
Definition checkSourceFile (targetFiles : list MarkdownFile) (st : State)
    (sourceFile : MarkdownSourceFile) : Outcome :=
  match list_find (fun entry => sourcePath entry = absolutepath sourceFile)
                  (mdConversionEntries st) with
  | None => convertAndLog sourceFile st
  | Some (_, entry) =>
      match list_find (fun targetFile => absolutepath targetFile = targetPath entry)
                      targetFiles with
      | None => convertAndLog sourceFile st
      | Some (_, targetFile) =>
          if dateModified sourceFile >? dateModified targetFile
          then convertAndLog sourceFile st
          else Done st
      end
  end.

(** [checkSourceFiles] *)
Fixpoint checkSourceFiles (sourceFiles : list MarkdownSourceFile)
    (targetFiles : list MarkdownFile) (st : State) : Outcome :=
  match sourceFiles with
  | [] => Done st
  | sourceFile :: rest =>
      andThen (checkSourceFile targetFiles st sourceFile)
              (checkSourceFiles rest targetFiles)
  end.

(** [startConversion], from the files [parseMdFiles] finds in the source and
    in the target folder.  [removeEmptyDirectories] touches neither the
    entries nor the data file. *)
Definition startConversion (sourceFiles : list MarkdownSourceFile)
    (targetFiles : list MarkdownFile) (st : State) : Outcome :=
  let st := {| mdConversionEntries := loadMdFilesFromJson st;
               dataFile := dataFile st;
               deletedFiles := deletedFiles st;
               conversions := conversions st |} in
  let st := checkTargetFiles targetFiles sourceFiles st in
  andThen (checkSourceFiles sourceFiles targetFiles st) (fun st =>
  let st := saveMdFilesToJson (mdConversionEntries st) st in
  Done (resetDatabase st)).

End Run.

(** a run starts with no entries in memory and no call made *)
Definition initial (data : option (list MdConversionEntry)) : State :=
  {| mdConversionEntries := []; dataFile := data;
     deletedFiles := []; conversions := [] |}.

End Handler.

(** ** The main process: [obsidiosaurusProcess] and its helpers *)

Module Main.

(** why a file is in [filesToDelete] or [filesToProcess]; the message is
    made of it *)
Inductive Reason : Type :=
| NotInSourceJson
| OlderThanSource (targetDate sourceDate : Z)
| NotInTargetJson.

Record FilesToProcess : Type := {
  index : nat;
  reason : Reason;
  pathKey : option string
}.

(** [sourceJson.find(file => file.pathSourceRelative === key)] *)
Definition findByPath (key : option string) (infos : list SourceFileInfo)
  : option SourceFileInfo :=
  snd <$> list_find (fun file => pathSourceRelative file = key) infos.

(** the body of the loop of [getFilesToDelete], for the entry [targetFile]
    at index [i] of [targetJson] *)
Definition fileToDelete (sourceJson : list SourceFileInfo) (i : nat)
    (targetFile : SourceFileInfo) : option FilesToProcess :=
  match findByPath (pathSourceRelative targetFile) sourceJson with
  | None =>
      Some {| index := i; reason := NotInSourceJson;
              pathKey := pathSourceRelative targetFile |}
  | Some matchingSourceFile =>
      (* [sourceDate] is null when the source has no date; a target without
         a date has the time NaN, which is less than nothing *)
      match dateModified matchingSourceFile, dateModified targetFile with
      | Some sourceDate, Some targetDate =>
          if targetDate <? sourceDate
          then Some {| index := i; reason := OlderThanSource targetDate sourceDate;
                       pathKey := pathSourceRelative targetFile |}
          else None
      | _, _ => None
      end
  end.

Fixpoint getFilesToDeleteFrom (i : nat) (sourceJson targetJson : list SourceFileInfo)
  : list FilesToProcess :=
  match targetJson with
  | [] => []
  | targetFile :: rest =>
      match fileToDelete sourceJson i targetFile with
      | Some f => f :: getFilesToDeleteFrom (S i) sourceJson rest
      | None => getFilesToDeleteFrom (S i) sourceJson rest
      end
  end.

(** [getFilesToDelete] *)
Definition getFilesToDelete (allSourceFilesInfo targetJson : list SourceFileInfo)
  : list FilesToProcess :=
  getFilesToDeleteFrom 0 allSourceFilesInfo targetJson.

Fixpoint compareSourceFrom (i : nat) (sourceJson targetJson : list SourceFileInfo)
  : list FilesToProcess :=
  match sourceJson with
  | [] => []
  | sourceFile :: rest =>
      match findByPath (pathSourceRelative sourceFile) targetJson with
      | None =>
          {| index := i; reason := NotInTargetJson; pathKey := None |}
          :: compareSourceFrom (S i) rest targetJson
      | Some _ => compareSourceFrom (S i) rest targetJson
      end
  end.

(** [compareSource]: the source files with no entry in [targetJson] *)
Definition compareSource (sourceJson targetJson : list SourceFileInfo)
  : list FilesToProcess :=
  compareSourceFrom 0 sourceJson targetJson.

(** [filesToDelete.sort((a, b) => b.index - a.index)]: by descending index,
    keeping the order of equal indices *)
Fixpoint insertDescending (f : FilesToProcess) (l : list FilesToProcess)
  : list FilesToProcess :=
  match l with
  | [] => [f]
  | g :: l' =>
      if Nat.ltb (index f) (index g) then g :: insertDescending f l'
      else f :: l
  end.

Definition sortDescending (l : list FilesToProcess) : list FilesToProcess :=
  foldr insertDescending [] l.

Section Process.

(** [path.join(basePath, relative)], as a path of the file system *)
Variable pathJoin : string -> string -> Fs.Path.

(** the loop of [deleteFiles], over the sorted [filesToDelete] *)
Fixpoint deleteEach (filesToDelete : list FilesToProcess)
    (targetJson : list SourceFileInfo) (basePath : string) (fs : Fs.FileSystem)
  : Result (list SourceFileInfo * Fs.FileSystem) :=
  match filesToDelete with
  | [] => Ok (targetJson, fs)
  | f :: rest =>
      match targetJson !! index f with
      | None => Throw "TypeError"
      | Some targetFile =>
          match pathTargetRelative targetFile with
          | None => deleteEach rest targetJson basePath fs
          | Some relative =>
              let filepath := pathJoin basePath relative in
              match Fs.unlink filepath fs with
              | inl fs' =>
                  let fs'' := fst (Fs.deleteParentDirectories filepath fs') in
                  deleteEach rest (delete (index f) targetJson) basePath fs''
              | inr Fs.ENOENT =>
                  deleteEach rest (delete (index f) targetJson) basePath fs
              | inr _ => deleteEach rest targetJson basePath fs
              end
          end
      end
  end.

(** [deleteFiles] *)
Definition deleteFiles (filesToDelete : list FilesToProcess)
    (targetJson : list SourceFileInfo) (basePath : string) (fs : Fs.FileSystem)
  : Result (list SourceFileInfo * Fs.FileSystem) :=
  deleteEach (sortDescending filesToDelete) targetJson basePath fs.


End Process.

(** *** The tasks of [copyMarkdownFilesToTarget]

    [files.map(async (file) => ...)] starts one task per file, all of them
    before any of them goes on, and [Promise.all] waits for them.  A task
    runs until it awaits (the directory, the source read, a line of
    [processMarkdown], the target written) and goes on when what it awaits
    is there, in an order that the program does not fix.  What a task does
    from one await to the next is one step; a step reads and changes the
    registry [assetJson], which all the tasks share. *)

(** what a step of a task ends with *)
Inductive Step (Local : Type) : Type :=
| Await (local : Local)      (* the task awaits once more *)
| Return                     (* the target is written, the task is over *)
| Raise (message : string).  (* the step throws, the task is rejected *)
Arguments Await {Local} local.
Arguments Return {Local}.
Arguments Raise {Local} message.

Inductive Task (Local : Type) : Type :=
| Running (file : SourceFileInfo) (local : Local)
| Settled.
Arguments Running {Local} file local.
Arguments Settled {Local}.

(** the tasks, by the index of their file, and what they share: the
    registry, the array [results], and the exception [Promise.all] has
    rejected with, which is the first one in time *)
Record Pool (Local : Type) : Type := {
  tasks : list (Task Local);
  shared : list Asset;
  results : list SourceFileInfo;
  rejected : option string
}.
Arguments tasks {Local} p.
Arguments shared {Local} p.
Arguments results {Local} p.
Arguments rejected {Local} p.

Section Tasks.

(** what a task holds from one step to the next *)
Variable Local : Type.

(** the task of a file, as it is started *)
Variable start : SourceFileInfo -> Local.

(** one step of a task, on the registry as it is then: how the step ends,
    and the registry after it *)
Variable step : Local -> list Asset -> Step Local * list Asset.

(** [if (pathTargetAbsolute && pathSourceAbsolute)] *)
Definition hasBothPaths (file : SourceFileInfo) : bool :=
  match pathTargetAbsolute file, pathSourceAbsolute file with
  | Some target, Some source => Js.truthy target && Js.truthy source
  | _, _ => false
  end.

(** [files.map(async (file) => ...)]: the task of a file with both paths
    awaits at once; the task of another file pushes the file and is over
    before the next task is started. *)
Fixpoint startTasks (files : list SourceFileInfo)
  : list (Task Local) * list SourceFileInfo :=
  match files with
  | [] => ([], [])
  | file :: rest =>
      let '(tasks, results) := startTasks rest in
      if hasBothPaths file then (Running file (start file) :: tasks, results)
      else (Settled :: tasks, file :: results)
  end.

Definition startPool (files : list SourceFileInfo) (assetJson : list Asset)
  : Pool Local :=
  {| tasks := fst (startTasks files); shared := assetJson;
     results := snd (startTasks files); rejected := None |}.

(** the task [i] goes on for one step; a task that is over has nothing to
    go on with *)
Definition resume (pool : Pool Local) (i : nat) : Pool Local :=
  match tasks pool !! i with
  | Some (Running file local) =>
      let '(ending, assetJson) := step local (shared pool) in
      match ending with
      | Await local' =>
          {| tasks := <[i := Running file local']> (tasks pool); shared := assetJson;
             results := results pool; rejected := rejected pool |}
      | Return =>
          {| tasks := <[i := Settled]> (tasks pool); shared := assetJson;
             results := results pool ++ [file]; rejected := rejected pool |}
      | Raise message =>
          {| tasks := <[i := Settled]> (tasks pool); shared := assetJson;
             results := results pool;
             rejected := match rejected pool with
                         | Some first => Some first
                         | None => Some message
                         end |}
      end
  | _ => pool
  end.

(** the tasks go on in the order given by [schedule] *)
Definition runTasks (schedule : list nat) (pool : Pool Local) : Pool Local :=
  foldl resume pool schedule.

Definition isSettled (task : Task Local) : bool :=
  match task with
  | Settled => true
  | Running _ _ => false
  end.

(** [copyMarkdownFilesToTarget], seen by its caller once the tasks have gone
    on as [schedule] says: it throws what [Promise.all] has rejected with;
    when every task is over and none has thrown, [results] is pushed to
    [targetJson] and the registry is written to [assetInfo.json]; else it
    is still waiting.  The tasks are not stopped by a rejection: those that
    go on after it still change the registry and push to [results], which
    is then pushed nowhere. *)
Definition copyMarkdownFilesToTarget (schedule : list nat) (files : list SourceFileInfo)
    (targetJson : list SourceFileInfo) (assetJson : list Asset)
  : option (Result (list SourceFileInfo * list Asset)) :=
  let pool := runTasks schedule (startPool files assetJson) in
  match rejected pool with
  | Some message => Some (Throw message)
  | None =>
      if forallb isSettled (tasks pool)
      then Some (Ok (targetJson ++ results pool, shared pool))
      else None
  end.

End Tasks.

Arguments startTasks {Local} start files.
Arguments startPool {Local} start files assetJson.
Arguments resume {Local} step pool i.
Arguments runTasks {Local} step schedule pool.
Arguments isSettled {Local} task.
Arguments copyMarkdownFilesToTarget {Local} start step schedule files targetJson assetJson.

End Main.

(** ** The main process: the files to convert, and the registry after a deletion *)

Module Sync.

(** [allSourceFilesInfo.filter((_, index) => indices.includes(index))],
    from the index [i] on *)
Fixpoint filterByIndexFrom (i : nat) (indices : list nat) (files : list SourceFileInfo)
  : list SourceFileInfo :=
  match files with
  | [] => []
  | file :: rest =>
      if bool_decide (i ∈ indices) then file :: filterByIndexFrom (S i) indices rest
      else filterByIndexFrom (S i) indices rest
  end.

Section Convert.

Variable Local : Type.
Variable start : SourceFileInfo -> Local.
Variable step : Local -> list Asset -> Main.Step Local * list Asset.

(** The end of [obsidiosaurusProcess], from the call of [compareSource] on:
    with nothing to process it returns; else the source files at the indices
    of [filesToProcess] are converted, their tasks going on as [schedule]
    says, and pushed to [targetJson]. *)
Definition processNewFiles (schedule : list nat)
    (allSourceFilesInfo targetJson : list SourceFileInfo) (assetJson : list Asset)
  : option (Result (list SourceFileInfo * list Asset)) :=
  let filesToProcess := Main.compareSource allSourceFilesInfo targetJson in
  if Nat.eqb (length filesToProcess) 0 then Some (Ok (targetJson, assetJson))
  else
    let filesToProcessIndices := Main.index <$> filesToProcess in
    let filesToMarkdownProcess :=
      filterByIndexFrom 0 filesToProcessIndices allSourceFilesInfo in
    Main.copyMarkdownFilesToTarget start step schedule filesToMarkdownProcess
      targetJson assetJson.

End Convert.

Arguments processNewFiles {Local} start step schedule allSourceFilesInfo targetJson assetJson.

(** [AssetFileInfo], as [processAssetDeletion] reads it: the inclusions of
    an asset, each with the documents that use it. *)
Record AssetType : Type := {
  files : list string
}.

Record AssetFileInfo : Type := {
  AssetTypeInDocument : list AssetType
}.

(** The loop over [inclusion.files], from the index [k - 1] down: the index
    at which [pathKey] is found first. *)
Fixpoint findFromBack (pathKey : string) (files : list string) (k : nat) : option nat :=
  match k with
  | O => None
  | S k' =>
      match files !! k' with
      | Some file =>
          if String.eqb file pathKey then Some k' else findFromBack pathKey files k'
      | None => findFromBack pathKey files k'
      end
  end.

(** The loop over the inclusions of [asset], from the index [j - 1] down.
    The object [asset] is changed in place; [splices] counts the calls of
    [assetJson.splice(i, 1)], the first of which takes [asset] out of
    [assetJson].  Reading the files of an inclusion that is not there throws
    a [TypeError]. *)
Fixpoint inclusionsFrom (pathKey : string) (j : nat) (inclusions : list AssetType)
    (splices : nat) : Result (list AssetType * nat) :=
  match j with
  | O => Ok (inclusions, splices)
  | S j' =>
      match inclusions !! j' with
      | None => Throw "TypeError"
      | Some inclusion =>
          match findFromBack pathKey (files inclusion) (length (files inclusion)) with
          | Some k =>
              let files' := delete k (files inclusion) in   (* [files.splice(k, 1)] *)
              let inclusions :=
                if Nat.eqb (length files') 0 then delete j' inclusions
                else <[ j' := {| files := files' |} ]> inclusions in
              let splices :=
                if Nat.eqb (length inclusions) 0 then S splices else splices in
              inclusionsFrom pathKey j' inclusions splices
          | None => inclusionsFrom pathKey j' inclusions splices
          end
      end
  end.

(** The loop over the assets, from the index [i - 1] down. *)
Fixpoint assetsFrom (pathKey : string) (i : nat) (assetJson : list AssetFileInfo)
  : Result (list AssetFileInfo) :=
  match i with
  | O => Ok assetJson
  | S i' =>
      match assetJson !! i' with
      | None => Throw "TypeError"
      | Some asset =>
          '(inclusions, splices) ←
            inclusionsFrom pathKey (length (AssetTypeInDocument asset))
              (AssetTypeInDocument asset) 0;
          let assetJson := <[ i' := {| AssetTypeInDocument := inclusions |} ]> assetJson in
          assetsFrom pathKey i' (Nat.iter splices (delete i') assetJson)
      end
  end.

(** [processAssetDeletion]: a file to delete without a path key is passed
    over.  [deleteAssetfromTarget] and [moveAssetfromSource] do nothing. *)
Fixpoint processAssetDeletion (filesToDelete : list Main.FilesToProcess)
    (assetJson : list AssetFileInfo) : Result (list AssetFileInfo) :=
  match filesToDelete with
  | [] => Ok assetJson
  | fileToDelete :: rest =>
      match Main.pathKey fileToDelete with
      | Some pathKey =>
          if Js.truthy pathKey then
            assetJson ← assetsFrom pathKey (length assetJson) assetJson;
            processAssetDeletion rest assetJson
          else processAssetDeletion rest assetJson
      | None => processAssetDeletion rest assetJson
      end
  end.

End Sync.

(** ** The main process: the inventory of the vault *)

Module Vault.

(** [MainFolder].  A file of [files] is given with what [path] and
    [fs.statSync] tell about it. *)
Record VaultFile : Type := {
  filePath : string;          (* [path.resolve(filePath)] *)
  baseName : string;          (* [path.basename(filePath)] *)
  relativePath : string;      (* [path.relative(basePath, filePath)] *)
  parentName : string;        (* [path.basename(path.dirname(filePath))] *)
  mtime : Z;
  statSize : Z
}.

Record MainFolder : Type := {
  name : string;
  type : string;
  files : list VaultFile
}.

(** the part of the plugin configuration read by the main process *)
Record Settings : Type := {
  obsidianAssetSubfolderName : string;
  mainLanguage : string;
  docusaurusWebsiteDirectory : string;
  docusaurusAssetSubfolderName : string
}.

(** [Partial<SourceFileInfo>], with the fields that [getSourceFileInfo] and
    [getTargetPath] use besides those of [SourceFileInfo] above *)
Record SourceFileDetails : Type := {
  base : SourceFileInfo;
  fileNameClean : option string;
  fileExtension : option string;
  language : option string;
  mainFolder : option string;
  parentFolder : option string;
  fileType : option string;   (* [type] *)
  size : option Z
}.

(** the separator of the parts of a path, [\] in the source *)
Definition separator : ascii := ascii_of_nat 92.
Definition sep : string := String separator EmptyString.

(** [!x] for a string that may be undefined *)
Definition missing (o : option string) : bool :=
  match o with
  | Some s => negb (Js.truthy s)
  | None => true
  end.

Section Inventory.

Variable config : Settings.

(** the type [getMainfolders] gives to a directory of the vault *)
Definition folderType (object : string) : string :=
  if Js.endsWith "__blog" object then "blogMulti"
  else if Js.includes "blog" object then "blog"
  else if Js.includes "docs" object then "docs"
  else if Js.includes (obsidianAssetSubfolderName config) object then "assets"
  else "ignore".

(** [getMainfolders], from the entries of the vault folder, each with
    whether it is a directory *)
Definition getMainfolders (objects : list (string * bool)) : list MainFolder :=
  foldl (fun folders '(object, isDirectory) =>
           if isDirectory : bool then
             let type := folderType object in
             if negb (String.eqb type "ignore")
             then folders ++ [ {| name := object; type := type; files := [] |} ]
             else folders
           else folders)
        [] objects.

Definition isLetter (c : ascii) : bool :=
  (Nat.leb 65 (Js.code c) && Nat.leb (Js.code c) 90)
  || (Nat.leb 97 (Js.code c) && Nat.leb (Js.code c) 122).

(** the pattern of a language tag, two underscores and two letters at the
    end of the name: the two letters *)
Definition languageMatch (fileNameClean : string) : option string :=
  let n := String.length fileNameClean in
  let tag := Js.drop (n - 4) fileNameClean in
  if Nat.leb 4 n && Js.startsWith "__" tag && Js.all isLetter (Js.drop 2 tag)
  then Some (Js.drop 2 tag) else None.

(** [s.split(sep)[0]] for a separator that is not empty *)
Definition beforeFirst (sep s : string) : string :=
  match Js.cut sep s with
  | Some (b, _) => b
  | None => s
  end.

(** [sanitizeFileName]; [parse] is [path.parse], which gives the name and
    the extension of a file name. *)
Definition sanitizeFileName (parse : string -> string * string) (fileName' : string)
  : Result (string * string * string) :=
  let '(fileNameWithoutExtension, fileExtension) := parse fileName' in
  let fileNameClean := fileNameWithoutExtension in
  let '(fileNameClean, language) :=
    match languageMatch fileNameClean with
    | Some tag => (beforeFirst "__" fileNameClean, Some tag)
    | None => (fileNameClean, None)
    end in
  language ←
    match language with
    | Some tag => Ok tag
    | None =>
        if Js.truthy (mainLanguage config) then Ok (mainLanguage config)
        else Throw "❌ Main language not defined in the configuration"
    end;
  Ok (Js.trim fileNameClean, fileExtension, language).

(** [s.slice(0, -1)] *)
Definition dropLastChar (s : string) : string :=
  String.substring 0 (String.length s - 1) s.

(** [sourceFileInfo.pathTargetRelative = relative] and
    [sourceFileInfo.pathTargetAbsolute = absolute] *)
Definition withTargetPaths (sourceFileInfo : SourceFileDetails) (relative absolute : string)
  : SourceFileDetails :=
  {| base :=
       {| fileName := fileName (base sourceFileInfo);
          pathSourceRelative := pathSourceRelative (base sourceFileInfo);
          pathSourceAbsolute := pathSourceAbsolute (base sourceFileInfo);
          pathTargetRelative := Some relative;
          pathTargetAbsolute := Some absolute;
          dateModified := dateModified (base sourceFileInfo) |};
     fileNameClean := fileNameClean sourceFileInfo;
     fileExtension := fileExtension sourceFileInfo;
     language := language sourceFileInfo;
     mainFolder := mainFolder sourceFileInfo;
     parentFolder := parentFolder sourceFileInfo;
     fileType := fileType sourceFileInfo;
     size := size sourceFileInfo |}.

(** [path.join] of three parts and [path.resolve] of four *)
Variable pathJoin : string -> string -> string -> string.
Variable pathResolve : string -> string -> string -> string -> string.

(** [getTargetPath].  A type that is none of the four has no main path. *)
Definition getTargetPath (sourceFileInfo : SourceFileDetails) (basePath : string)
  : Result SourceFileDetails :=
  let docusaurusRelativePathToVault :=
    ".." +:+ sep +:+ docusaurusWebsiteDirectory config +:+ sep in
  if missing (fileType sourceFileInfo) || missing (language sourceFileInfo)
     || missing (pathSourceRelative (base sourceFileInfo))
     || missing (parentFolder sourceFileInfo) || missing (fileExtension sourceFileInfo)
     || missing (mainFolder sourceFileInfo)
  then Throw "Missing required properties on sourceFileInfo"
  else
    let type := default "" (fileType sourceFileInfo) in
    let language := default "" (language sourceFileInfo) in
    let pathSourceRelative := default "" (pathSourceRelative (base sourceFileInfo)) in
    let mainFolder := default "" (mainFolder sourceFileInfo) in
    let parentFolder := default "" (parentFolder sourceFileInfo) in
    let fileExtension := default "" (fileExtension sourceFileInfo) in
    let isMainLanguage := String.eqb language (mainLanguage config) in
    let mainPath :=
      if String.eqb type "docs" then
        if isMainLanguage then ""
        else "i18n" +:+ sep +:+ language +:+ sep +:+ "docusaurus-plugin-content-docs"
             +:+ sep +:+ "current"
      else if String.eqb type "blog" then
        if isMainLanguage then ""
        else "i18n" +:+ sep +:+ language +:+ sep +:+ "docusaurus-plugin-content-blog"
             +:+ sep +:+ "current"
      else if String.eqb type "blogMulti" then
        if isMainLanguage || negb (Js.truthy mainFolder) then ""
        else "i18n" +:+ sep +:+ language +:+ sep +:+ "docusaurus-plugin-content-blog-"
             +:+ mainFolder
      else if String.eqb type "assets" then
        "static" +:+ sep +:+ docusaurusAssetSubfolderName config
      else "" in
    let finalPathSourceRelative := pathSourceRelative in
    let finalPathSourceRelative :=
      if Js.endsWith "+" parentFolder then
        let pathParts := pop (Js.split separator finalPathSourceRelative) in
        if Nat.ltb 0 (length pathParts) then
          let lastPart := List.last pathParts "" in
          let pathParts :=
            if Js.endsWith "+" lastPart then setLast (dropLastChar lastPart) pathParts
            else pathParts in
          Js.join sep pathParts +:+ fileExtension
        else finalPathSourceRelative
      else finalPathSourceRelative in
    let finalPathSourceRelative :=
      Js.replace ("__" +:+ language) "" finalPathSourceRelative in
    let finalPathSourceRelative :=
      if Js.endsWith ".yml.md" finalPathSourceRelative
      then Js.replace ".yml.md" ".yml" finalPathSourceRelative
      else finalPathSourceRelative in
    Ok (withTargetPaths sourceFileInfo
          (pathJoin docusaurusRelativePathToVault mainPath finalPathSourceRelative)
          (pathResolve basePath docusaurusRelativePathToVault mainPath
             finalPathSourceRelative)).

Variable parse : string -> string * string.

(** [getSourceFileInfo] *)
Definition getSourceFileInfo (basePath : string) (folder : MainFolder) (file : VaultFile)
  : Result SourceFileDetails :=
  '(fileNameClean, fileExtension, language) ← sanitizeFileName parse (baseName file);
  getTargetPath
    {| base :=
         {| fileName := Some (baseName file);
            pathSourceRelative := Some (relativePath file);
            pathSourceAbsolute := Some (filePath file);
            pathTargetRelative := None;
            pathTargetAbsolute := None;
            dateModified := Some (mtime file) |};
       fileNameClean := Some fileNameClean;
       fileExtension := Some fileExtension;
       language := Some language;
       mainFolder := Some (name folder);
       parentFolder := Some (parentName file);
       fileType := Some (type folder);
       size := Some (statSize file) |}
    basePath.

(** [files.map(file => getSourceFileInfo(...))]: the first exception ends it *)
Fixpoint infoOfFiles (basePath : string) (folder : MainFolder) (files : list VaultFile)
  : Result (list SourceFileDetails) :=
  match files with
  | [] => Ok []
  | file :: rest =>
      info ← getSourceFileInfo basePath folder file;
      infos ← infoOfFiles basePath folder rest;
      Ok (info :: infos)
  end.

(** [allInfo]: [mainFolders.flatMap(folder => folder.files.map(...))] *)
Fixpoint allInfo (basePath : string) (mainFolders : list MainFolder)
  : Result (list SourceFileDetails) :=
  match mainFolders with
  | [] => Ok []
  | folder :: rest =>
      infos ← infoOfFiles basePath folder (files folder);
      more ← allInfo basePath rest;
      Ok (infos ++ more)
  end.

(** [allSourceFilesInfo] and [allSourceAssetsInfo] *)
Definition isAsset (info : SourceFileDetails) : bool :=
  match fileType info with
  | Some type => String.eqb type "assets"
  | None => false
  end.

Definition allSourceFilesInfo (infos : list SourceFileDetails) : list SourceFileDetails :=
  filter (fun info => isAsset info = false) infos.

Definition allSourceAssetsInfo (infos : list SourceFileDetails) : list SourceFileDetails :=
  filter (fun info => isAsset info = true) infos.

End Inventory.

End Vault.

(** ** Notions used to state the properties *)

(** the text of a markdown link with the groups [g] *)
Definition linkText (g : string * string) : string :=
  "[" +:+ fst g +:+ "](" +:+ snd g +:+ ")".

(** [out] is [line] with one region rewritten, and the text [rest] follows
    that region, untouched, in both. *)
Definition rewritesBefore (line out rest : string) : Prop :=
  exists b old new a mid,
    line = b +:+ old +:+ a /\ out = b +:+ new +:+ a /\ a = mid +:+ rest.

Definition calloutInput : string :=
  "> [!warning] Careful" +:+ Js.nl +:+ "> body text" +:+ Js.nl +:+ Js.nl.

Definition calloutOutput : string :=
  ":::warning Careful" +:+ Js.nl +:+ Js.nl +:+ "body text" +:+ Js.nl
  +:+ ":::" +:+ Js.nl +:+ Js.nl.

Definition idle : Admonition := {| type := ""; title := ""; whitespaces := 0 |}.

(** the output the specification gives for [calloutInput] *)
Definition calloutClaimed : string :=
  ":::warning Careful" +:+ Js.nl +:+ "body text" +:+ Js.nl +:+ ":::" +:+ Js.nl.

Definition plain (s : string) : bool :=
  Js.all (fun c => negb (Ascii.eqb c "$")) s.

(** a document of the inventory whose path in the target differs from its
    path in the source *)
Definition noteA : SourceFileInfo :=
  {| fileName := Some "Note A.md";
     pathSourceRelative := Some "docs/Note A.md";
     pathSourceAbsolute := None;
     pathTargetRelative := Some "guides/a";
     pathTargetAbsolute := None;
     dateModified := None |}.

(** the file a wiki-style link with the inner text [match1] names: the part
    before the first bar, with [.md] added unless it ends with it *)
Definition linkedFileName (match1 : string) : string :=
  let first := List.hd EmptyString (Js.split "|" match1) in
  if negb (Js.endsWith ".md" first) then first +:+ ".md" else first.

(** the name under which [checkForAssets] registers the asset of a wiki-style
    link with the inner text [match1] *)
Definition registeredName (match1 : string) : string :=
  cleanName (List.hd EmptyString (Js.split "." match1)).

Definition emptyProcessor : FileProcessor :=
  {| sourceFileInfoList := []; assetInfoList := [] |}.

Definition someConfig : Config :=
  {| convertedImageType := "webp"; docusaurusAssetSubfolderName := "assets" |}.

(** the path [p] lies strictly below the directory [d] *)
Definition below (d p : Fs.Path) : Prop :=
  exists k, k <> [] /\ p = k ++ d.

(** [fs'] has the files of [fs] and the directories of [fs] but for some
    that lie strictly below [d] *)
Definition sweptBelow (d : Fs.Path) (fs fs' : Fs.FileSystem) : Prop :=
  Fs.files fs' = Fs.files fs
  /\ (forall p, p ∈ Fs.directories fs' -> p ∈ Fs.directories fs)
  /\ (forall p, p ∈ Fs.directories fs -> ~ below d p -> p ∈ Fs.directories fs').

(** a target tree that the deletion of its last file leaves empty *)
Definition emptiedSite : Fs.FileSystem :=
  {| Fs.directories := [[]; ["site"]; ["docs"; "site"]]; Fs.files := [] |}.

(** a target tree with a file left at its root *)
Definition siteWithFile : Fs.FileSystem :=
  {| Fs.directories := [[]; ["site"]; ["docs"; "site"]];
     Fs.files := [["b.md"; "site"]] |}.

(** the state in which a run of the handler has ended *)
Definition finalState (o : Handler.Outcome) : Handler.State :=
  match o with
  | Handler.Done st => st
  | Handler.Aborted st => st
  end.

(** whether [checkSourceFiles] converts the source file, with the entries
    [entries]: there is no entry for it, or the target of its entry is not
    there, or is older *)
Definition needsConversion (targetFiles : list Handler.MarkdownFile)
    (entries : list Handler.MdConversionEntry)
    (sourceFile : Handler.MarkdownSourceFile) : bool :=
  match list_find (fun entry => Handler.sourcePath entry
                                = Handler.absolutepath (Handler.asMarkdownFile sourceFile))
                  entries with
  | None => true
  | Some (_, entry) =>
      match list_find (fun targetFile =>
                         Handler.absolutepath targetFile = Handler.targetPath entry)
                      targetFiles with
      | None => true
      | Some (_, targetFile) =>
          Handler.dateModified (Handler.asMarkdownFile sourceFile)
          >? Handler.dateModified targetFile
      end
  end.


(** a source file of the vault, and the entry its conversion makes *)
Definition sourceA : Handler.MarkdownSourceFile :=
  {| Handler.asMarkdownFile :=
       {| Handler.absolutepath := "vault/docs/a.md"; Handler.dateModified := 1 |};
     Handler.fileTargetPath := "site/docs/a.md" |}.

Definition entryA : Handler.MdConversionEntry :=
  {| Handler.sourcePath := "vault/docs/a.md"; Handler.targetPath := "site/docs/a.md" |}.

(** the state in which [startConversion] starts the second pass *)
Definition afterFirstPass (sourceFiles : list Handler.MarkdownSourceFile)
    (targetFiles : list Handler.MarkdownFile) (st : Handler.State) : Handler.State :=
  Handler.checkTargetFiles targetFiles sourceFiles
    {| Handler.mdConversionEntries := Handler.loadMdFilesFromJson st;
       Handler.dataFile := Handler.dataFile st;
       Handler.deletedFiles := Handler.deletedFiles st;
       Handler.conversions := Handler.conversions st |}.

(** the target file written from [sourceA], with the date of [sourceA] *)
Definition targetA : Handler.MarkdownFile :=
  {| Handler.absolutepath := "site/docs/a.md"; Handler.dateModified := 1 |}.


(** a run that starts with the entry of [sourceA] in memory *)
Definition withEntryA : Handler.State :=
  {| Handler.mdConversionEntries := [entryA]; Handler.dataFile := Some [entryA];
     Handler.deletedFiles := []; Handler.conversions := [] |}.

(** an entry of [targetJson] and its source file, with the same date *)
Definition infoA : SourceFileInfo :=
  {| fileName := Some "a.md";
     pathSourceRelative := Some "docs/a.md";
     pathSourceAbsolute := Some "/vault/docs/a.md";
     pathTargetRelative := Some "../site/docs/a.md";
     pathTargetAbsolute := Some "/site/docs/a.md";
     dateModified := Some 1 |}.

(** an inventory with the documents [A] and [B] *)
Definition twoNotes : FileProcessor :=
  {| sourceFileInfoList :=
       [ {| fileName := Some "A.md"; pathSourceRelative := Some "docs/A.md";
            pathSourceAbsolute := None; pathTargetRelative := None;
            pathTargetAbsolute := None; dateModified := None |};
         {| fileName := Some "B.md"; pathSourceRelative := Some "docs/B.md";
            pathSourceAbsolute := None; pathTargetRelative := None;
            pathTargetAbsolute := None; dateModified := None |} ];
     assetInfoList := [] |}.

(** the files of the tasks that are not over *)
Definition pendingFiles {Local : Type} (tasks : list (Main.Task Local))
  : list SourceFileInfo :=
  omap (fun task => match task with
                    | Main.Running file _ => Some file
                    | Main.Settled => None
                    end) tasks.

(** a task given by what its steps end with, none of them changing the
    registry: [None] for a step that goes well, a message for a step that
    throws; the task is over after its last step *)
Definition scriptedStep (script : list (option string)) (assetJson : list Asset)
  : Main.Step (list (option string)) * list Asset :=
  match script with
  | [] => (Main.Return, assetJson)
  | None :: rest => (Main.Await rest, assetJson)
  | Some message :: _ => (Main.Raise message, assetJson)
  end.

Definition infoB : SourceFileInfo :=
  {| fileName := Some "b.md";
     pathSourceRelative := Some "docs/b.md";
     pathSourceAbsolute := Some "/vault/docs/b.md";
     pathTargetRelative := Some "../site/docs/b.md";
     pathTargetAbsolute := Some "/site/docs/b.md";
     dateModified := Some 1 |}.

(** the task of [docs/a.md] has its directory and then fails to read its
    source; the task of any other file has its directory, reads its source,
    converts it and writes its target *)
Definition readOfAFails (file : SourceFileInfo) : list (option string) :=
  if bool_decide (pathSourceRelative file = Some "docs/a.md")
  then [None; Some "read failed"]
  else [None; None; None].

(** every task has its directory, reads, converts and writes *)
Definition allGoesWell (file : SourceFileInfo) : list (option string) :=
  [None; None; None].


(** ** Notions used to state the further properties *)

(** whether [checkTargetFiles] deletes the target file, with the entries
    [entries]: there is no entry for it, or the source of its entry is not
    there, or is newer *)
Definition staleTarget (sourceFiles : list Handler.MarkdownSourceFile)
    (entries : list Handler.MdConversionEntry)
    (targetFile : Handler.MarkdownFile) : bool :=
  match list_find (fun entry => Handler.absolutepath targetFile = Handler.targetPath entry)
                  entries with
  | None => true
  | Some (_, entry) =>
      match list_find (fun sourceFile : Handler.MarkdownSourceFile =>
                         Handler.absolutepath (Handler.asMarkdownFile sourceFile)
                         = Handler.sourcePath entry) sourceFiles with
      | None => true
      | Some (_, sourceFile) =>
          Handler.dateModified (Handler.asMarkdownFile sourceFile)
          >? Handler.dateModified targetFile
      end
  end.

(** the entries without the first one for the target path [path] *)
Definition withoutTarget (entries : list Handler.MdConversionEntry)
    (targetFile : Handler.MarkdownFile) : list Handler.MdConversionEntry :=
  match list_find (fun entry => Handler.absolutepath targetFile = Handler.targetPath entry)
                  entries with
  | None => entries
  | Some (i, _) => delete i entries
  end.

(** the entry a conversion of the source file makes *)
Definition entryOf (sourceFile : Handler.MarkdownSourceFile) : Handler.MdConversionEntry :=
  {| Handler.sourcePath := Handler.absolutepath (Handler.asMarkdownFile sourceFile);
     Handler.targetPath := Handler.fileTargetPath sourceFile |}.

(** the state a run of the handler starts the first pass with *)
Definition loaded (st : Handler.State) : Handler.State :=
  {| Handler.mdConversionEntries := Handler.loadMdFilesFromJson st;
     Handler.dataFile := Handler.dataFile st;
     Handler.deletedFiles := Handler.deletedFiles st;
     Handler.conversions := Handler.conversions st |}.

(** whether [getFilesToDelete] lists an entry of [targetJson] *)
Definition listedForDeletion (sourceJson : list SourceFileInfo)
    (targetFile : SourceFileInfo) : bool :=
  match Main.fileToDelete sourceJson 0 targetFile with
  | Some _ => true
  | None => false
  end.

(** the list without the last occurrence of [key], if there is one *)
Fixpoint withoutLast (key : string) (l : list string) : option (list string) :=
  match l with
  | [] => None
  | x :: rest =>
      match withoutLast key rest with
      | Some rest' => Some (x :: rest')
      | None => if String.eqb x key then Some rest else None
      end
  end.

(** what is left of an inclusion once the document [key] is deleted: the
    inclusion goes when the document was its only user *)
Definition inclusionWithout (key : string) (inclusion : Sync.AssetType)
  : list Sync.AssetType :=
  match withoutLast key (Sync.files inclusion) with
  | Some [] => []
  | Some files' => [ {| Sync.files := files' |} ]
  | None => [inclusion]
  end.

(** what is left of an asset: the asset goes when it had inclusions and none
    is left *)
Definition assetWithout (key : string) (asset : Sync.AssetFileInfo)
  : list Sync.AssetFileInfo :=
  let inclusions := Sync.AssetTypeInDocument asset ≫= inclusionWithout key in
  match Sync.AssetTypeInDocument asset, inclusions with
  | _ :: _, [] => []
  | _, _ => [ {| Sync.AssetTypeInDocument := inclusions |} ]
  end.

(** the registry after the deletion of the document of [fileToDelete] *)
Definition documentForgotten (assetJson : list Sync.AssetFileInfo)
    (fileToDelete : Main.FilesToProcess) : list Sync.AssetFileInfo :=
  match Main.pathKey fileToDelete with
  | Some key => if Js.truthy key then assetJson ≫= assetWithout key else assetJson
  | None => assetJson
  end.

(** the registry after the deletion of the documents of [filesToDelete] *)
Definition registryWithout (filesToDelete : list Main.FilesToProcess)
    (assetJson : list Sync.AssetFileInfo) : list Sync.AssetFileInfo :=
  foldl documentForgotten assetJson filesToDelete.

(** whether a source file has no entry in [targetJson] *)
Definition withoutEntry (targetJson : list SourceFileInfo) (sourceFile : SourceFileInfo)
  : bool :=
  match Main.findByPath (pathSourceRelative sourceFile) targetJson with
  | None => true
  | Some _ => false
  end.


Definition isNil {A : Type} (l : list A) : bool :=
  match l with [] => true | _ :: _ => false end.

(** the document [key] is among the users of an inclusion of an asset *)
Definition mentions (key : string) (assetJson : list Sync.AssetFileInfo) : Prop :=
  exists asset inclusion,
    asset ∈ assetJson /\ inclusion ∈ Sync.AssetTypeInDocument asset
    /\ key ∈ Sync.files inclusion.

(** every asset has an inclusion, and every inclusion has users, each
    listed once *)
Definition neat (assetJson : list Sync.AssetFileInfo) : Prop :=
  forall asset, asset ∈ assetJson ->
    Sync.AssetTypeInDocument asset <> []
    /\ forall inclusion, inclusion ∈ Sync.AssetTypeInDocument asset ->
         Sync.files inclusion <> [] /\ NoDup (Sync.files inclusion).

(** [key] is the path key of a file to delete *)
Definition deletedKey (filesToDelete : list Main.FilesToProcess) (key : string) : Prop :=
  exists fileToDelete,
    fileToDelete ∈ filesToDelete /\ Main.pathKey fileToDelete = Some key
    /\ Js.truthy key = true.

(** a registry with one asset, used by two documents *)
Definition registryAB : list Sync.AssetFileInfo :=
  [ {| Sync.AssetTypeInDocument := [ {| Sync.files := ["docs/a.md"; "docs/b.md"] |} ] |} ].

(** the entry of [infoA], listed for deletion *)
Definition deleteA : Main.FilesToProcess :=
  {| Main.index := 0; Main.reason := Main.NotInSourceJson;
     Main.pathKey := Some "docs/a.md" |}.

(** the text whose lines are [lines], each ended by [eol] *)
Definition unlines (eol : string) (lines : list string) : string :=
  foldr (fun line rest => line +:+ eol +:+ rest) "" lines.

Definition crlf : string := String (ascii_of_nat 13) Js.nl.

(** the line holds none of the marks the rewrites of links and assets look
    for: two opening brackets, an opening bracket after an exclamation mark,
    an opening parenthesis after a closing bracket *)
Definition noLinkSyntax (line : string) : bool :=
  negb (Js.includes "[[" line) && negb (Js.includes "![" line)
  && negb (Js.includes "](" line).

(** a line that is not the start of a callout either: it does not begin
    with [>], or holds no [[!] *)
Definition plainLine (line : string) : bool :=
  noLinkSyntax line && negb (Js.startsWith ">" line && Js.includes "[!" line).

(** the state in which [processMarkdown] starts, and is between blocks *)
Definition idleState (content : string) (assetJson : list Asset) : LoopState :=
  {| transformedContent := content; inAdmonition := false; inQuote := false;
     admonition := idle; registry := assetJson |}.

(** the start of a callout of type [ty] with the title text [ti], after the
    white space [ws] *)
Definition calloutStart (ws ty ti : string) : string :=
  ">" +:+ ws +:+ "[!" +:+ ty +:+ "]" +:+ ti.

(** the fence that opens the block in the output *)
Definition openingFence (ty ti : string) : string :=
  ":::" +:+ ty +:+ (if Js.truthy (Js.trim ti) then " " +:+ Js.trim ti else "") +:+ Js.nl.

(** the line is neither empty nor made of white space *)
Definition notBlank (line : string) : bool := negb (String.eqb (Js.trim line) "").

(** text within ASCII: on such text the white space, the letters and the
    lengths of the model are those of JavaScript *)
Definition asciiText (text : string) : bool :=
  Js.all (fun c => Nat.ltb (Js.code c) 128) text.

(** the state of the loop inside or after a block opened by [calloutStart] *)
Definition blockState (content : string) (inside quote : bool) (ws ty ti : string)
    (assetJson : list Asset) : LoopState :=
  {| transformedContent := content;
     inAdmonition := inside; inQuote := quote;
     admonition := {| type := ty; title := Js.trim ti;
                      whitespaces := Z.of_nat (S (String.length ws)) |};
     registry := assetJson |}.

(** the lines that close a quote in the output *)
Definition quoteFooter (ti : string) : string :=
  ">" +:+ Js.nl +:+ "> â€” " +:+ Js.trim ti +:+ Js.nl.

(** the parts of a path that starts at the root: an empty part, then at
    least one part *)
Definition rooted (urlParts : list string) : Prop :=
  exists part rest, urlParts = "" :: part :: rest.

(** a configuration of the main process, with English as main language *)
Definition vaultSettings : Vault.Settings :=
  {| Vault.obsidianAssetSubfolderName := "assets"; Vault.mainLanguage := "en";
     Vault.docusaurusWebsiteDirectory := "website";
     Vault.docusaurusAssetSubfolderName := "img" |}.

(** the name and the extension of a file name, split at its last dot *)
Definition parseAtLastDot (fileName' : string) : string * string :=
  match cutLast "." fileName' with
  | Some (name, extension) => (name, "." +:+ extension)
  | None => (fileName', "")
  end.

(** path functions that keep their arguments apart *)
Definition joinWithBars (a b c : string) : string := a +:+ "|" +:+ b +:+ "|" +:+ c.
Definition resolveWithBars (a b c d : string) : string :=
  a +:+ "|" +:+ b +:+ "|" +:+ c +:+ "|" +:+ d.

(** a file without extension in the folder [docs] *)
Definition readmeFile : Vault.VaultFile :=
  {| Vault.filePath := "/vault/docs/README"; Vault.baseName := "README";
     Vault.relativePath := "docs/README"; Vault.parentName := "docs";
     Vault.mtime := 1; Vault.statSize := 10 |}.

Definition docsFolder (files : list Vault.VaultFile) : Vault.MainFolder :=
  {| Vault.name := "docs"; Vault.type := "docs"; Vault.files := files |}.

(** a file of the folder [Topic+] of [docs], in the main language *)
Definition pageFile (file : string) : Vault.SourceFileDetails :=
  {| Vault.base :=
       {| fileName := Some file;
          pathSourceRelative :=
            Some (("docs" +:+ Vault.sep +:+ "Topic+") +:+ Vault.sep +:+ file);
          pathSourceAbsolute := None; pathTargetRelative := None;
          pathTargetAbsolute := None; dateModified := Some 1 |};
     Vault.fileNameClean := None;
     Vault.fileExtension := Some ".md";
     Vault.language := Some "en";
     Vault.mainFolder := Some "docs";
     Vault.parentFolder := Some "Topic+";
     Vault.fileType := Some "docs";
     Vault.size := None |}.

(** whether [getMainfolders] keeps an entry of the vault folder: a
    directory whose name holds [blog], [docs] or the name of the asset
    folder *)
Definition keptFolder (config : Vault.Settings) (object : string * bool) : bool :=
  snd object
  && (Js.includes "blog" (fst object) || Js.includes "docs" (fst object)
      || Js.includes (Vault.obsidianAssetSubfolderName config) (fst object)).

(** every directory but the root has its parent directory *)
Definition closed (fs : Fs.FileSystem) : Prop :=
  forall x p, x :: p ∈ Fs.directories fs -> p ∈ Fs.directories fs.

(** no directory strictly below [d] is empty *)
Definition noEmptyBelow (d : Fs.Path) (fs : Fs.FileSystem) : Prop :=
  forall e, e ∈ Fs.directories fs -> below d e -> Fs.readdir e fs <> [].

(** a size variant with, maybe, more documents and more names, after those
    it had *)
Definition sizeGrows (s s' : Size) : Prop :=
  size s' = size s
  /\ inDocuments s `prefix_of` inDocuments s'
  /\ newName s `prefix_of` newName s'.

(** size variants that have grown, with, maybe, more variants after them *)
Definition sizesGrow (sizes sizes' : list Size) : Prop :=
  forall j s, sizes !! j = Some s -> exists s', sizes' !! j = Some s' /\ sizeGrows s s'.

(** the same asset, as it was registered, with size variants that have
    grown *)
Definition assetGrows (a a' : Asset) : Prop :=
  assetFileName a' = assetFileName a
  /\ originalFileName a' = originalFileName a
  /\ fileExtension a' = fileExtension a
  /\ assetDateModified a' = assetDateModified a
  /\ sourcePathRelative a' = sourcePathRelative a
  /\ sizesGrow (sizes a) (sizes a').

(** a registry whose assets have grown, with, maybe, more assets after them *)
Definition registryGrows (assetJson assetJson' : list Asset) : Prop :=
  forall i a, assetJson !! i = Some a ->
    exists a', assetJson' !! i = Some a' /\ assetGrows a a'.

(** a registry with the image [pic], used by the document [a.md], and the
    registry after the conversion of [b.md], which uses it too *)
Definition registryPic (documents names : list string) : list Asset :=
  [ {| assetFileName := "pic"; originalFileName := Some "pic.png";
       fileExtension := Some "png"; assetDateModified := "t1";
       sourcePathRelative := "img/pic.png";
       sizes := [ {| size := "standard"; inDocuments := documents;
                     newName := names |} ] |} ].

(** * Properties *)

(** ** The definitions on examples *)

Example split_ex :
  Js.split "/" "02-guide/03-intro.md" = ["02-guide"; "03-intro.md"]
  /\ Js.split "." "" = [""] /\ Js.split "|" "a||b" = ["a"; ""; "b"].
Proof. repeat split. Qed.
Example replace_ex :
  Js.replace "b" "[$&$$]" "abcb" = "a[b$]cb" /\ Js.replace "a" "$'" "xay" = "xyy"
  /\ Js.replace "+" "" "a+b+" = "ab+" /\ Js.replace "q" "r" "abc" = "abc".
Proof. repeat split. Qed.
Example replaceAll_ex : Js.replaceAll "%20" "_" "a%20b%20%2" = "a_b_%2".
Proof. reflexivity. Qed.
Example trim_ex : Js.trim "  a b  " = "a b" /\ Js.trim "   " = "".
Proof. split; reflexivity. Qed.
Example endsWith_ex :
  Js.endsWith ".md" "x.md" = true /\ Js.endsWith ".md" "md" = false
  /\ Js.endsWith "" "abc" = true.
Proof. repeat split. Qed.
Example slice_ex :
  Js.slice 2 "> body text" = "body text" /\ Js.slice (-2) "hello" = "lo"
  /\ Js.slice 9 "abc" = "".
Proof. repeat split. Qed.
Example indexOf_ex : Js.indexOf "[" "> [!x]" = 2 /\ Js.indexOf "q" "abc" = -1.
Proof. split; reflexivity. Qed.
Example matchWiki_ex :
  matchWiki "see ![[a|b]] and [[c]]"
  = Some {| before := "see "; groups := ("![[a|b]]", "a|b"); after := " and [[c]]" |}.
Proof. reflexivity. Qed.
Example matchLink_ex :
  matchLink "a [x](p/q) [y](r)"
  = Some {| before := "a "; groups := ("x", "p/q"); after := " [y](r)" |}.
Proof. reflexivity. Qed.
Example matchAsset_ex :
  matchAsset "![|100x20](img/a b.png) t"
  = Some {| before := ""; groups := (Some "100x20", "img/a b.png"); after := " t" |}.
Proof. reflexivity. Qed.
Example matchAdmonition_ex :
  matchAdmonition "> [!warning] Careful" = Some ("warning", " Careful").
Proof. reflexivity. Qed.
Example removeNumberPrefix_ex :
  removeNumberPrefix <$> ["02-guide"; "1) a"; "10-20things"; "x1"] = ["guide"; "a"; "things"; "x1"].
Proof. reflexivity. Qed.
Example checkForLinks_ex1 : checkForLinks "[x](a/b.md#My%20Part)" = Ok "[x](/a/b#my-part)".
Proof. reflexivity. Qed.
Example checkForLinks_ex2 :
  checkForLinks "[x](posts__blog/2023-01-my+/01-part-one.md)" = Ok "[x](/posts/2023/01/my)".
Proof. reflexivity. Qed.
Example readLines_ex :
  readLines ("a" +:+ Js.nl +:+ "b" +:+ Js.nl +:+ Js.nl) = ["a"; "b"; ""].
Proof. reflexivity. Qed.
Example deleteParentDirectories_ex :
  Fs.deleteParentDirectories ["a.md"; "guide"; "docs"; "site"]
    {| Fs.directories := [[]; ["site"]; ["docs"; "site"]; ["guide"; "docs"; "site"]];
       Fs.files := [["b.md"; "docs"; "site"]] |}
  = ({| Fs.directories := [[]; ["site"]; ["docs"; "site"]];
        Fs.files := [["b.md"; "docs"; "site"]] |},
     [Fs.DeletedDirectory ["guide"; "docs"; "site"]]).
Proof. reflexivity. Qed.
Example removeEmptyDirectories_ex :
  Fs.removeEmptyDirectories 5 ["vault"] ["site"]
    {| Fs.directories := [[]; ["site"]; ["docs"; "site"]; ["guide"; "docs"; "site"];
                          ["blog"; "site"]];
       Fs.files := [["b.md"; "blog"; "site"]] |}
  = Some (Ok {| Fs.directories := [[]; ["site"]; ["blog"; "site"]];
                Fs.files := [["b.md"; "blog"; "site"]] |}).
Proof. reflexivity. Qed.

(** ** Strings *)

#[local] Arguments String.append !_ _ / : simpl nomatch.

Lemma sapp_assoc (a b c : string) : (a +:+ b) +:+ c = a +:+ (b +:+ c).
Proof. induction a as [|x a IH]; simpl; [reflexivity | now rewrite IH]. Qed.

Lemma sapp_nil_r (a : string) : a +:+ "" = a.
Proof. induction a as [|x a IH]; simpl; [reflexivity | now rewrite IH]. Qed.

Lemma slength_app (a b : string) :
  String.length (a +:+ b) = (String.length a + String.length b)%nat.
Proof. induction a as [|x a IH]; simpl; [reflexivity | now rewrite IH]. Qed.

Lemma drop_app (p r : string) : Js.drop (String.length p) (p +:+ r) = r.
Proof. induction p as [|x p IH]; simpl; [reflexivity | exact IH]. Qed.

Lemma startsWith_app (p r : string) : Js.startsWith p (p +:+ r) = true.
Proof.
  unfold Js.startsWith. induction p as [|x p IH]; simpl.
  - now destruct r.
  - destruct (ascii_dec x x); [exact IH | congruence].
Qed.

Lemma startsWith_inv (p s : string) :
  Js.startsWith p s = true -> s = p +:+ Js.drop (String.length p) s.
Proof.
  unfold Js.startsWith. revert s. induction p as [|x p IH]; intros s H; simpl.
  - reflexivity.
  - destruct s as [|y s]; simpl in H; [discriminate|].
    destruct (ascii_dec x y) as [->|]; [|discriminate].
    simpl. f_equal. now apply IH.
Qed.

Lemma cut_eq (n s : string) :
  Js.cut n s =
  if Js.startsWith n s then Some ("", Js.drop (String.length n) s)
  else match s with
       | "" => None
       | String c s' =>
           match Js.cut n s' with
           | Some (b, a) => Some (String c b, a)
           | None => None
           end
       end.
Proof. destruct s; reflexivity. Qed.

(** the first occurrence of [n] splits the string around [n] *)
Lemma cut_Some (n s b a : string) :
  Js.cut n s = Some (b, a) -> s = b +:+ n +:+ a.
Proof.
  revert b a. induction s as [|c s IH]; intros b a H; rewrite cut_eq in H;
    destruct (Js.startsWith n _) eqn:E.
  - injection H as <- <-. now apply startsWith_inv.
  - discriminate.
  - injection H as <- <-. now apply startsWith_inv.
  - destruct (Js.cut n s) as [[b' a']|] eqn:E'; [|discriminate].
    injection H as <- <-. simpl. f_equal. now apply IH.
Qed.

(** an occurrence of [n] after [x] puts the first one at most that far *)
Lemma cut_first (n x y : string) :
  exists b a, Js.cut n (x +:+ n +:+ y) = Some (b, a)
              /\ (String.length b <= String.length x)%nat.
Proof.
  induction x as [|c x IH].
  - exists "", y. change ("" +:+ n +:+ y) with (n +:+ y).
    rewrite cut_eq, startsWith_app, drop_app. split; [reflexivity | simpl; lia].
  - destruct IH as (b & a & Hc & Hl).
    change (String c x +:+ n +:+ y) with (String c (x +:+ n +:+ y)).
    rewrite cut_eq. destruct (Js.startsWith n _) eqn:E.
    + eexists _, _. split; [reflexivity | simpl; lia].
    + rewrite Hc. exists (String c b), a. split; [reflexivity | simpl; lia].
Qed.

(** two ways to split a string: the shorter head is a prefix of the longer *)
Lemma sapp_split (u v u' v' : string) :
  u +:+ v = u' +:+ v' -> (String.length u <= String.length u')%nat ->
  exists w, u' = u +:+ w /\ v = w +:+ v'.
Proof.
  revert u'. induction u as [|c u IH]; intros u' H Hl.
  - exists u'. simpl in *. auto.
  - destruct u' as [|c' u']; simpl in Hl; [lia|].
    simpl in H. injection H as -> H.
    destruct (IH u' H ltac:(lia)) as (w & -> & ->).
    exists w. auto.
Qed.

(** what follows a later occurrence also follows the first one *)
Lemma cut_keeps_after (n x y : string) :
  exists b a mid, Js.cut n (x +:+ n +:+ y) = Some (b, a) /\ a = mid +:+ y.
Proof.
  destruct (cut_first n x y) as (b & a & Hc & Hl).
  pose proof (cut_Some _ _ _ _ Hc) as E.
  rewrite <- !sapp_assoc in E.
  symmetry in E. apply sapp_split in E; [|rewrite !slength_app; lia].
  destruct E as (w & _ & ->). now exists b, (w +:+ y), w.
Qed.

(** normal form of appended strings *)
Ltac snorm := repeat first [rewrite sapp_assoc | progress simpl].

(** a match of [search] splits the line around the matched text *)
Lemma search_Some {G : Type} (at_ : string -> option (G * string))
    (text : G -> string) :
  (forall s g r, at_ s = Some (g, r) -> s = text g +:+ r) ->
  forall s m, search at_ s = Some m ->
    s = before m +:+ text (groups m) +:+ after m.
Proof.
  intros Hat. induction s as [|c s IH]; intros m H; simpl in H.
  - destruct (at_ "") as [[g r]|] eqn:E; [|discriminate].
    injection H as <-. simpl. now apply Hat.
  - destruct (at_ (String c s)) as [[g r]|] eqn:E.
    + injection H as <-. simpl. now apply Hat.
    + destruct (search at_ s) as [m'|] eqn:E'; [|discriminate].
      injection H as <-. simpl. f_equal. now apply IH.
Qed.

Lemma wikiAt_text (s : string) (g : string * string) (r : string) :
  wikiAt s = Some (g, r) -> s = fst g +:+ r.
Proof.
  unfold wikiAt. intros H.
  set (bang := if Js.startsWith "!" s then "!" else "") in *.
  assert (Hb : s = bang +:+ Js.drop (String.length bang) s).
  { subst bang. destruct (Js.startsWith "!" s) eqn:E; [|reflexivity].
    now apply startsWith_inv. }
  destruct (Js.startsWith "[[" (Js.drop (String.length bang) s)) eqn:E1; [|discriminate].
  apply startsWith_inv in E1.
  destruct (Js.cut "]]" _) as [[inner rest]|] eqn:E2; [|discriminate].
  apply cut_Some in E2.
  destruct (noLineTerminator inner); [|discriminate].
  injection H as <- <-. cbn [fst].
  rewrite Hb at 1. rewrite E1 at 1. rewrite E2 at 1.
  snorm. reflexivity.
Qed.

Lemma matchWiki_Some (line : string) (m : Match (string * string)) :
  matchWiki line = Some m ->
  line = before m +:+ fst (groups m) +:+ after m.
Proof. apply search_Some. apply wikiAt_text. Qed.

Lemma linkAt_text (s : string) (g : string * string) (r : string) :
  linkAt s = Some (g, r) -> s = linkText g +:+ r.
Proof.
  unfold linkAt, linkText. intros H.
  destruct (Js.startsWith "[" s) eqn:E0; [|discriminate].
  apply startsWith_inv in E0.
  destruct (Js.cut "]" _) as [[text r1]|] eqn:E1; [|discriminate].
  apply cut_Some in E1.
  destruct (Js.truthy text && Js.startsWith "(" r1) eqn:E2; [|discriminate].
  apply andb_prop in E2 as [_ E2]. apply startsWith_inv in E2.
  destruct (Js.cut ")" _) as [[url rest]|] eqn:E3; [|discriminate].
  apply cut_Some in E3.
  destruct (Js.truthy url); [|discriminate].
  injection H as <- <-. cbn [fst snd].
  rewrite E0 at 1. rewrite E1 at 1. rewrite E2 at 1. rewrite E3 at 1.
  snorm. reflexivity.
Qed.

Lemma matchLink_Some (line : string) (m : Match (string * string)) :
  matchLink line = Some m ->
  line = before m +:+ linkText (groups m) +:+ after m.
Proof. apply search_Some. apply linkAt_text. Qed.

Lemma all_app (p : ascii -> bool) (a b : string) :
  Js.all p (a +:+ b) = Js.all p a && Js.all p b.
Proof. induction a as [|c a IH]; simpl; [reflexivity | now rewrite IH, andb_assoc]. Qed.

(** a replacement text without [$] stands for itself *)
Lemma getSubstitution_plain (matched b a tmpl : string) :
  plain tmpl = true -> Js.getSubstitution matched b a tmpl = tmpl.
Proof.
  unfold plain. induction tmpl as [|c r IH]; intros H; [reflexivity|].
  simpl in H. apply andb_prop in H as [Hc Hr].
  simpl. apply negb_true_iff in Hc. rewrite Hc. now rewrite IH.
Qed.

Lemma replace_whole (pat repl : string) :
  plain repl = true -> Js.replace pat repl pat = repl.
Proof.
  intros H. unfold Js.replace.
  destruct (cut_first pat "" "") as (b & a & Hc & Hl).
  simpl in Hc. rewrite sapp_nil_r in Hc. rewrite Hc.
  destruct b; [|simpl in Hl; lia].
  apply cut_Some in Hc. simpl in Hc.
  assert (a = "").
  { destruct a; [reflexivity|]. apply (f_equal String.length) in Hc.
    rewrite slength_app in Hc. simpl in Hc. lia. }
  subst a. rewrite getSubstitution_plain by assumption. simpl. apply sapp_nil_r.
Qed.

(** the match of [search] is the first one: the pattern applies where the
    match begins, and nowhere before *)
Lemma search_at {G : Type} (at_ : string -> option (G * string)) (s : string)
    (m : Match G) :
  search at_ s = Some m ->
  (exists y, s = before m +:+ y /\ at_ y = Some (groups m, after m))
  /\ (forall x y, s = x +:+ y ->
        (String.length x < String.length (before m))%nat -> at_ y = None).
Proof.
  revert m. induction s as [|c s IH]; intros m H; cbn [search] in H.
  - destruct (at_ "") as [[g r]|] eqn:E; [|discriminate].
    injection H as <-. cbn. split; [eauto | intros; lia].
  - destruct (at_ (String c s)) as [[g r]|] eqn:E.
    + injection H as <-. cbn. split; [eauto | intros; lia].
    + destruct (search at_ s) as [m'|] eqn:E'; [|discriminate].
      injection H as <-. cbn [before groups after].
      destruct (IH m' eq_refl) as ((y & Hy & Hat) & Hfirst). split.
      * exists y. split; [cbn; now f_equal | exact Hat].
      * intros x y' Hs Hlen. destruct x as [|c' x].
        -- cbn in Hs. now subst y'.
        -- cbn in Hs. injection Hs as <- Hs. apply (Hfirst x y' Hs).
           cbn in Hlen. lia.
Qed.

Lemma wikiAt_open (x : string) :
  wikiAt (String "[" (String "[" x))
  = match Js.cut "]]" x with
    | Some (inner, rest) =>
        if noLineTerminator inner
        then Some (("" +:+ "[[" +:+ inner +:+ "]]", inner), rest) else None
    | None => None
    end.
Proof. destruct x; reflexivity. Qed.

Lemma wikiAt_bang (x : string) :
  wikiAt (String "!" (String "[" (String "[" x)))
  = match Js.cut "]]" x with
    | Some (inner, rest) =>
        if noLineTerminator inner
        then Some (("!" +:+ "[[" +:+ inner +:+ "]]", inner), rest) else None
    | None => None
    end.
Proof. destruct x; reflexivity. Qed.

(** the pattern of a wiki-style link applies wherever the text of a match
    stands *)
Lemma wikiAt_again (s r a : string) (g : string * string) :
  wikiAt s = Some (g, r) -> wikiAt (fst g +:+ a) <> None.
Proof.
  unfold wikiAt at 1.
  set (bang := if Js.startsWith "!" s then "!" else "").
  destruct (Js.startsWith "[[" _); [|discriminate].
  destruct (Js.cut "]]" _) as [[inner rest]|]; [|discriminate].
  destruct (noLineTerminator inner) eqn:Hinner; [|discriminate].
  intros [= <- <-]. cbn [fst].
  assert (Hcut : exists b' a', Js.cut "]]" (inner +:+ "]]" +:+ a) = Some (b', a')
                               /\ noLineTerminator b' = true).
  { destruct (cut_first "]]" inner a) as (b' & a' & Hc & Hl).
    exists b', a'. split; [exact Hc|].
    pose proof (cut_Some _ _ _ _ Hc) as E.
    symmetry in E. apply sapp_split in E as (w & -> & _); [|exact Hl].
    unfold noLineTerminator in *. rewrite all_app in Hinner.
    now apply andb_prop in Hinner as [-> _]. }
  destruct Hcut as (b' & a' & Hc & Hb').
  subst bang. destruct (Js.startsWith "!" s); cbv iota.
  - change (wikiAt (String "!" (String "[" (String "[" ((inner +:+ "]]") +:+ a))))
            <> None).
    rewrite wikiAt_bang, sapp_assoc, Hc, Hb'. discriminate.
  - change (wikiAt (String "[" (String "[" ((inner +:+ "]]") +:+ a))) <> None).
    rewrite wikiAt_open, sapp_assoc, Hc, Hb'. discriminate.
Qed.

(** the text of the first wiki-style link stands nowhere before it *)
Lemma matchWiki_cut (line : string) (m : Match (string * string)) :
  matchWiki line = Some m ->
  Js.cut (fst (groups m)) line = Some (before m, after m).
Proof.
  intros H. pose proof (matchWiki_Some _ _ H) as E.
  destruct (search_at _ _ _ H) as ((y & _ & Hat) & Hfirst).
  destruct (cut_first (fst (groups m)) (before m) (after m)) as (b & a & Hc & Hl).
  rewrite <- E in Hc. rewrite Hc. pose proof (cut_Some _ _ _ _ Hc) as E'.
  destruct (decide (String.length b < String.length (before m))%nat) as [Hlt|Hge].
  - exfalso. apply (wikiAt_again _ _ a _ Hat). now apply (Hfirst b).
  - rewrite E in E'. symmetry in E'.
    apply sapp_split in E' as (w & Hw & Ha); [|lia].
    assert (w = "").
    { apply (f_equal String.length) in Hw. rewrite slength_app in Hw.
      destruct w; [reflexivity | simpl in Hw; lia]. }
    subst w. rewrite sapp_nil_r in Hw. subst b. cbn in Ha.
    apply String.app_inj in Ha. now subst a.
Qed.

(** ** Lists *)

Section ListFind.
Context {A : Type} (P : A -> Prop) `{!forall x, Decision (P x)}.

Lemma list_find_insert_same (l : list A) (i : nat) (x y : A) :
  list_find P l = Some (i, x) -> P y -> list_find P (<[i:=y]> l) = Some (i, y).
Proof.
  intros (Hx & _ & Hmin)%list_find_Some Hy. apply list_find_Some.
  split; [|split; [exact Hy|]].
  - apply list_lookup_insert_eq. now apply lookup_lt_Some in Hx.
  - intros j z Hz Hj. rewrite list_lookup_insert_ne in Hz by lia. eauto.
Qed.

Lemma list_find_snoc_new (l : list A) (y : A) :
  list_find P l = None -> P y -> list_find P (l ++ [y]) = Some (length l, y).
Proof.
  intros Hnone Hy. rewrite list_find_app_r by exact Hnone.
  cbn. destruct (decide (P y)); [|contradiction]. reflexivity.
Qed.

End ListFind.

Lemma insert_snoc {A : Type} (l : list A) (x y : A) :
  <[length l := y]> (l ++ [x]) = l ++ [y].
Proof.
  replace (length l) with (length l + 0)%nat by lia. now rewrite insert_app_r.
Qed.

Section FirstMatch.
Context {A : Type} (P : A -> Prop) `{!forall x, Decision (P x)}.



End FirstMatch.

Lemma delete_app_lt {A : Type} (a b : list A) (i : nat) :
  (i < length a)%nat -> delete i (a ++ b) = delete i a ++ b.
Proof.
  revert i. induction a as [|x a IH]; intros i Hi; simpl in Hi; [lia|].
  destruct i as [|i]; [reflexivity|]. cbn. f_equal. apply IH. lia.
Qed.

Lemma delete_app_ge {A : Type} (a b : list A) (i : nat) :
  (length a <= i)%nat -> delete i (a ++ b) = a ++ delete (i - length a)%nat b.
Proof.
  revert i. induction a as [|x a IH]; intros i Hi.
  - cbn. now rewrite Nat.sub_0_r.
  - destruct i as [|i]; simpl in Hi; [lia|]. cbn. f_equal. apply IH. lia.
Qed.


Lemma foldl_invariant {A B : Type} (f : B -> A -> B) (I : B -> Prop) (l : list A) :
  forall b, I b -> (forall b a, a ∈ l -> I b -> I (f b a)) -> I (foldl f b l).
Proof.
  induction l as [|a l IH]; intros b Hb Hstep; [exact Hb|].
  cbn [foldl]. apply IH.
  - apply Hstep; [left | exact Hb].
  - intros b' a' Ha'. apply Hstep. now right.
Qed.

(** ** The handler: the two passes over the entries *)

Section HandlerRun.
Import Handler.

Variable convertOk : MarkdownSourceFile -> bool.
Variable sourceFiles : list MarkdownSourceFile.

(** what one step of the first pass does to the entries and to the calls *)
Lemma checkTargetFile_effect (st : State) (targetFile : MarkdownFile) :
  dataFile (checkTargetFile sourceFiles st targetFile) = dataFile st
  /\ conversions (checkTargetFile sourceFiles st targetFile) = conversions st
  /\ (mdConversionEntries (checkTargetFile sourceFiles st targetFile)
        = mdConversionEntries st
      \/ exists i x, mdConversionEntries st !! i = Some x
                     /\ absolutepath targetFile = targetPath x
                     /\ mdConversionEntries (checkTargetFile sourceFiles st targetFile)
                        = delete i (mdConversionEntries st))
  /\ (deletedFiles (checkTargetFile sourceFiles st targetFile) = deletedFiles st
      \/ deletedFiles (checkTargetFile sourceFiles st targetFile)
         = deletedFiles st ++ [targetFile]).
Proof.
  unfold checkTargetFile.
  destruct (list_find _ (mdConversionEntries st)) as [[i x]|] eqn:Hfind.
  - apply list_find_Some in Hfind as (Hx & HP & _).
    assert (Hdel : forall st', st' = deleteAndLog targetFile (Some i) st ->
              dataFile st' = dataFile st /\ conversions st' = conversions st
              /\ (mdConversionEntries st' = mdConversionEntries st
                  \/ exists i x, mdConversionEntries st !! i = Some x
                       /\ absolutepath targetFile = targetPath x
                       /\ mdConversionEntries st' = delete i (mdConversionEntries st))
              /\ (deletedFiles st' = deletedFiles st
                  \/ deletedFiles st' = deletedFiles st ++ [targetFile])).
    { intros st' ->. cbn. repeat split; eauto 10. }
    destruct (list_find _ sourceFiles) as [[j sourceFile]|]; [|now apply Hdel].
    destruct (dateModified sourceFile >? dateModified targetFile); [now apply Hdel|].
    auto.
  - cbn. auto.
Qed.



(** the first pass deletes target files of its list only, and converts none *)
Lemma checkTargetFiles_calls (targetFiles : list MarkdownFile) :
  forall st,
  conversions (checkTargetFiles targetFiles sourceFiles st) = conversions st
  /\ dataFile (checkTargetFiles targetFiles sourceFiles st) = dataFile st
  /\ (forall x, x ∈ deletedFiles (checkTargetFiles targetFiles sourceFiles st) ->
        x ∈ deletedFiles st \/ x ∈ targetFiles)
  /\ (forall x, x ∈ deletedFiles st ->
        x ∈ deletedFiles (checkTargetFiles targetFiles sourceFiles st)).
Proof.
  induction targetFiles as [|t ts IH]; intros st.
  - cbn. auto.
  - cbn [checkTargetFiles foldl].
    destruct (IH (checkTargetFile sourceFiles st t)) as (Hc & Hd & Hdel & Hmono).
    destruct (checkTargetFile_effect st t) as (Hd1 & Hc1 & _ & Hdel1).
    unfold checkTargetFiles in *.
    split; [congruence|]. split; [congruence|]. split.
    + intros x Hx. apply Hdel in Hx as [Hx|Hx]; [|right; now right].
      destruct Hdel1 as [E|E]; rewrite E in Hx; [now left|].
      apply elem_of_app in Hx as [Hx|Hx%list_elem_of_singleton]; [now left|].
      subst. right. now left.
    + intros x Hx. apply Hmono.
      destruct Hdel1 as [E|E]; rewrite E; [exact Hx|].
      apply elem_of_app. now left.
Qed.


End HandlerRun.

Section HandlerSecondPass.
Import Handler.

Variable convertOk : MarkdownSourceFile -> bool.
Variable targetFiles : list MarkdownFile.

(** the second pass converts a source file exactly when [needsConversion] *)
Lemma checkSourceFile_eq (st : State) (sourceFile : MarkdownSourceFile) :
  checkSourceFile convertOk targetFiles st sourceFile
  = if needsConversion targetFiles (mdConversionEntries st) sourceFile
    then convertAndLog convertOk sourceFile st
    else Done st.
Proof.
  unfold checkSourceFile, needsConversion.
  destruct (list_find _ (mdConversionEntries st)) as [[i entry]|]; [|reflexivity].
  destruct (list_find _ targetFiles) as [[j targetFile]|]; reflexivity.
Qed.

(** a conversion adds entries at the end only, and the source file to the
    calls; the data file is not touched *)
Lemma convertAndLog_effect (st : State) (sourceFile : MarkdownSourceFile) :
  let st' := finalState (convertAndLog convertOk sourceFile st) in
  (exists added, mdConversionEntries st' = mdConversionEntries st ++ added)
  /\ conversions st' = conversions st ++ [sourceFile]
  /\ dataFile st' = dataFile st
  /\ deletedFiles st' = deletedFiles st.
Proof.
  unfold convertAndLog. destruct (convertOk sourceFile); cbn.
  - split; [eauto|]. auto.
  - split; [exists []; now rewrite app_nil_r|]. auto.
Qed.


End HandlerSecondPass.

Section HandlerReconcile.
Import Handler.



End HandlerReconcile.

(** ** The main process: the entries to delete and the files to process *)

Section MainPasses.

Variable sourceJson : list SourceFileInfo.

Lemma fileToDelete_index (i : nat) (targetFile : SourceFileInfo) (f : Main.FilesToProcess) :
  Main.fileToDelete sourceJson i targetFile = Some f -> Main.index f = i.
Proof.
  unfold Main.fileToDelete.
  destruct (Main.findByPath _ sourceJson) as [m|]; [|now intros [= <-]].
  destruct (dateModified m) as [sd|], (dateModified targetFile) as [td|];
    try discriminate.
  destruct (td <? sd); [now intros [= <-] | discriminate].
Qed.

(** the indices of [getFilesToDelete] are those of the entries that
    [fileToDelete] picks *)
Lemma getFilesToDeleteFrom_index (targetJson : list SourceFileInfo) :
  forall (n i : nat),
  i ∈ Main.index <$> Main.getFilesToDeleteFrom n sourceJson targetJson
  <-> exists j targetFile,
        i = (n + j)%nat /\ targetJson !! j = Some targetFile
        /\ is_Some (Main.fileToDelete sourceJson i targetFile).
Proof.
  induction targetJson as [|tf rest IH]; intros n i.
  - cbn. split; [intros H; inversion H | intros (j & x & _ & H & _); discriminate].
  - cbn [Main.getFilesToDeleteFrom].
    assert (Hrest :
      i ∈ Main.index <$> Main.getFilesToDeleteFrom (S n) sourceJson rest
      <-> exists j targetFile, i = (n + S j)%nat /\ rest !! j = Some targetFile
            /\ is_Some (Main.fileToDelete sourceJson i targetFile)).
    { rewrite IH. split; intros (j & x & Hi & H); exists j, x;
        (split; [lia | exact H]). }
    split.
    + intros Hin.
      destruct (Main.fileToDelete sourceJson n tf) as [f|] eqn:Hf.
      * rewrite fmap_cons in Hin. apply elem_of_cons in Hin as [->|Hin].
        -- exists 0%nat, tf. rewrite (fileToDelete_index _ _ _ Hf), Nat.add_0_r.
           rewrite Hf. eauto.
        -- apply Hrest in Hin as (j & x & Hi & H). exists (S j), x. auto.
      * apply Hrest in Hin as (j & x & Hi & H). exists (S j), x. auto.
    + intros (j & x & Hi & Hx & Hsome). destruct j as [|j].
      * cbn in Hx. injection Hx as ->. rewrite Nat.add_0_r in Hi. subst i.
        destruct Hsome as [f Hf]. rewrite Hf, fmap_cons.
        rewrite (fileToDelete_index _ _ _ Hf). now left.
      * assert (Hin : i ∈ Main.index <$> Main.getFilesToDeleteFrom (S n) sourceJson rest)
          by (apply Hrest; eauto).
        destruct (Main.fileToDelete sourceJson n tf); [rewrite fmap_cons; now right|].
        exact Hin.
Qed.

(** the indices of [getFilesToDelete] go up *)
Lemma getFilesToDeleteFrom_ascending (targetJson : list SourceFileInfo) :
  forall n,
  Forall (fun f => (n <= Main.index f)%nat) (Main.getFilesToDeleteFrom n sourceJson targetJson)
  /\ Main.sortDescending (Main.getFilesToDeleteFrom n sourceJson targetJson)
     = reverse (Main.getFilesToDeleteFrom n sourceJson targetJson).
Proof.
  assert (Hins : forall f l, Forall (fun g => (Main.index f < Main.index g)%nat) l ->
                   Main.insertDescending f l = l ++ [f]).
  { intros f l. induction l as [|g l IH]; intros H; [reflexivity|].
    apply Forall_cons in H as [Hg Hl]. cbn [Main.insertDescending].
    apply Nat.ltb_lt in Hg. rewrite Hg. now rewrite IH. }
  induction targetJson as [|tf rest IH]; intros n; [now split|].
  cbn [Main.getFilesToDeleteFrom].
  destruct (IH (S n)) as [Hasc Hsort].
  assert (Hasc' : Forall (fun f => (n <= Main.index f)%nat)
                    (Main.getFilesToDeleteFrom (S n) sourceJson rest)).
  { eapply Forall_impl; [exact Hasc|]. cbn. intros; lia. }
  destruct (Main.fileToDelete sourceJson n tf) as [f|] eqn:Hf; [|now split].
  apply fileToDelete_index in Hf. split.
  - apply Forall_cons. split; [lia | exact Hasc'].
  - unfold Main.sortDescending in *. cbn [foldr]. rewrite Hsort, reverse_cons.
    apply Hins. apply Forall_reverse.
    eapply Forall_impl; [exact Hasc|]. cbn. intros; lia.
Qed.

End MainPasses.

Section MainDelete.

Variable pathJoin : string -> string -> Fs.Path.

(** an entry whose index is not in the list, which goes down, is still there
    after [deleteEach] *)
Lemma deleteEach_survives (basePath : string) (filesToDelete : list Main.FilesToProcess) :
  forall (targetJson targetJson' : list SourceFileInfo) (fs fs' : Fs.FileSystem)
         (i : nat) (x : SourceFileInfo),
  StronglySorted (fun f g => (Main.index g < Main.index f)%nat) filesToDelete ->
  Main.deleteEach pathJoin filesToDelete targetJson basePath fs = Ok (targetJson', fs') ->
  targetJson !! i = Some x ->
  i ∉ Main.index <$> filesToDelete ->
  x ∈ targetJson'.
Proof.
  induction filesToDelete as [|f rest IH];
    intros targetJson targetJson' fs fs' i x Hsorted Hrun Hx Hi.
  - injection Hrun as <- <-. eapply list_elem_of_lookup_2. exact Hx.
  - apply StronglySorted_inv in Hsorted as [Hsorted Hbelow].
    rewrite fmap_cons in Hi. apply not_elem_of_cons in Hi as [Hif Hi].
    assert (Hdeleted : forall fs1,
              Main.deleteEach pathJoin rest (delete (Main.index f) targetJson) basePath fs1
              = Ok (targetJson', fs') -> x ∈ targetJson').
    { intros fs1 Hrec. destruct (decide (i < Main.index f)%nat) as [Hlt|Hge].
      - eapply (IH _ _ _ _ i); [exact Hsorted | exact Hrec | | exact Hi].
        now rewrite list_lookup_delete_lt.
      - eapply (IH _ _ _ _ (i - 1)%nat); [exact Hsorted | exact Hrec | |].
        + rewrite list_lookup_delete_ge by lia.
          now replace (S (i - 1)) with i by lia.
        + intros Hin. apply list_elem_of_fmap in Hin as (g & Hg & Hgin).
          eapply Forall_forall in Hbelow; [|exact Hgin]. cbn in Hbelow. lia. }
    assert (Hkept : forall fs1,
              Main.deleteEach pathJoin rest targetJson basePath fs1
              = Ok (targetJson', fs') -> x ∈ targetJson').
    { intros fs1 Hrec. exact (IH _ _ _ _ i x Hsorted Hrec Hx Hi). }
    cbn [Main.deleteEach] in Hrun.
    destruct (targetJson !! Main.index f) as [targetFile|]; [|discriminate].
    destruct (pathTargetRelative targetFile) as [relative|]; [|now apply Hkept in Hrun].
    destruct (Fs.unlink _ fs) as [fs1|[]];
      first [now apply Hdeleted in Hrun | now apply Hkept in Hrun].
Qed.

End MainDelete.


Lemma StronglySorted_snoc {A : Type} (R : A -> A -> Prop) (l : list A) (x : A) :
  StronglySorted R l -> Forall (fun y => R y x) l -> StronglySorted R (l ++ [x]).
Proof.
  induction l as [|y l IH]; intros Hs Hx.
  - repeat constructor.
  - apply StronglySorted_inv in Hs as [Hs Hy]. apply Forall_cons in Hx as [Hyx Hx].
    cbn. constructor; [now apply IH|].
    apply Forall_app. split; [exact Hy | now constructor].
Qed.

(** [deleteFiles] goes through the entries to delete from the last index to
    the first one *)
Lemma getFilesToDeleteFrom_descending (sourceJson targetJson : list SourceFileInfo) :
  forall n,
  StronglySorted (fun f g => (Main.index g < Main.index f)%nat)
    (reverse (Main.getFilesToDeleteFrom n sourceJson targetJson)).
Proof.
  induction targetJson as [|tf rest IH]; intros n; [constructor|].
  cbn [Main.getFilesToDeleteFrom].
  destruct (Main.fileToDelete sourceJson n tf) as [f|] eqn:Hf; [|apply IH].
  apply fileToDelete_index in Hf. rewrite reverse_cons.
  apply StronglySorted_snoc; [apply IH|].
  apply Forall_reverse.
  destruct (getFilesToDeleteFrom_ascending sourceJson rest (S n)) as [Hasc _].
  eapply Forall_impl; [exact Hasc|]. cbn. intros; lia.
Qed.


(** ** C1 *)

(** ** The handler: the data file, and conversions that fail *)

Section HandlerWhole.
Import Handler.

Variable convertOk : MarkdownSourceFile -> bool.
Variable targetFiles : list MarkdownFile.

Lemma checkSourceFiles_app (pre post : list MarkdownSourceFile) (st : State) :
  checkSourceFiles convertOk (pre ++ post) targetFiles st
  = andThen (checkSourceFiles convertOk pre targetFiles st)
            (checkSourceFiles convertOk post targetFiles).
Proof.
  revert st. induction pre as [|s pre IH]; intros st; [reflexivity|].
  cbn [app checkSourceFiles].
  destruct (checkSourceFile convertOk targetFiles st s) as [st'|st']; cbn [andThen];
    [apply IH | reflexivity].
Qed.

(** the second pass does not touch the data file *)
Lemma checkSourceFiles_dataFile (sourceFiles : list MarkdownSourceFile) :
  forall st,
  dataFile (finalState (checkSourceFiles convertOk sourceFiles targetFiles st))
  = dataFile st.
Proof.
  induction sourceFiles as [|s rest IH]; intros st; [reflexivity|].
  cbn [checkSourceFiles]. rewrite checkSourceFile_eq.
  destruct (needsConversion targetFiles (mdConversionEntries st) s); [|apply IH].
  destruct (convertAndLog_effect convertOk st s) as (_ & _ & Hd & _).
  destruct (convertAndLog convertOk s st) as [st'|st']; cbn [andThen finalState] in *.
  - now rewrite IH.
  - exact Hd.
Qed.

End HandlerWhole.

(** ** The tasks of the main process *)

Section TaskFacts.

Context {Local : Type}.
Variable start : SourceFileInfo -> Local.
Variable step : Local -> list Asset -> Main.Step Local * list Asset.

Lemma runTasks_app (before after : list nat) (pool : Main.Pool Local) :
  Main.runTasks step (before ++ after) pool
  = Main.runTasks step after (Main.runTasks step before pool).
Proof. apply foldl_app. Qed.

(** the exception [Promise.all] has rejected with is not replaced *)
Lemma resume_rejected (pool : Main.Pool Local) (i : nat) (message : string) :
  Main.rejected pool = Some message ->
  Main.rejected (Main.resume step pool i) = Some message.
Proof.
  intros H. unfold Main.resume.
  destruct (Main.tasks pool !! i) as [[file local|]|]; try exact H.
  destruct (step local (Main.shared pool)) as [[local'| |m] a]; cbn; try exact H.
  now rewrite H.
Qed.

Lemma runTasks_rejected (schedule : list nat) :
  forall (pool : Main.Pool Local) (message : string),
  Main.rejected pool = Some message ->
  Main.rejected (Main.runTasks step schedule pool) = Some message.
Proof.
  induction schedule as [|i schedule IH]; intros pool message H; [exact H|].
  cbn [Main.runTasks foldl]. apply IH. now apply resume_rejected.
Qed.

Lemma runTasks_not_rejected (schedule : list nat) (pool : Main.Pool Local) :
  Main.rejected (Main.runTasks step schedule pool) = None ->
  Main.rejected pool = None.
Proof.
  intros H. destruct (Main.rejected pool) as [m|] eqn:E; [|reflexivity].
  now rewrite (runTasks_rejected schedule pool m E) in H.
Qed.

Lemma pendingFiles_cons (task : Main.Task Local) (tasks : list (Main.Task Local)) :
  pendingFiles (task :: tasks)
  = match task with
    | Main.Running file _ => file :: pendingFiles tasks
    | Main.Settled => pendingFiles tasks
    end.
Proof. now destruct task. Qed.

Lemma pendingFiles_insert_Running (tasks : list (Main.Task Local)) (i : nat)
    (file : SourceFileInfo) (local local' : Local) :
  tasks !! i = Some (Main.Running file local) ->
  pendingFiles (<[i := Main.Running file local']> tasks) = pendingFiles tasks.
Proof.
  revert i. induction tasks as [|t tasks IH]; intros [|i] H; try discriminate.
  - cbn in H. injection H as ->. reflexivity.
  - cbn in H.
    change (pendingFiles (t :: <[i := Main.Running file local']> tasks)
            = pendingFiles (t :: tasks)).
    now rewrite !pendingFiles_cons, (IH i H).
Qed.

Lemma pendingFiles_insert_Settled (tasks : list (Main.Task Local)) (i : nat)
    (file : SourceFileInfo) (local : Local) :
  tasks !! i = Some (Main.Running file local) ->
  pendingFiles tasks ≡ₚ file :: pendingFiles (<[i := Main.Settled]> tasks).
Proof.
  revert i. induction tasks as [|t tasks IH]; intros [|i] H; try discriminate.
  - cbn in H. injection H as ->. reflexivity.
  - cbn in H.
    change (pendingFiles (t :: tasks)
            ≡ₚ file :: pendingFiles (t :: <[i := Main.Settled]> tasks)).
    rewrite !pendingFiles_cons. destruct t as [f l|].
    + rewrite (IH i H). apply Permutation_swap.
    + exact (IH i H).
Qed.

(** as long as no task has thrown, every file is in [results] or with a
    task that is not over *)
Lemma resume_files (pool : Main.Pool Local) (i : nat) (files : list SourceFileInfo) :
  Main.rejected (Main.resume step pool i) = None ->
  Main.results pool ++ pendingFiles (Main.tasks pool) ≡ₚ files ->
  Main.results (Main.resume step pool i)
  ++ pendingFiles (Main.tasks (Main.resume step pool i)) ≡ₚ files.
Proof.
  unfold Main.resume.
  destruct (Main.tasks pool !! i) as [[file local|]|] eqn:Hi; try (intros _ H; exact H).
  destruct (step local (Main.shared pool)) as [[local'| |m] a];
    cbn [Main.tasks Main.results Main.rejected]; intros Hr H.
  - now rewrite (pendingFiles_insert_Running _ _ _ _ local' Hi).
  - rewrite <- H, (pendingFiles_insert_Settled _ _ _ _ Hi), <- app_assoc. cbn [app].
    reflexivity.
  - now destruct (Main.rejected pool).
Qed.

Lemma runTasks_files (schedule : list nat) (files : list SourceFileInfo) :
  forall pool : Main.Pool Local,
  Main.rejected (Main.runTasks step schedule pool) = None ->
  Main.results pool ++ pendingFiles (Main.tasks pool) ≡ₚ files ->
  Main.results (Main.runTasks step schedule pool)
  ++ pendingFiles (Main.tasks (Main.runTasks step schedule pool)) ≡ₚ files.
Proof.
  induction schedule as [|i schedule IH]; intros pool Hr H; [exact H|].
  cbn [Main.runTasks foldl] in *. apply IH; [exact Hr|].
  apply resume_files; [|exact H].
  exact (runTasks_not_rejected schedule _ Hr).
Qed.

Lemma startTasks_files (files : list SourceFileInfo) :
  snd (Main.startTasks start files) ++ pendingFiles (fst (Main.startTasks start files))
  ≡ₚ files.
Proof.
  induction files as [|file rest IH]; [reflexivity|].
  cbn [Main.startTasks]. destruct (Main.startTasks start rest) as [tasks results].
  cbn [fst snd] in IH. destruct (Main.hasBothPaths file); cbn [fst snd].
  - rewrite pendingFiles_cons, <- IH. symmetry. apply Permutation_middle.
  - rewrite pendingFiles_cons. cbn [app]. now rewrite IH.
Qed.

Lemma pendingFiles_settled (tasks : list (Main.Task Local)) :
  forallb Main.isSettled tasks = true -> pendingFiles tasks = [].
Proof.
  induction tasks as [|[f l|] tasks IH]; cbn; try discriminate; [reflexivity|exact IH].
Qed.

(** when [copyMarkdownFilesToTarget] returns, [targetJson] has gained the
    files it was given, in the order in which their tasks have ended *)
Lemma copyMarkdownFilesToTarget_results (schedule : list nat)
    (files targetJson targetJson' : list SourceFileInfo) (assetJson assetJson' : list Asset) :
  Main.copyMarkdownFilesToTarget start step schedule files targetJson assetJson
  = Some (Ok (targetJson', assetJson')) ->
  exists results, targetJson' = targetJson ++ results /\ results ≡ₚ files.
Proof.
  unfold Main.copyMarkdownFilesToTarget. cbv zeta.
  destruct (Main.rejected (Main.runTasks step schedule (Main.startPool start files assetJson)))
    eqn:Hr; [discriminate|].
  destruct (forallb Main.isSettled _) eqn:Hs; [|discriminate].
  intros [= <- <-]. eexists. split; [reflexivity|].
  pose proof (runTasks_files schedule files (Main.startPool start files assetJson) Hr
                (startTasks_files files)) as H.
  now rewrite (pendingFiles_settled _ Hs), app_nil_r in H.
Qed.

End TaskFacts.

(** C2, as stated, fails in the main process: the conversions of [docs/a.md]
    and [docs/b.md] are started together; the first one fails to read its
    source, which makes [copyMarkdownFilesToTarget] throw; the second one
    goes on all the same, and is over with its file pushed to [results]. *)
Lemma C2_counterexample :
  Main.copyMarkdownFilesToTarget readOfAFails scriptedStep [0; 1; 0; 1; 1; 1]%nat
    [infoA; infoB] [] []
  = Some (Throw "read failed")
  /\ Main.results (Main.runTasks scriptedStep [0; 1; 0]%nat
                     (Main.startPool readOfAFails [infoA; infoB] [])) = []
  /\ Main.results (Main.runTasks scriptedStep [0; 1; 0; 1; 1; 1]%nat
                     (Main.startPool readOfAFails [infoA; infoB] [])) = [infoB].
Proof. repeat split. Qed.

(** C2, amended.  In the handler, a conversion that fails ends the run
    there: the entries in memory are as they were before the file, no later
    file is converted, the data file is neither written nor removed.  In the
    main process the conversions are started together: when a step of one
    of them throws before any other has, [copyMarkdownFilesToTarget] throws
    that exception, whatever the tasks do afterwards, and nothing is pushed
    to [targetJson]; the other tasks are not stopped, and one that comes to
    its end afterwards still pushes its file to [results]. *)
Theorem C2_failed_conversion_aborts :
  (forall (convertOk : Handler.MarkdownSourceFile -> bool) (writeOk unlinkOk : bool)
          (targetFiles : list Handler.MarkdownFile)
          (pre post : list Handler.MarkdownSourceFile) (s : Handler.MarkdownSourceFile)
          (st0 st1 : Handler.State),
     Handler.checkSourceFiles convertOk pre targetFiles
       (afterFirstPass (pre ++ s :: post) targetFiles st0) = Handler.Done st1 ->
     needsConversion targetFiles (Handler.mdConversionEntries st1) s = true ->
     convertOk s = false ->
     let aborted :=
       {| Handler.mdConversionEntries := Handler.mdConversionEntries st1;
          Handler.dataFile := Handler.dataFile st0;
          Handler.deletedFiles := Handler.deletedFiles st1;
          Handler.conversions := Handler.conversions st1 ++ [s] |} in
     Handler.checkSourceFiles convertOk (pre ++ s :: post) targetFiles
       (afterFirstPass (pre ++ s :: post) targetFiles st0) = Handler.Aborted aborted
     /\ Handler.startConversion convertOk writeOk unlinkOk (pre ++ s :: post)
          targetFiles st0 = Handler.Aborted aborted)
  /\ (forall (Local : Type) (start : SourceFileInfo -> Local)
             (step : Local -> list Asset -> Main.Step Local * list Asset)
             (before after : list nat) (i : nat) (files targetJson : list SourceFileInfo)
             (assetJson assetJson1 : list Asset) (file : SourceFileInfo) (local : Local)
             (message : string),
        let pool := Main.runTasks step before (Main.startPool start files assetJson) in
        Main.rejected pool = None ->
        Main.tasks pool !! i = Some (Main.Running file local) ->
        step local (Main.shared pool) = (Main.Raise message, assetJson1) ->
        Main.copyMarkdownFilesToTarget start step (before ++ i :: after) files
          targetJson assetJson
        = Some (Throw message))
  /\ (forall (Local : Type) (step : Local -> list Asset -> Main.Step Local * list Asset)
             (pool : Main.Pool Local) (j : nat) (other : SourceFileInfo) (local : Local)
             (assetJson1 : list Asset) (message : string),
        Main.rejected pool = Some message ->
        Main.tasks pool !! j = Some (Main.Running other local) ->
        step local (Main.shared pool) = (Main.Return, assetJson1) ->
        Main.resume step pool j
        = {| Main.tasks := <[j := Main.Settled]> (Main.tasks pool);
             Main.shared := assetJson1;
             Main.results := Main.results pool ++ [other];
             Main.rejected := Some message |}).
Proof.
  split; [|split].
  - intros convertOk writeOk unlinkOk targetFiles pre post s st0 st1 Hpre Hneeds Hfail aborted.
    assert (Hd : Handler.dataFile st1 = Handler.dataFile st0).
    { pose proof (checkSourceFiles_dataFile convertOk targetFiles pre
                    (afterFirstPass (pre ++ s :: post) targetFiles st0)) as Hd.
      rewrite Hpre in Hd. cbn [finalState] in Hd. rewrite Hd.
      unfold afterFirstPass.
      now destruct (checkTargetFiles_calls (pre ++ s :: post) targetFiles
                      {| Handler.mdConversionEntries := Handler.loadMdFilesFromJson st0;
                         Handler.dataFile := Handler.dataFile st0;
                         Handler.deletedFiles := Handler.deletedFiles st0;
                         Handler.conversions := Handler.conversions st0 |})
        as (_ & -> & _). }
    assert (Hrun : Handler.checkSourceFiles convertOk (pre ++ s :: post) targetFiles
                     (afterFirstPass (pre ++ s :: post) targetFiles st0)
                   = Handler.Aborted aborted).
    { rewrite checkSourceFiles_app, Hpre. cbn [Handler.andThen Handler.checkSourceFiles].
      rewrite checkSourceFile_eq, Hneeds. unfold Handler.convertAndLog.
      rewrite Hfail. cbn. subst aborted. now rewrite Hd. }
    split; [exact Hrun|].
    unfold Handler.startConversion.
    fold (afterFirstPass (pre ++ s :: post) targetFiles st0).
    now rewrite Hrun.
  - intros Local start step before after i files targetJson assetJson assetJson1 file local
      message pool Hnone Hi Hstep.
    unfold Main.copyMarkdownFilesToTarget. cbv zeta.
    change (before ++ i :: after) with (before ++ [i] ++ after).
    rewrite !runTasks_app. fold pool.
    assert (Hfail : Main.rejected (Main.runTasks step [i] pool) = Some message).
    { cbn [Main.runTasks foldl]. unfold Main.resume. rewrite Hi, Hstep. cbn.
      now rewrite Hnone. }
    now rewrite (runTasks_rejected step after _ message Hfail).
  - intros Local step pool j other local assetJson1 message Hrejected Hj Hstep.
    unfold Main.resume. now rewrite Hj, Hstep, Hrejected.
Qed.

Lemma C2_failed_conversion_aborts_witness :
  Handler.startConversion (fun _ => false) true true [sourceA] [] (Handler.initial None)
  = Handler.Aborted
      {| Handler.mdConversionEntries := []; Handler.dataFile := None;
         Handler.deletedFiles := []; Handler.conversions := [sourceA] |}
  /\ Main.copyMarkdownFilesToTarget readOfAFails scriptedStep ([1; 0] ++ 1 :: [0; 0; 0])%nat
       [infoB; infoA] [] []
     = Some (Throw "read failed").
Proof.
  destruct C2_failed_conversion_aborts as (H1 & H2 & _). split.
  - exact (proj2 (H1 (fun _ => false) true true [] [] [] sourceA (Handler.initial None)
                    _ eq_refl eq_refl eq_refl)).
  - exact (H2 _ readOfAFails scriptedStep [1; 0]%nat [0; 0; 0]%nat 1%nat [infoB; infoA] [] []
              [] infoA [Some "read failed"] "read failed" eq_refl eq_refl eq_refl).
Defined.

(** C3, as stated, fails: after a run that converts one file, all going
    well, the data file is gone, and the next run loads no entry. *)
Lemma C3_counterexample :
  let st := {| Handler.mdConversionEntries := [entryA]; Handler.dataFile := None;
               Handler.deletedFiles := []; Handler.conversions := [sourceA] |} in
  Handler.startConversion (fun _ => true) true true [sourceA] [] (Handler.initial None)
  = Handler.Done st
  /\ Handler.dataFile st <> Some (Handler.mdConversionEntries st)
  /\ Handler.loadMdFilesFromJson st <> Handler.mdConversionEntries st.
Proof. repeat split; discriminate. Qed.

(** C3, in the handler.  At the end of a run of [startConversion] that is
    not aborted, the entries are written to the data file as one list, and
    [resetDatabase] then removes the data file: when both go well no ledger
    document is left, and the next run loads an empty list.  The whole list
    is what the data file holds when the removal fails. *)
Theorem C3_ledger_written_then_removed (convertOk : Handler.MarkdownSourceFile -> bool)
    (writeOk unlinkOk : bool) (sourceFiles : list Handler.MarkdownSourceFile)
    (targetFiles : list Handler.MarkdownFile) (st0 st : Handler.State) :
  Handler.startConversion convertOk writeOk unlinkOk sourceFiles targetFiles st0
  = Handler.Done st ->
  Handler.dataFile st
  = (if unlinkOk then None
     else if writeOk then Some (Handler.mdConversionEntries st)
          else Handler.dataFile st0)
  /\ (unlinkOk = true -> Handler.loadMdFilesFromJson st = []).
Proof.
  unfold Handler.startConversion. fold (afterFirstPass sourceFiles targetFiles st0).
  intros H.
  pose proof (checkSourceFiles_dataFile convertOk targetFiles sourceFiles
                (afterFirstPass sourceFiles targetFiles st0)) as Hd.
  destruct (checkTargetFiles_calls sourceFiles targetFiles
              {| Handler.mdConversionEntries := Handler.loadMdFilesFromJson st0;
                 Handler.dataFile := Handler.dataFile st0;
                 Handler.deletedFiles := Handler.deletedFiles st0;
                 Handler.conversions := Handler.conversions st0 |}) as (_ & Hd0 & _).
  fold (afterFirstPass sourceFiles targetFiles st0) in Hd0. cbn in Hd0.
  destruct (Handler.checkSourceFiles convertOk sourceFiles targetFiles _) as [st2|st2];
    cbn [Handler.andThen finalState] in *; [|discriminate].
  injection H as <-.
  unfold Handler.resetDatabase, Handler.saveMdFilesToJson, Handler.loadMdFilesFromJson.
  destruct unlinkOk, writeOk; cbn; split; try reflexivity; try discriminate; congruence.
Qed.

Lemma C3_ledger_written_then_removed_witness :
  Handler.dataFile
    {| Handler.mdConversionEntries := [entryA]; Handler.dataFile := None;
       Handler.deletedFiles := []; Handler.conversions := [sourceA] |} = None.
Proof.
  exact (proj1 (C3_ledger_written_then_removed (fun _ => true) true true [sourceA] []
                  (Handler.initial None) _ eq_refl)).
Defined.

(** ** Unresolved references *)

(** C4, as stated, fails: [Missing] is neither a document nor an attachment,
    and the conversion of a document with the line [[Missing]] throws. *)
Lemma C4_counterexample :
  getPathOfFile emptyProcessor (linkedFileName "Missing") = None
  /\ getPathOfImage emptyProcessor "Missing" = None
  /\ processMarkdown someConfig "" "doc.md" "[[Missing]]" [] [] []
     = Throw "Could not find path for asset: Missing".
Proof. repeat split. Qed.

Lemma processLines_app (config : Config) (now : string) (fp : FileProcessor)
    (doc : string) (assets : list SourceFileInfo) (pre post : list string)
    (st : LoopState) :
  processLines config now fp doc assets st (pre ++ post)
  = st' ← processLines config now fp doc assets st pre;
    processLines config now fp doc assets st' post.
Proof.
  revert st. induction pre as [|l pre IH]; intros st; [reflexivity|].
  cbn [app processLines].
  destruct (processLine config now fp doc assets st l) as [st'|msg]; [|reflexivity].
  cbn [mbind Result_bind]. apply IH.
Qed.

(** C4, amended.  A line whose first wiki-style reference resolves neither to
    a document nor to an attachment is left as it is by
    [convertObsidianLinks], which logs that it looks for an image of that
    name and that it could not find its path.  A registration without a
    source path throws.
    [checkForAssets] then registers the reference that is still in the line
    (when the line has no image), so the line, and with it the document,
    fails with that exception. *)
Theorem C4_unresolved_reference (config : Config) (now doc line : string)
    (fileInfo assets : list SourceFileInfo) (m : Match (string * string)) :
  let fp := {| sourceFileInfoList := fileInfo; assetInfoList := assets |} in
  matchWiki line = Some m ->
  getPathOfFile fp (linkedFileName (snd (groups m))) = None ->
  getPathOfImage fp (snd (groups m)) = None ->
  (convertObsidianLinks line fp = line
   /\ convertObsidianLinksLog line fp
      = ["Checking path for image: " +:+ snd (groups m);
         "Could not find path for image: " +:+ snd (groups m)])
  /\ (forall reg name original ext size' document,
        addToAssetJson now reg name original ext None size' document
        = Throw ("Could not find path for asset: " +:+ name))
  /\ (matchAsset line = None ->
      forall st rest,
        processLine config now fp doc assets st line
        = Throw ("Could not find path for asset: " +:+ registeredName (snd (groups m)))
        /\ (forall content reg pre,
              readLines content = pre ++ line :: rest ->
              processLines config now fp doc assets
                {| transformedContent := ""; inAdmonition := false; inQuote := false;
                   admonition := idle; registry := reg |} pre = Ok st ->
              processMarkdown config now doc content reg fileInfo assets
              = Throw ("Could not find path for asset: "
                       +:+ registeredName (snd (groups m))))).
Proof.
  intros fp Hm Hfile Himage.
  assert (Hline : convertObsidianLinks line fp = line).
  { unfold convertObsidianLinks. rewrite Hm.
    destruct (groups m) as [match0 match1]. cbn [snd] in *.
    unfold linkedFileName in Hfile. cbv zeta in Hfile.
    now rewrite Hfile, Himage. }
  assert (Hlog : convertObsidianLinksLog line fp
                 = ["Checking path for image: " +:+ snd (groups m);
                    "Could not find path for image: " +:+ snd (groups m)]).
  { unfold convertObsidianLinksLog. rewrite Hm.
    destruct (groups m) as [match0 match1]. cbn [snd] in *.
    unfold linkedFileName in Hfile. cbv zeta in Hfile.
    now rewrite Hfile, Himage. }
  split; [exact (conj Hline Hlog)|]. split; [reflexivity|].
  intros Hasset st rest.
  assert (Hp : processLine config now fp doc assets st line
               = Throw ("Could not find path for asset: "
                        +:+ registeredName (snd (groups m)))).
  { unfold processLine. rewrite Hline.
    unfold checkForAssets. rewrite Hasset. cbn [mbind Result_bind].
    rewrite Hm.
    unfold getPathOfImage in Himage. cbn [assetInfoList fp] in Himage.
    rewrite Himage. reflexivity. }
  split; [exact Hp|].
  intros content reg pre Hlines Hpre.
  unfold processMarkdown. fold fp. fold idle. rewrite Hlines, processLines_app, Hpre.
  cbn [mbind Result_bind processLines]. rewrite Hp. reflexivity.
Qed.

Lemma C4_unresolved_reference_witness :
  (convertObsidianLinks "[[Missing]]" emptyProcessor = "[[Missing]]"
   /\ convertObsidianLinksLog "[[Missing]]" emptyProcessor
      = ["Checking path for image: Missing"; "Could not find path for image: Missing"])
  /\ processMarkdown someConfig "" "doc.md" "[[Missing]]" [] [] []
     = Throw "Could not find path for asset: Missing".
Proof.
  destruct (C4_unresolved_reference someConfig "" "doc.md" "[[Missing]]" [] []
              {| before := ""; groups := ("[[Missing]]", "Missing"); after := "" |}
              eq_refl eq_refl eq_refl) as (H1 & _ & H3).
  split; [exact H1|].
  exact (proj2 (H3 eq_refl _ []) "[[Missing]]" [] [] eq_refl eq_refl).
Defined.

(** ** Wiki-style links *)

(** C5, as stated, fails: with [Note A] at the target-relative path
    [guides/a], the link is not rewritten to [[See This](guides/a)]; the
    path of the document in the source is emitted. *)
Lemma C5_counterexample :
  pathTargetRelative noteA = Some "guides/a"
  /\ convertObsidianLinks "[[Note A|See This]]"
       {| sourceFileInfoList := [noteA]; assetInfoList := [] |}
     = "[See This](docs/Note A.md)"
  /\ convertObsidianLinks "[[Note A|See This]]"
       {| sourceFileInfoList := [noteA]; assetInfoList := [] |}
     <> "[See This](guides/a)".
Proof. repeat split. intros H. vm_compute in H. discriminate H. Qed.

(** C5, amended.  [[Note A|See This]]: the part before the bar names the
    file, and [.md] is added to it unless it ends with [.md] already (so
    also to [pic.png]); the part after the bar is the title; the path
    emitted is the source-relative path [p] of the first document of the
    inventory with that file name (with [p = guides/a], the link is
    [[See This](guides/a)]). *)
Theorem C5_wiki_link (fp : FileProcessor) (info : SourceFileInfo) (p : string) :
  pathSourceRelative info = Some p ->
  plain p = true ->
  (findByFileName "Note A.md" (sourceFileInfoList fp) = Some info ->
   convertObsidianLinks "[[Note A|See This]]" fp = "[See This](" +:+ p +:+ ")")
  /\ (findByFileName "pic.png.md" (sourceFileInfoList fp) = Some info ->
      convertObsidianLinks "[[pic.png|See This]]" fp = "[See This](" +:+ p +:+ ")").
Proof.
  intros Hpath Hplain.
  assert (Hp : plain ("[See This](" +:+ p +:+ ")") = true).
  { unfold plain. rewrite !all_app. fold (plain p). rewrite Hplain. reflexivity. }
  split; intros Hfind; unfold convertObsidianLinks.
  - change (matchWiki "[[Note A|See This]]")
      with (Some {| before := ""; groups := ("[[Note A|See This]]", "Note A|See This");
                    after := "" |}).
    cbn [groups].
    change (Js.split "|" "Note A|See This") with ["Note A"; "See This"].
    cbn [List.last List.hd].
    change (Js.endsWith ".md" "Note A") with false. cbn [negb].
    change ("Note A" +:+ ".md") with "Note A.md".
    unfold getPathOfFile. rewrite Hfind, Hpath.
    now apply replace_whole.
  - change (matchWiki "[[pic.png|See This]]")
      with (Some {| before := ""; groups := ("[[pic.png|See This]]", "pic.png|See This");
                    after := "" |}).
    cbn [groups].
    change (Js.split "|" "pic.png|See This") with ["pic.png"; "See This"].
    cbn [List.last List.hd].
    change (Js.endsWith ".md" "pic.png") with false. cbn [negb].
    change ("pic.png" +:+ ".md") with "pic.png.md".
    unfold getPathOfFile. rewrite Hfind, Hpath.
    now apply replace_whole.
Qed.

Lemma C5_wiki_link_witness :
  convertObsidianLinks "[[Note A|See This]]"
    {| sourceFileInfoList :=
         [ {| fileName := Some "Note A.md"; pathSourceRelative := Some "guides/a";
              pathSourceAbsolute := None; pathTargetRelative := None;
              pathTargetAbsolute := None; dateModified := None |} ];
       assetInfoList := [] |}
  = "[See This](guides/a)".
Proof.
  apply (C5_wiki_link
           {| sourceFileInfoList :=
                [ {| fileName := Some "Note A.md"; pathSourceRelative := Some "guides/a";
                     pathSourceAbsolute := None; pathTargetRelative := None;
                     pathTargetAbsolute := None; dateModified := None |} ];
              assetInfoList := [] |}
           {| fileName := Some "Note A.md"; pathSourceRelative := Some "guides/a";
              pathSourceAbsolute := None; pathTargetRelative := None;
              pathTargetAbsolute := None; dateModified := None |}
           "guides/a"); reflexivity.
Defined.

(** ** Relative paths of links *)

Lemma setLast_app (x y : string) (l : list string) :
  setLast x (l ++ [y]) = l ++ [x].
Proof.
  unfold setLast. rewrite length_app. simpl.
  replace (Nat.pred (length l + 1)) with (length l + 0)%nat by lia.
  now rewrite insert_app_r.
Qed.

(** C6.  [[x](02-guide/03-intro.md)], whose first part is not a blog folder,
    becomes [[x](/guide/intro)].  In general, for parts outside a blog, with
    no flatten marker on the parent and no anchor: the [.md] of the last part
    is dropped, the numeric prefix of every part is removed, and
    [checkForLinks] roots the joined parts with a [/]. *)
Theorem C6_path_normalisation :
  isBlogFolder "02-guide" = false
  /\ checkForLinks "[x](02-guide/03-intro.md)" = Ok "[x](/guide/intro)"
  /\ (forall (parts : list string) (parent file : string),
        Js.endsWith "+" parent = false ->
        Js.split "#" file = [file] ->
        processUrlParts (parts ++ [parent; file]) false
        = Ok (removeNumberPrefix
                <$> parts ++ [parent; if Js.endsWith ".md" file
                                      then Js.replace ".md" "" file else file])).
Proof.
  split; [reflexivity|]. split; [reflexivity|].
  intros parts parent file Hplus Hanchor.
  unfold processUrlParts.
  rewrite rev_app_distr. cbn [List.rev List.app].
  rewrite Hanchor, Hplus. cbn [List.hd lookup list_lookup negb].
  change (parts ++ [parent; file]) with (parts ++ [parent] ++ [file]).
  rewrite !app_assoc.
  destruct (Js.endsWith ".md" file); [rewrite setLast_app|];
    rewrite <- !app_assoc; reflexivity.
Qed.

Lemma C6_path_normalisation_witness :
  processUrlParts ([] ++ ["02-guide"; "03-intro.md"]) false = Ok ["guide"; "intro"].
Proof.
  destruct C6_path_normalisation as (_ & _ & H).
  apply (H [] "02-guide" "03-intro.md"); reflexivity.
Defined.

(** ** Callouts *)

(** C7, amended.  The lines [> [!warning] Careful], [> body text] and an
    empty line: the start marker opens the block and gives the fence
    [:::warning Careful] with a line feed of its own, the body line loses the
    two characters of the recorded offset, the empty line closes the block
    with [:::] and a line feed; [processMarkdown] ends each of the three with
    a line feed more.  The registry is left as it was. *)
Theorem C7_callout (config : Config) (now doc : string) (assetJson : list Asset)
    (fileInfo allSourceAssetsInfo : list SourceFileInfo) :
  readLines calloutInput = ["> [!warning] Careful"; "> body text"; ""]
  /\ (let warning := {| type := "warning"; title := "Careful"; whitespaces := 2 |} in
      convertAdmonition "> [!warning] Careful" false false idle
        = (":::warning Careful" +:+ Js.nl, true, false, warning)
      /\ convertAdmonition "> body text" true false warning
        = ("body text", true, false, warning)
      /\ convertAdmonition "" true false warning
        = (":::" +:+ Js.nl, false, false, warning))
  /\ processMarkdown config now doc calloutInput assetJson fileInfo allSourceAssetsInfo
     = Ok (calloutOutput, assetJson).
Proof. repeat split; reflexivity. Qed.

(** C7, as stated, fails: the output of the three lines is not
    [calloutClaimed]. *)
Lemma C7_counterexample :
  processMarkdown someConfig "" "doc.md" calloutInput [] [] []
  <> Ok (calloutClaimed, []).
Proof. intros H. vm_compute in H. discriminate H. Qed.

(** ** The asset registry *)

(** registering the same document for the same size again changes nothing *)
Lemma getOrCreateSize_again (sizes sizes1 : list Size) (size' doc : string) (j : nat) :
  getOrCreateSize sizes size' doc = (sizes1, j) ->
  getOrCreateSize sizes1 size' doc = (sizes1, j).
Proof.
  unfold getOrCreateSize.
  destruct (list_find _ sizes) as [[k existing]|] eqn:Hfind.
  - destruct (bool_decide (doc ∈ inDocuments existing)) eqn:Hin; intros [= <- <-].
    + now rewrite Hfind, Hin.
    + erewrite list_find_insert_same; [|exact Hfind|].
      * cbn [inDocuments]. rewrite bool_decide_true; [reflexivity|].
        apply elem_of_app. right. now apply list_elem_of_singleton.
      * apply list_find_Some in Hfind as (_ & H & _). exact H.
  - intros [= <- <-].
    rewrite list_find_snoc_new; [|exact Hfind|reflexivity].
    cbn [inDocuments]. rewrite bool_decide_true; [reflexivity|].
    now apply list_elem_of_singleton.
Qed.

Lemma addToAssetJson_again (now now' : string) (reg reg1 : list Asset) (name : string)
    (original original' ext ext' : option string) (path path' size' doc : string)
    (r : SizeRef) :
  addToAssetJson now reg name original ext (Some path) size' doc = Ok (reg1, r) ->
  addToAssetJson now' reg1 name original' ext' (Some path') size' doc = Ok (reg1, r).
Proof.
  unfold addToAssetJson.
  destruct (list_find _ reg) as [[i existing]|] eqn:Hfind.
  - destruct (getOrCreateSize (sizes existing) size' doc) as [sizes1 j] eqn:Hsize.
    intros [= <- <-].
    erewrite list_find_insert_same; [|exact Hfind|].
    + cbn [sizes]. rewrite (getOrCreateSize_again _ _ _ _ _ Hsize).
      cbn. now rewrite list_insert_insert_eq.
    + apply list_find_Some in Hfind as (_ & H & _). exact H.
  - destruct (getOrCreateSize [] size' doc) as [sizes1 j] eqn:Hsize.
    intros [= <- <-].
    rewrite list_find_snoc_new; [|exact Hfind|reflexivity].
    cbn [sizes]. rewrite (getOrCreateSize_again _ _ _ _ _ Hsize).
    cbn. now rewrite insert_snoc.
Qed.

(** the first registration of an attachment adds its asset *)
Lemma addToAssetJson_new (now : string) (reg : list Asset) (name : string)
    (original ext : option string) (path size' doc : string) :
  Forall (fun item => assetFileName item <> name) reg ->
  addToAssetJson now reg name original ext (Some path) size' doc
  = Ok (reg ++ [ {| assetFileName := name;
                    originalFileName := original;
                    fileExtension := ext;
                    assetDateModified := now;
                    sourcePathRelative := path;
                    sizes := [ {| size := size'; inDocuments := [doc];
                                  newName := [] |} ] |} ],
        (length reg, 0%nat)).
Proof.
  intros Hnew. unfold addToAssetJson.
  destruct (list_find _ reg) as [[i existing]|] eqn:Hfind; [|reflexivity].
  apply list_find_Some in Hfind as (Hl & Hn & _).
  eapply Forall_lookup_1 in Hl; [|exact Hnew]. contradiction.
Qed.

(** C8.  Registering an attachment and a size for a document a second time
    leaves the registry as the first registration made it.  Registering
    them for two different documents, in a registry without the attachment,
    adds one asset with one size variant, used in both documents. *)
Theorem C8_registration (now now' : string) (reg : list Asset) (name : string)
    (original original' ext ext' : option string) (path path' size' : string)
    (doc1 doc2 : string) :
  (forall reg1 r,
     addToAssetJson now reg name original ext (Some path) size' doc1 = Ok (reg1, r) ->
     addToAssetJson now' reg1 name original' ext' (Some path') size' doc1 = Ok (reg1, r))
  /\ (Forall (fun item => assetFileName item <> name) reg ->
      doc1 <> doc2 ->
      ('(reg1, _) ← addToAssetJson now reg name original ext (Some path) size' doc1;
       addToAssetJson now' reg1 name original' ext' (Some path') size' doc2)
      = Ok (reg ++ [ {| assetFileName := name;
                        originalFileName := original;
                        fileExtension := ext;
                        assetDateModified := now;
                        sourcePathRelative := path;
                        sizes := [ {| size := size';
                                      inDocuments := [doc1; doc2];
                                      newName := [] |} ] |} ],
             (length reg, 0%nat))).
Proof.
  split.
  - intros reg1 r. apply addToAssetJson_again.
  - intros Hnew Hne. rewrite addToAssetJson_new by exact Hnew.
    cbn [mbind Result_bind]. unfold addToAssetJson.
    rewrite list_find_snoc_new; [|now apply list_find_None|reflexivity].
    cbn [sizes]. unfold getOrCreateSize. cbn [list_find].
    rewrite decide_True by reflexivity.
    cbn [fmap option_fmap option_map prod_map inDocuments].
    rewrite bool_decide_false.
    + cbn. now rewrite insert_snoc.
    + intros H%list_elem_of_singleton. congruence.
Qed.

Lemma C8_registration_witness :
  ('(reg1, _) ← addToAssetJson "t1" [] "pic" (Some "pic.png") (Some "png")
                  (Some "img/pic.png") "standard" "a.md";
   addToAssetJson "t2" reg1 "pic" (Some "pic.png") (Some "png")
     (Some "img/pic.png") "standard" "b.md")
  = Ok ([ {| assetFileName := "pic"; originalFileName := Some "pic.png";
             fileExtension := Some "png"; assetDateModified := "t1";
             sourcePathRelative := "img/pic.png";
             sizes := [ {| size := "standard"; inDocuments := ["a.md"; "b.md"];
                           newName := [] |} ] |} ], (0%nat, 0%nat))
  /\ addToAssetJson "t2"
       [ {| assetFileName := "pic"; originalFileName := Some "pic.png";
            fileExtension := Some "png"; assetDateModified := "t1";
            sourcePathRelative := "img/pic.png";
            sizes := [ {| size := "standard"; inDocuments := ["a.md"];
                          newName := [] |} ] |} ]
       "pic" (Some "pic.png") (Some "png") (Some "img/pic.png") "standard" "a.md"
     = Ok ([ {| assetFileName := "pic"; originalFileName := Some "pic.png";
                fileExtension := Some "png"; assetDateModified := "t1";
                sourcePathRelative := "img/pic.png";
                sizes := [ {| size := "standard"; inDocuments := ["a.md"];
                              newName := [] |} ] |} ], (0%nat, 0%nat)).
Proof.
  destruct (C8_registration "t1" "t2" [] "pic" (Some "pic.png") (Some "pic.png")
              (Some "png") (Some "png") "img/pic.png" "img/pic.png" "standard"
              "a.md" "b.md") as [H1 H2].
  split.
  - apply H2; [constructor | discriminate].
  - apply H1. reflexivity.
Defined.

(** ** Empty directories *)

Lemma elem_of_removePath (p q : Fs.Path) (l : list Fs.Path) :
  q ∈ Fs.removePath p l <-> q <> p /\ q ∈ l.
Proof. unfold Fs.removePath. now rewrite list_elem_of_filter. Qed.

(** what a successful [rmdir] does, and when it succeeds *)
Lemma rmdir_inl (d : Fs.Path) (fs fs' : Fs.FileSystem) :
  Fs.rmdir d fs = inl fs' ->
  d <> [] /\ d ∈ Fs.directories fs /\ Fs.readdir d fs = []
  /\ Fs.directories fs' = Fs.removePath d (Fs.directories fs)
  /\ Fs.files fs' = Fs.files fs.
Proof.
  unfold Fs.rmdir. destruct (bool_decide _) eqn:Hd; [|discriminate].
  apply bool_decide_eq_true in Hd.
  destruct d as [|c parent]; [discriminate|].
  destruct (Fs.readdir _ fs) eqn:Hr; [|discriminate].
  intros [= <-]. auto.
Qed.

(** an empty directory has no file in it *)
Lemma readdir_nil_files (d : Fs.Path) (fs : Fs.FileSystem) :
  Fs.readdir d fs = [] ->
  Forall (fun f => Fs.isChildOf d f = false) (Fs.files fs).
Proof.
  unfold Fs.readdir. intros [_ H]%app_eq_nil.
  apply Forall_forall. intros f Hf.
  destruct (Fs.isChildOf d f) eqn:E; [|reflexivity].
  assert (Hin : f ∈ filter (fun p => Fs.isChildOf d p = true) (Fs.files fs))
    by now apply list_elem_of_filter.
  rewrite H in Hin. now apply not_elem_of_nil in Hin.
Qed.

(** The walk upwards keeps the files, adds no directory, and removes only
    directories on the way from [dirPath] to the root, the root apart, that
    hold no file. *)
Lemma deleteDirectoriesFrom_spec (dirPath : Fs.Path) :
  forall (fs fs' : Fs.FileSystem) (log : list Fs.LogEntry),
  Fs.deleteDirectoriesFrom dirPath fs = (fs', log) ->
  Fs.files fs' = Fs.files fs
  /\ (forall d, d ∈ Fs.directories fs' -> d ∈ Fs.directories fs)
  /\ (forall d, d ∈ Fs.directories fs -> d ∉ Fs.directories fs' ->
        d `suffix_of` dirPath /\ d <> []
        /\ Forall (fun f => Fs.isChildOf d f = false) (Fs.files fs)).
Proof.
  induction dirPath as [|c parent IH]; intros fs fs' log H.
  - injection H as <- <-. split; [reflexivity|]. split; [auto|]. intros d ? ?. contradiction.
  - cbn [Fs.deleteDirectoriesFrom] in H.
    destruct (Fs.rmdir (c :: parent) fs) as [fs1|e] eqn:Hrm.
    + destruct (Fs.deleteDirectoriesFrom parent fs1) as [fs2 log2] eqn:Hrec.
      injection H as <- <-.
      apply rmdir_inl in Hrm as (Hne & Hin & Hempty & Hdirs & Hfiles).
      destruct (IH _ _ _ Hrec) as (IH1 & IH2 & IH3).
      split; [congruence|]. split.
      * intros d Hd. apply IH2 in Hd. rewrite Hdirs in Hd.
        now apply elem_of_removePath in Hd.
      * intros d Hd Hnot.
        destruct (decide (d = c :: parent)) as [->|Hdiff].
        -- split; [reflexivity|]. split; [exact Hne|].
           now apply readdir_nil_files.
        -- assert (Hd1 : d ∈ Fs.directories fs1).
           { rewrite Hdirs. now apply elem_of_removePath. }
           destruct (IH3 d Hd1 Hnot) as (Hs & Hn & Hf).
           split; [now apply suffix_cons_r|]. split; [exact Hn|]. congruence.
    + injection H as <- <-. split; [reflexivity|]. split; [auto|].
      intros d ? ?. contradiction.
Qed.

Lemma not_below_self (d : Fs.Path) : ~ below d d.
Proof.
  intros (k & Hk & E). apply (f_equal length) in E. rewrite length_app in E.
  destruct k; [congruence | simpl in E; lia].
Qed.

Lemma isChildOf_inv (d p : Fs.Path) :
  Fs.isChildOf d p = true -> exists x, p = x :: d.
Proof.
  destruct p as [|x parent]; [discriminate|]. cbn.
  intros H%bool_decide_eq_true. subst. eauto.
Qed.

Lemma below_child (d p : Fs.Path) (x : string) : below (x :: d) p -> below d p.
Proof.
  intros (k & Hk & ->). exists (k ++ [x]). split.
  - destruct k; discriminate.
  - now rewrite <- app_assoc.
Qed.

Lemma sweptBelow_refl (d : Fs.Path) (fs : Fs.FileSystem) : sweptBelow d fs fs.
Proof. unfold sweptBelow. auto. Qed.

(** [removeEmptyDirectories] removes directories strictly below the
    directory it is called on, and nothing else *)
Lemma removeEmptyDirectories_sweptBelow (sourceFolder : Fs.Path) (fuel : nat) :
  forall (directoryPath : Fs.Path) (fs fs' : Fs.FileSystem),
  Fs.removeEmptyDirectories fuel sourceFolder directoryPath fs = Some (Ok fs') ->
  sweptBelow directoryPath fs fs'.
Proof.
  induction fuel as [|fuel IH]; intros d fs fs' H; [discriminate|].
  cbn [Fs.removeEmptyDirectories] in H.
  destruct (bool_decide (d ∈ Fs.directories fs)); [|discriminate].
  revert H.
  match goal with
  | |- foldl ?f ?b ?l = _ -> _ =>
      pose proof (foldl_invariant f
        (fun acc => match acc with
                    | Some (Ok fs1) => sweptBelow d fs fs1
                    | _ => True
                    end) l b) as Hinv
  end.
  cbv beta in Hinv.
  intros H. rewrite H in Hinv. apply Hinv; [apply sweptBelow_refl|].
  clear H Hinv fs'. intros acc c Hc Hacc.
  destruct acc as [[fs1|msg]|]; try exact I.
  apply list_elem_of_filter in Hc as [Hchild _].
  apply isChildOf_inv in Hchild as [x ->].
  destruct (Fs.removeEmptyDirectories fuel sourceFolder (x :: d) fs1)
    as [[fs2|msg]|] eqn:Hrec; try exact I.
  apply IH in Hrec. destruct Hacc as (Hf1 & Hsub1 & Hkeep1).
  destruct Hrec as (Hf2 & Hsub2 & Hkeep2).
  assert (Hswept : sweptBelow d fs fs2).
  { split; [congruence|]. split; [auto|].
    intros p Hp Hnb. apply Hkeep2; [auto|]. intros Hb. apply Hnb.
    now apply below_child in Hb. }
  destruct (Fs.readdir (x :: d) fs2); [|exact Hswept].
  destruct (bool_decide (d <> sourceFolder)); [|exact Hswept].
  destruct (Fs.rmdir (x :: d) fs2) as [fs3|e] eqn:Hrm; [|exact I].
  apply rmdir_inl in Hrm as (_ & _ & _ & Hdirs & Hfiles).
  destruct Hswept as (Hf & Hsub & Hkeep).
  split; [congruence|]. split.
  - intros p Hp. rewrite Hdirs in Hp. apply elem_of_removePath in Hp as [_ Hp]. auto.
  - intros p Hp Hnb. rewrite Hdirs. apply elem_of_removePath. split; [|auto].
    intros ->. apply Hnb. exists [x]. split; [discriminate | reflexivity].
Qed.

(** with fuel beyond the depth of the tree below [directoryPath],
    [removeEmptyDirectories] comes to an end *)
Ltac stays := eexists; split; [reflexivity | first [exact I | assumption]].

Lemma removeEmptyDirectories_fuel (sourceFolder : Fs.Path) (depth fuel : nat) :
  forall (directoryPath : Fs.Path) (fs : Fs.FileSystem),
  Forall (fun p => length p <= depth)%nat (Fs.directories fs) ->
  (1 <= fuel)%nat -> (depth + 1 <= fuel + length directoryPath)%nat ->
  exists r, Fs.removeEmptyDirectories fuel sourceFolder directoryPath fs = Some r.
Proof.
  induction fuel as [|fuel IH]; intros d fs Hdepth Hpos Hfuel; [lia|].
  cbn [Fs.removeEmptyDirectories].
  destruct (bool_decide (d ∈ Fs.directories fs)); [|eauto].
  match goal with
  | |- exists r, foldl ?f ?b ?l = Some r =>
      enough (exists r, foldl f b l = Some r
                /\ match r with
                   | Ok fs1 => Forall (fun p => length p <= depth)%nat
                                 (Fs.directories fs1)
                   | Throw _ => True
                   end) as (r & Hr & _) by eauto;
      apply (foldl_invariant f
        (fun acc => exists r, acc = Some r
                    /\ match r with
                       | Ok fs1 => Forall (fun p => length p <= depth)%nat
                                     (Fs.directories fs1)
                       | Throw _ => True
                       end) l b)
  end.
  - eauto.
  - intros acc c Hc (r & -> & Hr).
    destruct r as [fs1|msg]; [|stays].
    apply list_elem_of_filter in Hc as [Hchild Hcin].
    apply isChildOf_inv in Hchild as [x ->].
    assert (Hlen : (S (length d) <= depth)%nat).
    { eapply Forall_forall in Hdepth; [|exact Hcin]. exact Hdepth. }
    destruct (IH (x :: d) fs1 Hr) as [r1 Hr1]; [lia | simpl; lia |].
    rewrite Hr1. destruct r1 as [fs2|msg]; [|stays].
    assert (Hd2 : Forall (fun p => length p <= depth)%nat (Fs.directories fs2)).
    { apply removeEmptyDirectories_sweptBelow in Hr1 as (_ & Hsub & _).
      apply Forall_forall. intros p Hp. apply Hsub in Hp.
      eapply Forall_forall in Hr; [|exact Hp]. exact Hr. }
    destruct (Fs.readdir (x :: d) fs2); [|stays].
    destruct (bool_decide (d <> sourceFolder)); [|stays].
    destruct (Fs.rmdir (x :: d) fs2) as [fs3|e] eqn:Hrm; [|stays].
    eexists. split; [reflexivity|].
    apply rmdir_inl in Hrm as (_ & _ & _ & Hdirs & _).
    apply Forall_forall. intros p Hp. rewrite Hdirs in Hp.
    apply elem_of_removePath in Hp as [_ Hp].
    eapply Forall_forall in Hd2; [|exact Hp]. exact Hd2.
Qed.

(** C9, as stated, fails: after the last file of the target tree [/site] is
    deleted, the walk upwards removes [/site/docs] and then the root [/site]
    of the tree itself. *)
Lemma C9_counterexample :
  Fs.deleteParentDirectories ["a.md"; "docs"; "site"] emptiedSite
  = ({| Fs.directories := [[]]; Fs.files := [] |},
     [Fs.DeletedDirectory ["docs"; "site"]; Fs.DeletedDirectory ["site"]])
  /\ bool_decide (["site"] ∈ Fs.directories emptiedSite) = true
  /\ bool_decide (["site"] ∈ Fs.directories
                    (fst (Fs.deleteParentDirectories ["a.md"; "docs"; "site"] emptiedSite)))
     = false.
Proof. repeat split. Qed.

(** C9, amended.  After a target file is deleted, [deleteParentDirectories]
    walks upwards from its directory: it keeps every file, removes only
    directories on the way up that hold no file, never the root of the file
    system, and returns, with nothing thrown and nothing logged, at the first
    directory that is not empty; after a directory it has removed it goes on
    with the parent, whichever it is: the walk does not know the root of the
    target tree.  The sweep [removeEmptyDirectories] at the end of a run of
    the handler comes to an end and, when nothing throws, keeps the files
    and the directory it is called on. *)
Theorem C9_empty_directories (filepath : Fs.Path) (fs : Fs.FileSystem) :
  let fs' := fst (Fs.deleteParentDirectories filepath fs) in
  Fs.files fs' = Fs.files fs
  /\ ([] ∈ Fs.directories fs -> [] ∈ Fs.directories fs')
  /\ (forall d, d ∈ Fs.directories fs -> d ∉ Fs.directories fs' ->
        d `suffix_of` Fs.dirname filepath /\ d <> []
        /\ Forall (fun f => Fs.isChildOf d f = false) (Fs.files fs))
  /\ (forall dirPath, Fs.rmdir dirPath fs = inr Fs.ENOTEMPTY ->
        Fs.deleteDirectoriesFrom dirPath fs = (fs, []))
  /\ (forall name parent fs1, Fs.rmdir (name :: parent) fs = inl fs1 ->
        fst (Fs.deleteDirectoriesFrom (name :: parent) fs)
        = fst (Fs.deleteDirectoriesFrom parent fs1))
  /\ (forall fuel sourceFolder root fs1,
        Fs.removeEmptyDirectories fuel sourceFolder root fs = Some (Ok fs1) ->
        root ∈ Fs.directories fs1 /\ Fs.files fs1 = Fs.files fs)
  /\ (exists fuel0, forall fuel sourceFolder root,
        (fuel0 <= fuel)%nat ->
        exists r, Fs.removeEmptyDirectories fuel sourceFolder root fs = Some r).
Proof.
  intros fs'. subst fs'. unfold Fs.deleteParentDirectories.
  destruct (Fs.deleteDirectoriesFrom (Fs.dirname filepath) fs) as [fs' log] eqn:Hwalk.
  destruct (deleteDirectoriesFrom_spec _ _ _ _ Hwalk) as (Hfiles & Hsub & Hgone).
  cbn [fst]. split; [exact Hfiles|]. split.
  { intros Hroot. destruct (decide ([] ∈ Fs.directories fs')) as [|Hnot]; [assumption|].
    destruct (Hgone [] Hroot Hnot) as (_ & Hne & _). contradiction. }
  split; [exact Hgone|]. split.
  { intros dirPath Hrm. destruct dirPath as [|c parent]; cbn [Fs.deleteDirectoriesFrom].
    - reflexivity.
    - now rewrite Hrm. }
  split.
  { intros name parent fs1 Hrm. cbn [Fs.deleteDirectoriesFrom]. rewrite Hrm.
    now destruct (Fs.deleteDirectoriesFrom parent fs1). }
  split.
  { intros fuel sourceFolder root fs1 Hsweep.
    pose proof (removeEmptyDirectories_sweptBelow _ _ _ _ _ Hsweep) as (Hf & _ & Hkeep).
    split; [|exact Hf]. apply Hkeep; [|apply not_below_self].
    destruct fuel; [discriminate|]. cbn [Fs.removeEmptyDirectories] in Hsweep.
    destruct (bool_decide (root ∈ Fs.directories fs)) eqn:Hin; [|discriminate].
    now apply bool_decide_eq_true in Hin. }
  exists (S (list_max (length <$> Fs.directories fs))).
  intros fuel sourceFolder root Hfuel.
  apply (removeEmptyDirectories_fuel sourceFolder
           (list_max (length <$> Fs.directories fs))); [|lia|lia].
  apply Forall_forall. intros p Hp.
  pose proof (proj1 (list_max_le (length <$> Fs.directories fs) _) (Nat.le_refl _)) as Hmax.
  rewrite List.Forall_forall in Hmax. apply Hmax.
  apply list_elem_of_In. apply list_elem_of_fmap. eauto.
Qed.

Lemma C9_empty_directories_witness :
  Fs.deleteDirectoriesFrom ["site"] siteWithFile = (siteWithFile, [])
  /\ ["site"] ∈ Fs.directories
       {| Fs.directories := [[]; ["site"]]; Fs.files := [["b.md"; "site"]] |}.
Proof.
  destruct (C9_empty_directories ["a.md"; "docs"; "site"] siteWithFile)
    as (_ & _ & _ & Hstop & _ & Hsweep & _).
  split.
  - apply Hstop. reflexivity.
  - apply (Hsweep 3%nat ["vault"] ["site"]). reflexivity.
Defined.

(** ** The rewrites touch one place of a line *)

Lemma replace_rewritesBefore (pat repl x y : string) :
  rewritesBefore (x +:+ pat +:+ y) (Js.replace pat repl (x +:+ pat +:+ y)) y.
Proof.
  destruct (cut_keeps_after pat x y) as (b & a & mid & Hc & Ha).
  unfold Js.replace. rewrite Hc.
  exists b, pat, (Js.getSubstitution pat b a repl), a, mid.
  split; [now apply cut_Some | auto].
Qed.

Lemma processUrlParts_Ok (urlParts : list string) (isBlog : bool) :
  (2 <= length urlParts)%nat -> exists r, processUrlParts urlParts isBlog = Ok r.
Proof.
  intros H. unfold processUrlParts.
  pose proof (length_rev urlParts) as Hl.
  destruct (List.rev urlParts) as [|a [|b l]]; simpl in Hl; [lia | lia |].
  eexists. reflexivity.
Qed.

(** the wiki-style pass rewrites the first reference, in its place *)
Lemma convertObsidianLinks_first (line : string) (fp : FileProcessor)
    (m : Match (string * string)) :
  matchWiki line = Some m ->
  exists new, convertObsidianLinks line fp = before m +:+ new +:+ after m.
Proof.
  intros H. pose proof (matchWiki_Some _ _ H) as E.
  pose proof (matchWiki_cut _ _ H) as Hcut.
  unfold convertObsidianLinks. rewrite H.
  destruct (groups m) as [match0 match1]. cbn [fst] in E, Hcut.
  unfold Js.replace. rewrite Hcut.
  destruct (getPathOfFile fp _) as [newPath|]; [eauto|].
  destruct (getPathOfImage fp match1) as [newPath|]; eauto.
Qed.

Lemma checkForLinks_rewritesBefore (line : string) (m : Match (string * string)) :
  matchLink line = Some m ->
  exists out, checkForLinks line = Ok out /\ rewritesBefore line out (after m).
Proof.
  intros H. pose proof (matchLink_Some _ _ H) as E.
  unfold checkForLinks. rewrite H.
  destruct (groups m) as [text url]. unfold linkText in E. cbn [fst snd] in *.
  assert (E' : line = (before m +:+ "[" +:+ text +:+ "](") +:+ url +:+ ")" +:+ after m).
  { rewrite E. now rewrite !sapp_assoc. }
  assert (Hsame : rewritesBefore line line (after m)).
  { rewrite E' at 1 2. eexists _, url, url, _, ")". auto. }
  destruct (Js.includes "http" url); [eauto|].
  destruct (Nat.leb (length (Js.split "/" url)) 1) eqn:Hlen; [eauto|].
  apply Nat.leb_gt in Hlen.
  set (parts := if isBlogFolder _ then _ else _).
  destruct (processUrlParts_Ok parts (isBlogFolder (hd "" (Js.split "/" url)))) as [r Hr].
  { subst parts. destruct (isBlogFolder _); [rewrite length_insert|]; lia. }
  rewrite Hr. eexists. split; [reflexivity|].
  destruct (replace_rewritesBefore url ("/" +:+ Js.join "/" r)
              (before m +:+ "[" +:+ text +:+ "](") (")" +:+ after m))
    as (b & old & new & a & mid & H1 & H2 & H3).
  rewrite <- E' in H1, H2.
  exists b, old, new, a, (mid +:+ ")"). rewrite sapp_assoc. auto.
Qed.

(** C10.  A line with two or more wiki-style references, or two or more
    markdown links: each pass looks at the first one only.  The wiki-style
    pass gives the line with the text of the first reference replaced, in
    its place, and all that follows it as it was.  The link pass gives the
    line with at most one region rewritten (the first place where the text
    of the path of the first link stands), and everything after the first
    link, where the later ones are, follows that region character for
    character. *)
Theorem C10_first_occurrence_only (line : string) (fp : FileProcessor) :
  (forall m, matchWiki line = Some m ->
     line = before m +:+ fst (groups m) +:+ after m
     /\ exists new, convertObsidianLinks line fp = before m +:+ new +:+ after m)
  /\ (forall m, matchLink line = Some m ->
        line = before m +:+ linkText (groups m) +:+ after m
        /\ exists out, checkForLinks line = Ok out /\ rewritesBefore line out (after m)).
Proof.
  split; intros m H.
  - split; [now apply matchWiki_Some | now apply convertObsidianLinks_first].
  - split; [now apply matchLink_Some | now apply checkForLinks_rewritesBefore].
Qed.

Lemma C10_first_occurrence_only_witness :
  (exists new, convertObsidianLinks "[[A]] and [[B]]" twoNotes
               = "" +:+ new +:+ " and [[B]]")
  /\ convertObsidianLinks "[[A]] and [[B]]" twoNotes = "[A](docs/A.md) and [[B]]"
  /\ checkForLinks "[x](1-a/b.md) [y](2-c/d.md)" = Ok "[x](/a/b) [y](2-c/d.md)"
  /\ exists out, checkForLinks "[x](1-a/b.md) [y](2-c/d.md)" = Ok out
                 /\ rewritesBefore "[x](1-a/b.md) [y](2-c/d.md)" out " [y](2-c/d.md)".
Proof.
  destruct (C10_first_occurrence_only "[[A]] and [[B]]" twoNotes) as [Hwiki _].
  destruct (C10_first_occurrence_only "[x](1-a/b.md) [y](2-c/d.md)" twoNotes) as [_ Hlink].
  split.
  - apply (Hwiki {| before := ""; groups := ("[[A]]", "A"); after := " and [[B]]" |}).
    reflexivity.
  - split; [reflexivity|]. split; [reflexivity|].
    apply (Hlink {| before := ""; groups := ("x", "1-a/b.md"); after := " [y](2-c/d.md)" |}).
    reflexivity.
Defined.

(** ** The handler: what a run deletes and converts *)

Lemma snd_fmap_prod_map {A : Type} (f : nat -> nat) (o : option (nat * A)) :
  snd <$> (prod_map f id <$> o) = snd <$> o.
Proof. now destruct o as [[]|]. Qed.

Section FindOther.
Context {A : Type} (P : A -> Prop) `{!forall x, Decision (P x)}.

(** removing an element that does not match leaves the first match *)
Lemma list_find_delete_other (l : list A) :
  forall i x, l !! i = Some x -> ~ P x ->
  snd <$> list_find P (delete i l) = snd <$> list_find P l.
Proof.
  induction l as [|y l IH]; intros i x Hx Hn; [discriminate|].
  destruct i as [|i]; cbn in Hx |- *.
  - injection Hx as ->. destruct (decide (P x)); [contradiction|].
    now rewrite snd_fmap_prod_map.
  - destruct (decide (P y)); [reflexivity|].
    rewrite !snd_fmap_prod_map. eauto.
Qed.

(** adding an element that does not match at the end as well *)
Lemma list_find_snoc_other (l : list A) (x : A) :
  ~ P x -> list_find P (l ++ [x]) = list_find P l.
Proof.
  intros Hn. destruct (list_find P l) as [[i y]|] eqn:Hfind.
  - now apply list_find_app_l.
  - rewrite list_find_app_r by exact Hfind. cbn.
    destruct (decide (P x)); [contradiction|]. reflexivity.
Qed.

End FindOther.

Lemma filter_ext_Forall {A : Type} (P Q : A -> Prop) `{!forall x, Decision (P x)}
    `{!forall x, Decision (Q x)} (l : list A) :
  Forall (fun x => P x <-> Q x) l -> filter P l = filter Q l.
Proof.
  induction 1 as [|x l Hx _ IH]; [reflexivity|].
  rewrite !filter_cons. destruct (decide (P x)), (decide (Q x)); try tauto; now rewrite IH.
Qed.

Lemma NoDup_fmap_head {A B : Type} (f : A -> B) (x : A) (l : list A) :
  NoDup (f <$> x :: l) -> Forall (fun y => f y <> f x) l /\ NoDup (f <$> l).
Proof.
  rewrite fmap_cons. intros [Hx Hl]%NoDup_cons. split; [|exact Hl].
  apply Forall_forall. intros y Hy E. apply Hx. rewrite <- E.
  apply list_elem_of_fmap. eauto.
Qed.

Section HandlerExact.
Import Handler.

Variable sourceFiles : list MarkdownSourceFile.

(** one step of the first pass, by [staleTarget] *)
Lemma checkTargetFile_eq (st : State) (targetFile : MarkdownFile) :
  checkTargetFile sourceFiles st targetFile
  = if staleTarget sourceFiles (mdConversionEntries st) targetFile
    then {| mdConversionEntries := withoutTarget (mdConversionEntries st) targetFile;
            dataFile := dataFile st;
            deletedFiles := deletedFiles st ++ [targetFile];
            conversions := conversions st |}
    else st.
Proof.
  unfold checkTargetFile, staleTarget, withoutTarget, deleteAndLog.
  destruct (list_find _ (mdConversionEntries st)) as [[i entry]|]; [|reflexivity].
  destruct (list_find _ sourceFiles) as [[j sourceFile]|]; [|reflexivity].
  destruct (dateModified sourceFile >? dateModified targetFile); reflexivity.
Qed.

(** the entry lost for a target file does not change the fate of a target
    file with another path *)
Lemma staleTarget_withoutTarget (entries : list MdConversionEntry)
    (t t2 : MarkdownFile) :
  absolutepath t2 <> absolutepath t ->
  staleTarget sourceFiles (withoutTarget entries t) t2
  = staleTarget sourceFiles entries t2.
Proof.
  intros Hne. unfold withoutTarget.
  destruct (list_find _ entries) as [[i x]|] eqn:Hfind; [|reflexivity].
  apply list_find_Some in Hfind as (Hx & Hp & _).
  assert (H : snd <$> list_find (fun entry => absolutepath t2 = targetPath entry)
                        (delete i entries)
              = snd <$> list_find (fun entry => absolutepath t2 = targetPath entry) entries).
  { eapply list_find_delete_other; [exact Hx|]. congruence. }
  unfold staleTarget.
  destruct (list_find _ (delete i entries)) as [[? ?]|],
           (list_find _ entries) as [[? ?]|]; cbn in H; try discriminate; [|reflexivity].
  now injection H as ->.
Qed.

Lemma withoutTarget_sublist (entries : list MdConversionEntry) (t : MarkdownFile) :
  withoutTarget entries t `sublist_of` entries.
Proof.
  unfold withoutTarget. destruct (list_find _ entries) as [[i x]|]; [|reflexivity].
  apply sublist_delete.
Qed.

Lemma checkTargetFiles_exact (targetFiles : list MarkdownFile) :
  forall st,
  NoDup (absolutepath <$> targetFiles) ->
  let stale := filter (fun t => staleTarget sourceFiles (mdConversionEntries st) t = true)
                      targetFiles in
  checkTargetFiles targetFiles sourceFiles st
  = {| mdConversionEntries := foldl withoutTarget (mdConversionEntries st) stale;
       dataFile := dataFile st;
       deletedFiles := deletedFiles st ++ stale;
       conversions := conversions st |}.
Proof.
  induction targetFiles as [|t ts IH]; intros st Hnodup.
  - cbn. rewrite app_nil_r. now destruct st.
  - apply NoDup_fmap_head in Hnodup as [Hts Hnodup].
    unfold checkTargetFiles in *. cbn zeta in *. cbn [foldl].
    rewrite IH by exact Hnodup.
    rewrite checkTargetFile_eq, filter_cons.
    destruct (staleTarget sourceFiles (mdConversionEntries st) t) eqn:Hstale.
    + destruct (decide (true = true)); [|congruence]. cbn.
      rewrite (filter_ext_Forall _
                 (fun t2 => staleTarget sourceFiles (mdConversionEntries st) t2 = true) ts).
      * now rewrite <- app_assoc.
      * eapply Forall_impl; [exact Hts|]. cbn. intros t2 Hne.
        now rewrite staleTarget_withoutTarget.
    + destruct (decide (false = true)); [congruence|]. reflexivity.
Qed.

End HandlerExact.

Section HandlerExactSecond.
Import Handler.

Variable convertOk : MarkdownSourceFile -> bool.
Variable targetFiles : list MarkdownFile.

(** the entry made for a source file does not change the fate of a source
    file with another path *)
Lemma needsConversion_snoc (entries : list MdConversionEntry)
    (s s2 : MarkdownSourceFile) :
  absolutepath s2 <> absolutepath s ->
  needsConversion targetFiles (entries ++ [entryOf s]) s2
  = needsConversion targetFiles entries s2.
Proof.
  intros Hne. unfold needsConversion.
  rewrite list_find_snoc_other; [reflexivity|]. cbn. congruence.
Qed.

Lemma checkSourceFiles_exact (sourceFiles : list MarkdownSourceFile) :
  forall st,
  NoDup ((fun s : MarkdownSourceFile => absolutepath s) <$> sourceFiles) ->
  Forall (fun s => convertOk s = true) sourceFiles ->
  let changed :=
    filter (fun s => needsConversion targetFiles (mdConversionEntries st) s = true)
           sourceFiles in
  checkSourceFiles convertOk sourceFiles targetFiles st
  = Done {| mdConversionEntries := mdConversionEntries st ++ (entryOf <$> changed);
            dataFile := dataFile st;
            deletedFiles := deletedFiles st;
            conversions := conversions st ++ changed |}.
Proof.
  induction sourceFiles as [|s ss IH]; intros st Hnodup Hok.
  - cbn. rewrite !app_nil_r. now destruct st.
  - apply NoDup_fmap_head in Hnodup as [Hss Hnodup].
    apply Forall_cons in Hok as [Hs Hok].
    cbn zeta in *. cbn [checkSourceFiles]. rewrite checkSourceFile_eq, filter_cons.
    destruct (needsConversion targetFiles (mdConversionEntries st) s) eqn:Hneeds.
    + destruct (decide (true = true)); [|congruence].
      unfold convertAndLog. rewrite Hs. cbn [andThen].
      rewrite IH by assumption. cbn.
      rewrite (filter_ext_Forall _
                 (fun s2 => needsConversion targetFiles (mdConversionEntries st) s2 = true) ss).
      * now rewrite <- !app_assoc.
      * eapply Forall_impl; [exact Hss|]. cbn. intros s2 Hne.
        now rewrite (needsConversion_snoc _ s s2 Hne).
    + destruct (decide (false = true)); [congruence|]. cbn [andThen]. now apply IH.
Qed.

End HandlerExactSecond.

Section HandlerRuns.
Import Handler.

Lemma checkTargetFiles_idle (sourceFiles : list MarkdownSourceFile)
    (targetFiles : list MarkdownFile) (st : State) :
  Forall (fun t => staleTarget sourceFiles (mdConversionEntries st) t = false) targetFiles ->
  checkTargetFiles targetFiles sourceFiles st = st.
Proof.
  unfold checkTargetFiles. induction 1 as [|t ts Ht _ IH]; [reflexivity|].
  cbn [foldl]. now rewrite checkTargetFile_eq, Ht.
Qed.

Lemma checkSourceFiles_idle (convertOk : MarkdownSourceFile -> bool)
    (sourceFiles : list MarkdownSourceFile) (targetFiles : list MarkdownFile) (st : State) :
  Forall (fun s => needsConversion targetFiles (mdConversionEntries st) s = false)
         sourceFiles ->
  checkSourceFiles convertOk sourceFiles targetFiles st = Done st.
Proof.
  induction 1 as [|s ss Hs _ IH]; [reflexivity|].
  cbn [checkSourceFiles]. now rewrite checkSourceFile_eq, Hs.
Qed.

(** with no entry, the first pass deletes every target file *)
Lemma checkTargetFiles_noEntries (sourceFiles : list MarkdownSourceFile)
    (targetFiles : list MarkdownFile) :
  forall st, mdConversionEntries st = [] ->
  checkTargetFiles targetFiles sourceFiles st
  = {| mdConversionEntries := []; dataFile := dataFile st;
       deletedFiles := deletedFiles st ++ targetFiles;
       conversions := conversions st |}.
Proof.
  unfold checkTargetFiles.
  induction targetFiles as [|t ts IH]; intros st Hst.
  - cbn. rewrite app_nil_r. destruct st; cbn in *. now subst.
  - cbn [foldl]. rewrite checkTargetFile_eq, Hst. cbn.
    rewrite IH by reflexivity. cbn. now rewrite <- app_assoc.
Qed.

Lemma filter_all {A : Type} (P : A -> Prop) `{!forall x, Decision (P x)} (l : list A) :
  Forall P l -> filter P l = l.
Proof.
  induction 1 as [|x l Hx _ IH]; [reflexivity|].
  rewrite filter_cons. destruct (decide (P x)); [|contradiction]. now rewrite IH.
Qed.

(** a run that loads no entry deletes every target file and converts every
    source file *)
Lemma startConversion_rebuild (convertOk : MarkdownSourceFile -> bool)
    (writeOk unlinkOk : bool) (sourceFiles : list MarkdownSourceFile)
    (targetFiles : list MarkdownFile) (st0 : State) :
  loadMdFilesFromJson st0 = [] ->
  NoDup ((fun s : MarkdownSourceFile => absolutepath s) <$> sourceFiles) ->
  Forall (fun s => convertOk s = true) sourceFiles ->
  exists st,
    startConversion convertOk writeOk unlinkOk sourceFiles targetFiles st0 = Done st
    /\ deletedFiles st = deletedFiles st0 ++ targetFiles
    /\ conversions st = conversions st0 ++ sourceFiles
    /\ mdConversionEntries st = entryOf <$> sourceFiles.
Proof.
  intros Hload Hnodup Hok. unfold startConversion.
  rewrite checkTargetFiles_noEntries by exact Hload.
  rewrite checkSourceFiles_exact by assumption. cbn.
  rewrite filter_all by (apply Forall_forall; reflexivity).
  eexists. split; [reflexivity|].
  unfold resetDatabase, saveMdFilesToJson. destruct unlinkOk, writeOk; cbn; auto.
Qed.

End HandlerRuns.

(** ** What a run of the handler deletes and converts *)

(** X1.  The first pass of the handler, over target files with distinct
    paths, deletes exactly the target files that are stale with the entries
    the run has loaded, in the order of the list: those with no entry, those
    whose entry names a source file that is not there, and those whose
    source file is newer.  For each of them the first entry for its path is
    removed, and no other entry is; the pass converts nothing and leaves the
    data file alone. *)
Theorem first_pass_deletes_stale_targets
    (sourceFiles : list Handler.MarkdownSourceFile)
    (targetFiles : list Handler.MarkdownFile) (st0 : Handler.State) :
  NoDup (Handler.absolutepath <$> targetFiles) ->
  let stale := filter (fun t => staleTarget sourceFiles (Handler.loadMdFilesFromJson st0) t
                                = true) targetFiles in
  let st1 := afterFirstPass sourceFiles targetFiles st0 in
  Handler.deletedFiles st1 = Handler.deletedFiles st0 ++ stale
  /\ Handler.mdConversionEntries st1
     = foldl withoutTarget (Handler.loadMdFilesFromJson st0) stale
  /\ Handler.mdConversionEntries st1 `sublist_of` Handler.loadMdFilesFromJson st0
  /\ Handler.conversions st1 = Handler.conversions st0
  /\ Handler.dataFile st1 = Handler.dataFile st0.
Proof.
  intros Hnodup stale st1. subst st1. unfold afterFirstPass.
  rewrite checkTargetFiles_exact by exact Hnodup. cbn. fold stale.
  repeat split.
  generalize (Handler.loadMdFilesFromJson st0). induction stale as [|t ts IH]; intros l.
  - reflexivity.
  - cbn [foldl]. etransitivity; [apply IH|]. apply withoutTarget_sublist.
Qed.

Lemma first_pass_deletes_stale_targets_witness :
  Handler.deletedFiles
    (afterFirstPass [sourceA]
       [targetA; {| Handler.absolutepath := "site/docs/old.md"; Handler.dateModified := 5 |}]
       withEntryA)
  = [] ++ [{| Handler.absolutepath := "site/docs/old.md"; Handler.dateModified := 5 |}].
Proof.
  refine (proj1 (first_pass_deletes_stale_targets [sourceA]
            [targetA; {| Handler.absolutepath := "site/docs/old.md";
                         Handler.dateModified := 5 |}] withEntryA _)).
  cbn. apply NoDup_cons. split; [|apply NoDup_singleton].
  rewrite list_elem_of_singleton. discriminate.
Defined.

(** X2.  A run of the handler in which every conversion succeeds, over
    source files with distinct paths, ends normally.  It converts exactly
    the source files that, with the entries left by the first pass and the target files listed before that
    pass, have no entry, or an entry whose target file is not listed, or an
    older target file; it does so in the order of the list.  One entry is
    appended per conversion, and no entry is replaced or removed by the
    second pass. *)
Theorem run_converts_changed_sources (convertOk : Handler.MarkdownSourceFile -> bool)
    (writeOk unlinkOk : bool) (sourceFiles : list Handler.MarkdownSourceFile)
    (targetFiles : list Handler.MarkdownFile) (st0 : Handler.State) :
  NoDup ((fun s => Handler.absolutepath (Handler.asMarkdownFile s)) <$> sourceFiles) ->
  Forall (fun s => convertOk s = true) sourceFiles ->
  let st1 := afterFirstPass sourceFiles targetFiles st0 in
  let changed := filter (fun s => needsConversion targetFiles
                                    (Handler.mdConversionEntries st1) s = true)
                        sourceFiles in
  exists st,
    Handler.startConversion convertOk writeOk unlinkOk sourceFiles targetFiles st0
    = Handler.Done st
    /\ Handler.conversions st = Handler.conversions st0 ++ changed
    /\ Handler.mdConversionEntries st
       = Handler.mdConversionEntries st1 ++ (entryOf <$> changed)
    /\ Handler.deletedFiles st = Handler.deletedFiles st1.
Proof.
  intros Hns Hok st1 changed.
  destruct (checkTargetFiles_calls sourceFiles targetFiles (loaded st0)) as [Hc _].
  change (Handler.checkTargetFiles targetFiles sourceFiles (loaded st0)) with st1 in Hc.
  cbn in Hc.
  unfold Handler.startConversion. fold (afterFirstPass sourceFiles targetFiles st0).
  fold st1. rewrite checkSourceFiles_exact by assumption. cbn. fold changed.
  eexists. split; [reflexivity|].
  unfold Handler.resetDatabase, Handler.saveMdFilesToJson.
  destruct unlinkOk, writeOk; cbn; rewrite Hc; auto.
Qed.

Lemma run_converts_changed_sources_witness :
  exists st,
    Handler.startConversion (fun _ => true) true true [sourceA] [] (Handler.initial None)
    = Handler.Done st
    /\ Handler.conversions st = [] ++ [sourceA]
    /\ Handler.mdConversionEntries st = [] ++ (entryOf <$> [sourceA])
    /\ Handler.deletedFiles st = [].
Proof.
  refine (run_converts_changed_sources (fun _ => true) true true [sourceA] []
            (Handler.initial None) _ _).
  - cbn. apply NoDup_singleton.
  - repeat constructor.
Defined.

(** X3.  A run of the handler that finds no stale target file and no source
    file to convert, with the entries it has loaded, calls neither
    [deleteFile] nor [convertMarkdownFile], keeps the loaded entries as they
    are, and ends normally, whatever the conversions would do. *)
Theorem run_without_changes_is_idle (convertOk : Handler.MarkdownSourceFile -> bool)
    (writeOk unlinkOk : bool) (sourceFiles : list Handler.MarkdownSourceFile)
    (targetFiles : list Handler.MarkdownFile) (st0 : Handler.State) :
  Forall (fun t => staleTarget sourceFiles (Handler.loadMdFilesFromJson st0) t = false)
         targetFiles ->
  Forall (fun s => needsConversion targetFiles (Handler.loadMdFilesFromJson st0) s = false)
         sourceFiles ->
  exists st,
    Handler.startConversion convertOk writeOk unlinkOk sourceFiles targetFiles st0
    = Handler.Done st
    /\ Handler.deletedFiles st = Handler.deletedFiles st0
    /\ Handler.conversions st = Handler.conversions st0
    /\ Handler.mdConversionEntries st = Handler.loadMdFilesFromJson st0.
Proof.
  intros Ht Hs. unfold Handler.startConversion.
  rewrite checkTargetFiles_idle by exact Ht.
  rewrite checkSourceFiles_idle by exact Hs. cbn.
  eexists. split; [reflexivity|].
  unfold Handler.resetDatabase, Handler.saveMdFilesToJson.
  destruct unlinkOk, writeOk; cbn; auto.
Qed.

Lemma run_without_changes_is_idle_witness :
  exists st,
    Handler.startConversion (fun _ => false) true true [sourceA] [targetA] withEntryA
    = Handler.Done st
    /\ Handler.deletedFiles st = []
    /\ Handler.conversions st = []
    /\ Handler.mdConversionEntries st = [entryA].
Proof.
  refine (run_without_changes_is_idle (fun _ => false) true true [sourceA] [targetA]
            withEntryA _ _); repeat constructor.
Defined.

(** X4.  Once a run of the handler has ended normally and has removed its
    data file, the next run loads no entry: it deletes every target file it
    is given and converts every source file, whatever their dates, as long
    as the source files have distinct paths and the conversions succeed. *)
Theorem run_after_reset_rebuilds_everything
    (convertOk convertOk' : Handler.MarkdownSourceFile -> bool)
    (writeOk writeOk' unlinkOk' : bool)
    (sourceFiles sourceFiles' : list Handler.MarkdownSourceFile)
    (targetFiles targetFiles' : list Handler.MarkdownFile) (st0 st1 : Handler.State) :
  Handler.startConversion convertOk writeOk true sourceFiles targetFiles st0
  = Handler.Done st1 ->
  NoDup ((fun s => Handler.absolutepath (Handler.asMarkdownFile s)) <$> sourceFiles') ->
  Forall (fun s => convertOk' s = true) sourceFiles' ->
  exists st2,
    Handler.startConversion convertOk' writeOk' unlinkOk' sourceFiles' targetFiles'
      (Handler.initial (Handler.dataFile st1)) = Handler.Done st2
    /\ Handler.deletedFiles st2 = targetFiles'
    /\ Handler.conversions st2 = sourceFiles'
    /\ Handler.mdConversionEntries st2 = entryOf <$> sourceFiles'.
Proof.
  intros Hrun Hnodup Hok.
  assert (Hnone : Handler.dataFile st1 = None).
  { unfold Handler.startConversion in Hrun.
    destruct (Handler.checkSourceFiles _ _ _ _) as [st|st]; [|discriminate].
    cbn in Hrun. now injection Hrun as <-. }
  rewrite Hnone.
  exact (startConversion_rebuild convertOk' writeOk' unlinkOk' sourceFiles' targetFiles'
           (Handler.initial None) eq_refl Hnodup Hok).
Qed.

Lemma run_after_reset_rebuilds_everything_witness :
  exists st2,
    Handler.startConversion (fun _ => true) true true [sourceA] [targetA]
      (Handler.initial None) = Handler.Done st2
    /\ Handler.deletedFiles st2 = [targetA]
    /\ Handler.conversions st2 = [sourceA]
    /\ Handler.mdConversionEntries st2 = entryOf <$> [sourceA].
Proof.
  refine (run_after_reset_rebuilds_everything (fun _ => true) (fun _ => true) true true true
            [sourceA] [sourceA] [] [targetA] (Handler.initial None)
            {| Handler.mdConversionEntries := [entryA]; Handler.dataFile := None;
               Handler.deletedFiles := []; Handler.conversions := [sourceA] |}
            eq_refl _ _).
  - cbn. apply NoDup_singleton.
  - repeat constructor.
Defined.


(** ** The main process: deleting entries and files *)

Section MainDeleteExact.

Variable pathJoin : string -> string -> Fs.Path.
Variable sourceJson : list SourceFileInfo.
Variable basePath : string.

(** whether an entry is listed does not depend on its index *)
Lemma fileToDelete_listed (i : nat) (targetFile : SourceFileInfo) :
  is_Some (Main.fileToDelete sourceJson i targetFile)
  <-> listedForDeletion sourceJson targetFile = true.
Proof.
  unfold listedForDeletion, Main.fileToDelete.
  destruct (Main.findByPath _ sourceJson) as [m|]; [|split; eauto].
  destruct (dateModified m) as [sd|], (dateModified targetFile) as [td|];
    try (split; [intros [? ?]|]; discriminate).
  destruct (td <? sd); [split; eauto | split; [intros [? ?]|]; discriminate].
Qed.

Lemma getFilesToDeleteFrom_snoc (targetJson : list SourceFileInfo) (t : SourceFileInfo) :
  forall n,
  Main.getFilesToDeleteFrom n sourceJson (targetJson ++ [t])
  = Main.getFilesToDeleteFrom n sourceJson targetJson
    ++ match Main.fileToDelete sourceJson (n + length targetJson) t with
       | Some f => [f]
       | None => []
       end.
Proof.
  induction targetJson as [|x l IH]; intros n.
  - cbn. rewrite Nat.add_0_r. now destruct (Main.fileToDelete sourceJson n t).
  - cbn [app Main.getFilesToDeleteFrom length]. rewrite IH.
    replace (S n + length l)%nat with (n + S (length l))%nat by lia.
    now destruct (Main.fileToDelete sourceJson n x).
Qed.

Lemma getFilesToDeleteFrom_bound (targetJson : list SourceFileInfo) (n : nat) :
  Forall (fun f => (Main.index f < n + length targetJson)%nat)
         (Main.getFilesToDeleteFrom n sourceJson targetJson).
Proof.
  apply Forall_forall. intros f Hf.
  assert (Hin : Main.index f ∈ Main.index <$> Main.getFilesToDeleteFrom n sourceJson targetJson)
    by (apply list_elem_of_fmap; eauto).
  apply getFilesToDeleteFrom_index in Hin as (j & x & -> & Hx & _).
  apply lookup_lt_Some in Hx. lia.
Qed.

Lemma getFilesToDeleteFrom_unlisted (targetJson : list SourceFileInfo) :
  forall n,
  Forall (fun t => listedForDeletion sourceJson t = false) targetJson ->
  Main.getFilesToDeleteFrom n sourceJson targetJson = [].
Proof.
  induction targetJson as [|t l IH]; intros n H; [reflexivity|].
  apply Forall_cons in H as [Ht Hl]. cbn [Main.getFilesToDeleteFrom].
  destruct (Main.fileToDelete sourceJson n t) as [f|] eqn:Hf; [|now apply IH].
  assert (Hs : is_Some (Main.fileToDelete sourceJson n t)) by eauto.
  apply fileToDelete_listed in Hs. congruence.
Qed.

(** what [unlink] and the walk upwards after it do to the file system *)
Lemma unlink_inl (p : Fs.Path) (fs fs' : Fs.FileSystem) :
  Fs.unlink p fs = inl fs' ->
  Fs.directories fs' = Fs.directories fs
  /\ Fs.files fs' = Fs.removePath p (Fs.files fs).
Proof.
  unfold Fs.unlink. destruct (bool_decide (p ∈ Fs.files fs)).
  - now intros [= <-].
  - destruct (bool_decide _); discriminate.
Qed.

Lemma unlink_inr (p : Fs.Path) (fs : Fs.FileSystem) (e : Fs.Errno) :
  Fs.unlink p fs = inr e ->
  (p ∉ Fs.files fs)
  /\ (e = Fs.ENOENT \/ (e = Fs.EISDIR /\ p ∈ Fs.directories fs)).
Proof.
  unfold Fs.unlink. destruct (bool_decide (p ∈ Fs.files fs)) eqn:Hf; [discriminate|].
  apply bool_decide_eq_false in Hf.
  destruct (bool_decide (p ∈ Fs.directories fs)) eqn:Hd; intros [= <-]; split; auto.
  apply bool_decide_eq_true in Hd. auto.
Qed.

Lemma deleteParentDirectories_spec (filepath : Fs.Path) (fs : Fs.FileSystem) :
  Fs.files (fst (Fs.deleteParentDirectories filepath fs)) = Fs.files fs
  /\ forall d, d ∈ Fs.directories (fst (Fs.deleteParentDirectories filepath fs))
               -> d ∈ Fs.directories fs.
Proof.
  unfold Fs.deleteParentDirectories.
  destruct (Fs.deleteDirectoriesFrom (Fs.dirname filepath) fs) as [fs' log] eqn:H.
  apply deleteDirectoriesFrom_spec in H as (Hf & Hd & _). auto.
Qed.

(** [deleteEach] over indices that go down and are in range never reads an
    entry that is not there; it removes entries, files and directories only *)
Lemma deleteEach_total (filesToDelete : list Main.FilesToProcess) :
  forall (targetJson : list SourceFileInfo) (fs : Fs.FileSystem),
  StronglySorted (fun f g => (Main.index g < Main.index f)%nat) filesToDelete ->
  Forall (fun f => (Main.index f < length targetJson)%nat) filesToDelete ->
  exists targetJson' fs',
    Main.deleteEach pathJoin filesToDelete targetJson basePath fs = Ok (targetJson', fs')
    /\ targetJson' `sublist_of` targetJson
    /\ (forall p, p ∈ Fs.files fs' -> p ∈ Fs.files fs)
    /\ (forall d, d ∈ Fs.directories fs' -> d ∈ Fs.directories fs).
Proof.
  induction filesToDelete as [|f rest IH]; intros targetJson fs Hsorted Hbound.
  - exists targetJson, fs. cbn. auto.
  - apply StronglySorted_inv in Hsorted as [Hsorted Hbelow].
    apply Forall_cons in Hbound as [Hf Hbound].
    destruct (lookup_lt_is_Some_2 targetJson (Main.index f) Hf) as [targetFile Ht].
    assert (Hbound' : Forall (fun g => (Main.index g < length (delete (Main.index f) targetJson))%nat)
                        rest).
    { rewrite length_delete by eauto.
      eapply Forall_impl; [exact Hbelow|]. cbn. intros; lia. }
    cbn [Main.deleteEach]. rewrite Ht.
    destruct (pathTargetRelative targetFile) as [relative|]; [|now apply IH].
    destruct (Fs.unlink _ fs) as [fs1|e] eqn:Hun.
    + apply unlink_inl in Hun as [Hd1 Hf1].
      destruct (deleteParentDirectories_spec (pathJoin basePath relative) fs1) as [Hf2 Hd2].
      destruct (IH (delete (Main.index f) targetJson)
                   (fst (Fs.deleteParentDirectories (pathJoin basePath relative) fs1))
                   Hsorted Hbound') as (tj' & fs' & -> & Hsub & Hfiles & Hdirs).
      exists tj', fs'. split; [reflexivity|]. split; [|split].
      * etransitivity; [exact Hsub | apply sublist_delete].
      * intros p Hp. apply Hfiles in Hp. rewrite Hf2, Hf1 in Hp.
        now apply elem_of_removePath in Hp.
      * intros d Hd. apply Hdirs, Hd2 in Hd. congruence.
    + destruct e; try now apply IH.
      destruct (IH (delete (Main.index f) targetJson) fs Hsorted Hbound')
        as (tj' & fs' & -> & Hsub & Hfiles & Hdirs).
      exists tj', fs'. split; [reflexivity|]. split; [|auto].
      etransitivity; [exact Hsub | apply sublist_delete].
Qed.

(** entries after the indices of the list do not matter, and stay *)
Lemma deleteEach_app (filesToDelete : list Main.FilesToProcess) (suffix : list SourceFileInfo) :
  forall (targetJson : list SourceFileInfo) (fs : Fs.FileSystem),
  StronglySorted (fun f g => (Main.index g < Main.index f)%nat) filesToDelete ->
  Forall (fun f => (Main.index f < length targetJson)%nat) filesToDelete ->
  Main.deleteEach pathJoin filesToDelete (targetJson ++ suffix) basePath fs
  = match Main.deleteEach pathJoin filesToDelete targetJson basePath fs with
    | Ok (targetJson', fs') => Ok (targetJson' ++ suffix, fs')
    | Throw m => Throw m
    end.
Proof.
  induction filesToDelete as [|f rest IH]; intros targetJson fs Hsorted Hbound.
  - reflexivity.
  - apply StronglySorted_inv in Hsorted as [Hsorted Hbelow].
    apply Forall_cons in Hbound as [Hf Hbound].
    destruct (lookup_lt_is_Some_2 targetJson (Main.index f) Hf) as [targetFile Ht].
    assert (Hbound' : Forall (fun g => (Main.index g < length (delete (Main.index f) targetJson))%nat)
                        rest).
    { rewrite length_delete by eauto.
      eapply Forall_impl; [exact Hbelow|]. cbn. intros; lia. }
    cbn [Main.deleteEach]. rewrite lookup_app_l by exact Hf. rewrite Ht.
    rewrite delete_app_lt by exact Hf.
    destruct (pathTargetRelative targetFile) as [relative|]; [|now apply IH].
    destruct (Fs.unlink _ fs) as [fs1|[]]; now apply IH.
Qed.

(** When no listed entry lacks its target path or names a directory, the
    loop removes exactly the listed entries and their files. *)
Lemma deleteEach_exact (targetJson : list SourceFileInfo) :
  forall fs : Fs.FileSystem,
  (forall t, t ∈ targetJson -> listedForDeletion sourceJson t = true ->
     exists relative, pathTargetRelative t = Some relative
                      /\ pathJoin basePath relative ∉ Fs.directories fs) ->
  exists fs',
    Main.deleteEach pathJoin (reverse (Main.getFilesToDeleteFrom 0 sourceJson targetJson))
      targetJson basePath fs
    = Ok (filter (fun t => listedForDeletion sourceJson t = false) targetJson, fs')
    /\ (forall d, d ∈ Fs.directories fs' -> d ∈ Fs.directories fs)
    /\ (forall p, p ∈ Fs.files fs' <->
          p ∈ Fs.files fs
          /\ forall t relative, t ∈ targetJson -> listedForDeletion sourceJson t = true ->
               pathTargetRelative t = Some relative -> p <> pathJoin basePath relative).
Proof.
  induction targetJson as [|t l IH] using rev_ind; intros fs Hgood.
  - exists fs. cbn. split; [reflexivity|]. split; [auto|].
    intros p. split; [intros Hp; split; [exact Hp|] | now intros [Hp _]].
    intros t r Ht. inversion Ht.
  - assert (Hgood' : forall fs1,
              (forall d, d ∈ Fs.directories fs1 -> d ∈ Fs.directories fs) ->
              forall t0, t0 ∈ l -> listedForDeletion sourceJson t0 = true ->
              exists relative, pathTargetRelative t0 = Some relative
                               /\ pathJoin basePath relative ∉ Fs.directories fs1).
    { intros fs1 Hsub t0 Ht0 Hl0.
      destruct (Hgood t0) as (r & Hr & Hnd); [apply elem_of_app; now left | exact Hl0 |].
      exists r. split; [exact Hr|]. intros Hin. apply Hnd, Hsub, Hin. }
    rewrite getFilesToDeleteFrom_snoc, filter_app. cbn [Nat.add].
    destruct (Main.fileToDelete sourceJson (length l) t) as [f|] eqn:Hf.
    + assert (Hlisted : listedForDeletion sourceJson t = true)
        by (apply (fileToDelete_listed (length l)); eauto).
      apply fileToDelete_index in Hf.
      destruct (Hgood t) as (r & Hr & Hnd); [apply elem_of_app; right; now left | exact Hlisted |].
      rewrite reverse_app. cbn [reverse rev_append app]. cbn [Main.deleteEach].
      rewrite Hf, list_lookup_middle by reflexivity. rewrite Hr.
      assert (Hdel : delete (length l) (l ++ [t]) = l).
      { rewrite delete_app_ge by lia. rewrite Nat.sub_diag. cbn. apply app_nil_r. }
      rewrite Hdel.
      assert (Hfilter : filter (fun t => listedForDeletion sourceJson t = false) [t] = []).
      { rewrite filter_cons. destruct (decide _); [congruence | reflexivity]. }
      rewrite Hfilter, app_nil_r.
      destruct (Fs.unlink (pathJoin basePath r) fs) as [fs1|e] eqn:Hun.
      * apply unlink_inl in Hun as [Hd1 Hf1].
        destruct (deleteParentDirectories_spec (pathJoin basePath r) fs1) as [Hf2 Hd2].
        destruct (IH (fst (Fs.deleteParentDirectories (pathJoin basePath r) fs1)))
          as (fs' & -> & Hdirs & Hfiles).
        { apply Hgood'. intros d Hd. apply Hd2 in Hd. congruence. }
        exists fs'. split; [reflexivity|]. split.
        -- intros d Hd. apply Hdirs, Hd2 in Hd. congruence.
        -- intros p. rewrite Hfiles, Hf2, Hf1, elem_of_removePath. split.
           ++ intros [[Hne Hp] Hrest]. split; [exact Hp|].
              intros t0 r0 [Ht0|Ht0%list_elem_of_singleton]%elem_of_app Hl0 Hr0.
              ** eapply Hrest; eauto.
              ** subst t0. congruence.
           ++ intros [Hp Hrest]. split; [split; [|exact Hp]|].
              ** apply (Hrest t r); [apply elem_of_app; right; now left | exact Hlisted | exact Hr].
              ** intros t0 r0 Ht0. apply Hrest. apply elem_of_app. now left.
      * apply unlink_inr in Hun as [Hnf [->|[-> Hd]]]; [|contradiction].
        destruct (IH fs) as (fs' & -> & Hdirs & Hfiles); [now apply Hgood'|].
        exists fs'. split; [reflexivity|]. split; [exact Hdirs|].
        intros p. rewrite Hfiles. split.
        -- intros [Hp Hrest]. split; [exact Hp|].
           intros t0 r0 [Ht0|Ht0%list_elem_of_singleton]%elem_of_app Hl0 Hr0.
           ++ eapply Hrest; eauto.
           ++ subst t0. intros ->. rewrite Hr in Hr0. injection Hr0 as <-. contradiction.
        -- intros [Hp Hrest]. split; [exact Hp|].
           intros t0 r0 Ht0. apply Hrest. apply elem_of_app. now left.
    + assert (Hunlisted : listedForDeletion sourceJson t = false).
      { destruct (listedForDeletion sourceJson t) eqn:E; [|reflexivity].
        apply (fileToDelete_listed (length l)) in E. rewrite Hf in E. now destruct E. }
      rewrite app_nil_r.
      rewrite deleteEach_app;
        [|apply getFilesToDeleteFrom_descending
         |apply Forall_reverse; apply (getFilesToDeleteFrom_bound l 0)].
      destruct (IH fs) as (fs' & -> & Hdirs & Hfiles); [now apply Hgood'|].
      assert (Hfilter : filter (fun t => listedForDeletion sourceJson t = false) [t] = [t]).
      { rewrite filter_cons. destruct (decide _); [reflexivity | congruence]. }
      rewrite Hfilter.
      exists fs'. split; [reflexivity|]. split; [exact Hdirs|].
      intros p. rewrite Hfiles. split.
      * intros [Hp Hrest]. split; [exact Hp|].
        intros t0 r0 [Ht0|Ht0%list_elem_of_singleton]%elem_of_app Hl0 Hr0.
        -- eapply Hrest; eauto.
        -- subst t0. congruence.
      * intros [Hp Hrest]. split; [exact Hp|].
        intros t0 r0 Ht0. apply Hrest. apply elem_of_app. now left.
Qed.

End MainDeleteExact.

(** X5.  [deleteFiles] never fails on the list [getFilesToDelete] makes for
    the same [targetJson]: the list is gone through from the last index to
    the first one, so that every index still names an entry when it is
    read.  What is left of [targetJson] is a part of it, in the same order,
    which holds every entry that was not listed; no file and no directory
    is added to the file system. *)
Theorem deleteFiles_reads_valid_indices (pathJoin : string -> string -> Fs.Path)
    (sourceJson targetJson : list SourceFileInfo) (basePath : string)
    (fs : Fs.FileSystem) :
  exists targetJson' fs',
    Main.deleteFiles pathJoin (Main.getFilesToDelete sourceJson targetJson)
      targetJson basePath fs = Ok (targetJson', fs')
    /\ targetJson' `sublist_of` targetJson
    /\ (forall t, t ∈ targetJson -> listedForDeletion sourceJson t = false ->
          t ∈ targetJson')
    /\ (forall p, p ∈ Fs.files fs' -> p ∈ Fs.files fs)
    /\ (forall d, d ∈ Fs.directories fs' -> d ∈ Fs.directories fs).
Proof.
  unfold Main.deleteFiles, Main.getFilesToDelete.
  destruct (getFilesToDeleteFrom_ascending sourceJson targetJson 0) as [_ ->].
  destruct (deleteEach_total pathJoin basePath
              (reverse (Main.getFilesToDeleteFrom 0 sourceJson targetJson)) targetJson fs)
    as (tj' & fs' & Hrun & Hsub & Hfiles & Hdirs).
  { apply getFilesToDeleteFrom_descending. }
  { apply Forall_reverse. apply (getFilesToDeleteFrom_bound sourceJson targetJson 0). }
  exists tj', fs'. split; [exact Hrun|]. split; [exact Hsub|]. split; [|auto].
  intros t Ht Hunlisted. apply list_elem_of_lookup in Ht as [i Hi].
  eapply (deleteEach_survives pathJoin basePath _ _ _ _ _ i);
    [apply getFilesToDeleteFrom_descending | exact Hrun | exact Hi |].
  rewrite fmap_reverse, elem_of_reverse, getFilesToDeleteFrom_index.
  intros (j & x & Hj & Hx & Hsome). cbn in Hj. subst j.
  rewrite Hx in Hi. injection Hi as ->.
  apply fileToDelete_listed in Hsome. congruence.
Qed.

(** X6.  When every listed entry has a target path, and none of these paths
    is a directory, [deleteFiles] removes exactly the listed entries from
    [targetJson], and exactly their target files from the file system: a
    file that is missing counts as removed.  Nothing is then left to delete:
    [getFilesToDelete] on the result is empty. *)
Theorem deleteFiles_removes_listed_entries (pathJoin : string -> string -> Fs.Path)
    (sourceJson targetJson : list SourceFileInfo) (basePath : string)
    (fs : Fs.FileSystem) :
  (forall t, t ∈ targetJson -> listedForDeletion sourceJson t = true ->
     exists relative, pathTargetRelative t = Some relative
                      /\ pathJoin basePath relative ∉ Fs.directories fs) ->
  exists targetJson' fs',
    Main.deleteFiles pathJoin (Main.getFilesToDelete sourceJson targetJson)
      targetJson basePath fs = Ok (targetJson', fs')
    /\ targetJson' = filter (fun t => listedForDeletion sourceJson t = false) targetJson
    /\ (forall p, p ∈ Fs.files fs' <->
          p ∈ Fs.files fs
          /\ forall t relative, t ∈ targetJson -> listedForDeletion sourceJson t = true ->
               pathTargetRelative t = Some relative -> p <> pathJoin basePath relative)
    /\ Main.getFilesToDelete sourceJson targetJson' = [].
Proof.
  intros Hgood. unfold Main.deleteFiles, Main.getFilesToDelete.
  destruct (getFilesToDeleteFrom_ascending sourceJson targetJson 0) as [_ ->].
  destruct (deleteEach_exact pathJoin sourceJson basePath targetJson fs Hgood)
    as (fs' & Hrun & _ & Hfiles).
  eexists _, fs'. split; [exact Hrun|]. split; [reflexivity|]. split; [exact Hfiles|].
  apply getFilesToDeleteFrom_unlisted. apply Forall_forall.
  now intros t [Ht _]%list_elem_of_filter.
Qed.

Lemma deleteFiles_removes_listed_entries_witness :
  exists targetJson' fs',
    Main.deleteFiles (fun _ relative => [relative])
      (Main.getFilesToDelete [] [infoA]) [infoA] "/vault"
      {| Fs.directories := [[]]; Fs.files := [["../site/docs/a.md"]] |}
    = Ok (targetJson', fs')
    /\ targetJson' = filter (fun t => listedForDeletion [] t = false) [infoA]
    /\ (forall p, p ∈ Fs.files fs' <->
          p ∈ [["../site/docs/a.md"]]
          /\ forall t relative, t ∈ [infoA] -> listedForDeletion [] t = true ->
               pathTargetRelative t = Some relative -> p <> [relative])
    /\ Main.getFilesToDelete [] targetJson' = [].
Proof.
  refine (deleteFiles_removes_listed_entries (fun _ relative => [relative]) [] [infoA]
            "/vault" {| Fs.directories := [[]]; Fs.files := [["../site/docs/a.md"]] |} _).
  intros t Ht%list_elem_of_singleton _. subst t. exists "../site/docs/a.md".
  split; [reflexivity|]. cbn. rewrite list_elem_of_singleton. discriminate.
Defined.

(** ** The main process: the files to convert *)

Lemma compareSourceFrom_bound (targetJson sourceJson : list SourceFileInfo) :
  forall n, Forall (fun k => (n <= k)%nat)
              (Main.index <$> Main.compareSourceFrom n sourceJson targetJson).
Proof.
  induction sourceJson as [|s rest IH]; intros n; [constructor|].
  cbn [Main.compareSourceFrom].
  assert (H : Forall (fun k => (n <= k)%nat)
                (Main.index <$> Main.compareSourceFrom (S n) rest targetJson)).
  { eapply Forall_impl; [apply IH|]. cbn. intros; lia. }
  destruct (Main.findByPath _ targetJson); [exact H|].
  rewrite fmap_cons. constructor; [cbn; lia | exact H].
Qed.

(** the files picked by the indices of [compareSource] are the source files
    without entry *)
Lemma filterByIndexFrom_compareSource (targetJson sourceJson : list SourceFileInfo) :
  forall (n : nat) (earlier : list nat),
  Forall (fun k => (k < n)%nat) earlier ->
  Sync.filterByIndexFrom n
    (earlier ++ (Main.index <$> Main.compareSourceFrom n sourceJson targetJson)) sourceJson
  = filter (fun s => withoutEntry targetJson s = true) sourceJson.
Proof.
  induction sourceJson as [|s rest IH]; intros n earlier Hearlier; [reflexivity|].
  assert (Hnot : n ∉ earlier).
  { intros Hin. eapply Forall_forall in Hearlier; [|exact Hin]. cbn in Hearlier. lia. }
  assert (Hnot' : n ∉ Main.index <$> Main.compareSourceFrom (S n) rest targetJson).
  { intros Hin. pose proof (compareSourceFrom_bound targetJson rest (S n)) as Hb.
    eapply Forall_forall in Hb; [|exact Hin]. cbn in Hb. lia. }
  cbn [Main.compareSourceFrom Sync.filterByIndexFrom]. rewrite filter_cons.
  destruct (withoutEntry targetJson s) eqn:Hw; unfold withoutEntry in Hw;
    destruct (Main.findByPath (pathSourceRelative s) targetJson) eqn:Hfind;
    try discriminate.
  2: { destruct (decide (false = true)); [discriminate|].
    rewrite bool_decide_eq_false_2
      by (intros [?|?]%elem_of_app; contradiction).
    apply IH. eapply Forall_impl; [exact Hearlier|]. cbn. intros; lia. }
  destruct (decide (true = true)); [|congruence].
    rewrite fmap_cons. cbn [Main.index].
    rewrite bool_decide_eq_true_2 by (apply elem_of_app; right; now left).
    f_equal.
    replace (earlier ++ n :: (Main.index <$> Main.compareSourceFrom (S n) rest targetJson))
      with ((earlier ++ [n]) ++ (Main.index <$> Main.compareSourceFrom (S n) rest targetJson))
      by now rewrite <- app_assoc.
    apply IH. apply Forall_app. split; [|repeat constructor].
    eapply Forall_impl; [exact Hearlier|]. cbn. intros; lia.
Qed.

Lemma compareSourceFrom_nil (targetJson sourceJson : list SourceFileInfo) :
  forall n,
  Main.compareSourceFrom n sourceJson targetJson = []
  <-> Forall (fun s => withoutEntry targetJson s = false) sourceJson.
Proof.
  induction sourceJson as [|s rest IH]; intros n; [now split|].
  cbn [Main.compareSourceFrom]. rewrite Forall_cons.
  destruct (withoutEntry targetJson s) eqn:Hw; unfold withoutEntry in Hw;
    destruct (Main.findByPath (pathSourceRelative s) targetJson) eqn:Hfind;
    try discriminate.
  - split; [discriminate | intros [? _]; discriminate].
  - rewrite IH. tauto.
Qed.

Section MainConvert.

Context {Local : Type}.
Variable start : SourceFileInfo -> Local.
Variable step : Local -> list Asset -> Main.Step Local * list Asset.

Lemma processNewFiles_targetJson (schedule : list nat)
    (sourceJson targetJson targetJson' : list SourceFileInfo)
    (assetJson assetJson' : list Asset) :
  Sync.processNewFiles start step schedule sourceJson targetJson assetJson
  = Some (Ok (targetJson', assetJson')) ->
  exists results,
    targetJson' = targetJson ++ results
    /\ results ≡ₚ filter (fun s => withoutEntry targetJson s = true) sourceJson.
Proof.
  unfold Sync.processNewFiles, Main.compareSource.
  destruct (Main.compareSourceFrom 0 sourceJson targetJson) as [|f l] eqn:Hcmp.
  - cbn. intros [= <- <-].
    apply (compareSourceFrom_nil targetJson sourceJson 0) in Hcmp.
    assert (Hnone : filter (fun s => withoutEntry targetJson s = true) sourceJson = []).
    { induction Hcmp as [|s rest Hs _ IH]; [reflexivity|].
      rewrite filter_cons. destruct (decide _); [congruence | exact IH]. }
    exists []. now rewrite Hnone, app_nil_r.
  - cbn [length Nat.eqb]. rewrite <- Hcmp.
    pose proof (filterByIndexFrom_compareSource targetJson sourceJson 0 [] (Forall_nil_2 _))
      as Epick.
    cbn [app] in Epick. rewrite Epick.
    apply copyMarkdownFilesToTarget_results.
Qed.

End MainConvert.

Lemma findByPath_elem (key : option string) (l : list SourceFileInfo) (x : SourceFileInfo) :
  x ∈ l -> pathSourceRelative x = key -> is_Some (Main.findByPath key l).
Proof.
  intros Hin Hkey. unfold Main.findByPath.
  destruct (list_find_elem_of (fun file => pathSourceRelative file = key) l x Hin Hkey)
    as [[i y] ->]. cbn. eauto.
Qed.

(** once the source files without entry are added, in any order, none is
    without entry *)
Lemma sources_have_entries (sourceJson targetJson results : list SourceFileInfo)
    (s : SourceFileInfo) :
  results ≡ₚ filter (fun s => withoutEntry targetJson s = true) sourceJson ->
  s ∈ sourceJson ->
  withoutEntry (targetJson ++ results) s = false.
Proof.
  intros Hresults Hs. unfold withoutEntry at 1.
  destruct (Main.findByPath (pathSourceRelative s) (targetJson ++ _)) eqn:Hfind; [reflexivity|].
  exfalso.
  destruct (withoutEntry targetJson s) eqn:Hw.
  - destruct (findByPath_elem (pathSourceRelative s) (targetJson ++ results) s)
      as [y Hy]; [|reflexivity|congruence].
    apply elem_of_app. right. rewrite Hresults. now apply list_elem_of_filter.
  - unfold withoutEntry in Hw.
    destruct (Main.findByPath (pathSourceRelative s) targetJson) eqn:Hold; [|discriminate].
    unfold Main.findByPath in Hold, Hfind.
    destruct (list_find _ targetJson) as [[i y]|] eqn:Hl; [|discriminate].
    erewrite list_find_app_l in Hfind by exact Hl. discriminate.
Qed.

(** X7.  When the end of [obsidiosaurusProcess] goes through, [targetJson]
    has gained, after its entries, the source files that had no entry, each
    once and nothing else, in the order in which their conversions have
    ended, whatever that order is; every source file then has an entry, so
    that [compareSource] finds nothing more to process. *)
Theorem processed_sources_have_entries (Local : Type) (start : SourceFileInfo -> Local)
    (step : Local -> list Asset -> Main.Step Local * list Asset) (schedule : list nat)
    (sourceJson targetJson targetJson' : list SourceFileInfo)
    (assetJson assetJson' : list Asset) :
  Sync.processNewFiles start step schedule sourceJson targetJson assetJson
  = Some (Ok (targetJson', assetJson')) ->
  (exists results,
     targetJson' = targetJson ++ results
     /\ results ≡ₚ filter (fun s => withoutEntry targetJson s = true) sourceJson)
  /\ Main.compareSource sourceJson targetJson' = [].
Proof.
  intros Hrun. apply processNewFiles_targetJson in Hrun as (results & -> & Hresults).
  split; [now exists results|].
  apply (proj2 (compareSourceFrom_nil (targetJson ++ results) sourceJson 0)).
  apply Forall_forall. intros s Hs.
  now apply (sources_have_entries sourceJson).
Qed.

Lemma processed_sources_have_entries_witness :
  (exists results,
     [infoB; infoA] = [] ++ results
     /\ results ≡ₚ filter (fun s => withoutEntry [] s = true) [infoA; infoB])
  /\ Main.compareSource [infoA; infoB] [infoB; infoA] = [].
Proof.
  exact (processed_sources_have_entries _ allGoesWell scriptedStep
           [1; 0; 1; 1; 1; 0; 0; 0]%nat [infoA; infoB] [] [infoB; infoA] [] [] eq_refl).
Defined.



(** ** The registry after a deletion *)

Lemma withoutLast_snoc (key x : string) (l : list string) :
  withoutLast key (l ++ [x])
  = if String.eqb x key then Some l
    else match withoutLast key l with
         | Some l' => Some (l' ++ [x])
         | None => None
         end.
Proof.
  induction l as [|y l IH]; cbn [app withoutLast].
  - now destruct (String.eqb x key).
  - rewrite IH. destruct (String.eqb x key); [reflexivity|].
    destruct (withoutLast key l); [reflexivity|].
    now destruct (String.eqb y key).
Qed.

Lemma insert_middle {A : Type} (l r : list A) (x y : A) :
  <[length l := y]> (l ++ x :: r) = l ++ y :: r.
Proof. induction l as [|z l IH]; cbn; [reflexivity | now f_equal]. Qed.

Lemma delete_middle {A : Type} (l r : list A) (x : A) :
  delete (length l) (l ++ x :: r) = l ++ r.
Proof. induction l as [|z l IH]; cbn; [reflexivity | now f_equal]. Qed.

(** the loop from the back finds the last occurrence *)
Lemma findFromBack_withoutLast (key : string) (l : list string) :
  forall rest,
  match Sync.findFromBack key (l ++ rest) (length l) with
  | Some k => (k < length l)%nat /\ withoutLast key l = Some (delete k l)
  | None => withoutLast key l = None
  end.
Proof.
  induction l as [|x l IH] using rev_ind; intros rest; [reflexivity|].
  rewrite length_app, Nat.add_comm. cbn [length Nat.add Sync.findFromBack].
  rewrite <- app_assoc. cbn [app]. rewrite list_lookup_middle by reflexivity.
  rewrite withoutLast_snoc.
  destruct (String.eqb x key).
  - split; [lia|].
    rewrite delete_app_ge by lia. rewrite Nat.sub_diag. cbn. now rewrite app_nil_r.
  - specialize (IH (x :: rest)).
    destruct (Sync.findFromBack key (l ++ x :: rest) (length l)) as [k|].
    + destruct IH as [Hk ->]. split; [lia|].
      now rewrite delete_app_lt.
    + now rewrite IH.
Qed.

Lemma inclusionsFrom_spec (key : string) (inclusions : list Sync.AssetType) :
  forall (done : list Sync.AssetType) (splices : nat),
  let final := (inclusions ≫= inclusionWithout key) ++ done in
  Sync.inclusionsFrom key (length inclusions) (inclusions ++ done) splices
  = Ok (final, if negb (isNil inclusions) && isNil final then S splices else splices).
Proof.
  induction inclusions as [|x l IH] using rev_ind; intros done splices final.
  - reflexivity.
  - subst final. rewrite length_app, Nat.add_comm. cbn [length Nat.add Sync.inclusionsFrom].
    rewrite <- app_assoc. cbn [app]. rewrite list_lookup_middle by reflexivity.
    rewrite bind_app. cbn [mbind list_bind app]. rewrite app_nil_r, <- app_assoc.
    assert (Hnil : negb (isNil (l ++ [x])) = true) by now destruct l.
    rewrite Hnil. cbn [andb].
    pose proof (findFromBack_withoutLast key (Sync.files x) []) as Hfind.
    rewrite app_nil_r in Hfind. unfold inclusionWithout at 2 4.
    destruct (Sync.findFromBack key (Sync.files x) (length (Sync.files x))) as [k|].
    + destruct Hfind as [Hk ->].
      destruct (delete k (Sync.files x)) as [|y files'] eqn:Hdel.
      * cbn [length Nat.eqb app].
        rewrite delete_middle.
        rewrite IH. cbn zeta.
        destruct l as [|z l]; cbn [app length Nat.eqb isNil negb andb mbind list_bind].
        -- now destruct done.
        -- reflexivity.
      * cbn [length Nat.eqb].
        rewrite insert_middle.
        rewrite length_app. cbn [length].
        replace (length l + S (length done))%nat with (S (length l + length done)) by lia.
        cbn [Nat.eqb]. rewrite IH. cbn zeta.
        f_equal. f_equal.
        destruct (l ≫= inclusionWithout key); cbn; now rewrite andb_false_r.
    + rewrite Hfind. rewrite IH. cbn zeta. f_equal. f_equal.
      destruct (l ≫= inclusionWithout key); cbn; now rewrite andb_false_r.
Qed.

Lemma assetsFrom_spec (key : string) (assetJson : list Sync.AssetFileInfo) :
  forall done : list Sync.AssetFileInfo,
  Sync.assetsFrom key (length assetJson) (assetJson ++ done)
  = Ok ((assetJson ≫= assetWithout key) ++ done).
Proof.
  induction assetJson as [|x l IH] using rev_ind; intros done; [reflexivity|].
  rewrite length_app, Nat.add_comm. cbn [length Nat.add Sync.assetsFrom].
  rewrite <- app_assoc. cbn [app]. rewrite list_lookup_middle by reflexivity.
  pose proof (inclusionsFrom_spec key (Sync.AssetTypeInDocument x) [] 0) as Hinc.
  cbn zeta in Hinc. rewrite !app_nil_r in Hinc. rewrite Hinc. cbn [mbind Result_bind].
  rewrite insert_middle.
  rewrite bind_app. cbn [mbind list_bind]. rewrite app_nil_r, <- app_assoc.
  unfold assetWithout at 2.
  destruct (Sync.AssetTypeInDocument x) as [|inc incs];
    [|destruct ((inc :: incs) ≫= inclusionWithout key) as [|inc' incs'] eqn:Hleft];
    cbn [isNil negb andb Nat.iter nat_rect app];
    try apply IH.
  rewrite delete_middle.
  apply IH.
Qed.

Lemma processAssetDeletion_spec (filesToDelete : list Main.FilesToProcess) :
  forall assetJson,
  Sync.processAssetDeletion filesToDelete assetJson
  = Ok (registryWithout filesToDelete assetJson).
Proof.
  unfold registryWithout.
  induction filesToDelete as [|f rest IH]; intros assetJson; [reflexivity|].
  cbn [Sync.processAssetDeletion foldl]. unfold documentForgotten at 2.
  destruct (Main.pathKey f) as [key|]; [|apply IH].
  destruct (Js.truthy key); [|apply IH].
  pose proof (assetsFrom_spec key assetJson []) as H. rewrite !app_nil_r in H.
  rewrite H. cbn [mbind Result_bind]. apply IH.
Qed.

Lemma withoutLast_None (key : string) (l : list string) :
  withoutLast key l = None -> key ∉ l.
Proof.
  induction l as [|x l IH]; intros H; [apply not_elem_of_nil|].
  cbn [withoutLast] in H. destruct (withoutLast key l); [discriminate|].
  destruct (String.eqb x key) eqn:E; [discriminate|].
  apply String.eqb_neq in E. apply not_elem_of_cons. split; [congruence | now apply IH].
Qed.

Lemma withoutLast_Some (key : string) (l : list string) :
  forall l', withoutLast key l = Some l' ->
  l' `sublist_of` l
  /\ (forall y, y <> key -> y ∈ l -> y ∈ l')
  /\ (NoDup l -> key ∉ l').
Proof.
  induction l as [|x l IH]; intros l' H; [discriminate|].
  cbn [withoutLast] in H. destruct (withoutLast key l) as [r|] eqn:Hrec.
  - injection H as <-. destruct (IH r eq_refl) as (Hsub & Hkeep & Hgone).
    split; [now constructor|]. split.
    + intros y Hy [->|Hin]%elem_of_cons; [now left | right; auto].
    + intros [Hx Hnd]%NoDup_cons. apply not_elem_of_cons. split; [|auto].
      intros ->. apply Hx.
      destruct (decide (x ∈ l)) as [Hin|Hnot]; [exact Hin|].
      exfalso. clear -Hrec Hnot. revert r Hrec.
      induction l as [|y l IH]; intros r Hrec; [discriminate|].
      apply not_elem_of_cons in Hnot as [Hne Hnot]. cbn [withoutLast] in Hrec.
      destruct (withoutLast x l) as [r'|]; [now apply (IH Hnot r')|].
      apply String.eqb_neq in Hne. rewrite String.eqb_sym in Hne. now rewrite Hne in Hrec.
  - destruct (String.eqb x key) eqn:E; [|discriminate]. injection H as <-.
    apply String.eqb_eq in E. subst x.
    split; [now constructor|]. split.
    + intros y Hy [->|Hin]%elem_of_cons; [contradiction | exact Hin].
    + intros _. now apply withoutLast_None.
Qed.

Lemma elem_of_inclusionWithout (key : string) (inclusion inclusion' : Sync.AssetType) :
  inclusion' ∈ inclusionWithout key inclusion ->
  (withoutLast key (Sync.files inclusion) = None /\ inclusion' = inclusion)
  \/ (withoutLast key (Sync.files inclusion) = Some (Sync.files inclusion')
      /\ Sync.files inclusion' <> []).
Proof.
  unfold inclusionWithout.
  destruct (withoutLast key (Sync.files inclusion)) as [[|y l]|].
  - intros H. inversion H.
  - intros ->%list_elem_of_singleton. right. now split.
  - intros ->%list_elem_of_singleton. now left.
Qed.

Lemma inclusionWithout_keeps (key y : string) (inclusion : Sync.AssetType) :
  y <> key -> y ∈ Sync.files inclusion ->
  exists inclusion', inclusion' ∈ inclusionWithout key inclusion
                     /\ y ∈ Sync.files inclusion'.
Proof.
  intros Hne Hin. unfold inclusionWithout.
  destruct (withoutLast key (Sync.files inclusion)) as [l|] eqn:Hw.
  - destruct (withoutLast_Some _ _ _ Hw) as (_ & Hkeep & _).
    specialize (Hkeep y Hne Hin).
    destruct l as [|z l]; [inversion Hkeep|].
    eexists. split; [now left | exact Hkeep].
  - exists inclusion. split; [now left | exact Hin].
Qed.

Lemma elem_of_assetWithout (key : string) (asset asset' : Sync.AssetFileInfo) :
  asset' ∈ assetWithout key asset ->
  Sync.AssetTypeInDocument asset'
  = Sync.AssetTypeInDocument asset ≫= inclusionWithout key
  /\ (Sync.AssetTypeInDocument asset <> [] -> Sync.AssetTypeInDocument asset' <> []).
Proof.
  unfold assetWithout.
  destruct (Sync.AssetTypeInDocument asset) as [|inc incs] eqn:Hincs.
  - intros ->%list_elem_of_singleton. split; [reflexivity | contradiction].
  - destruct ((inc :: incs) ≫= inclusionWithout key) as [|inc' incs'] eqn:Hleft.
    + intros H. inversion H.
    + intros ->%list_elem_of_singleton. cbn. now split.
Qed.

(** the registry after the deletion of one document *)
Lemma assetWithout_neat (key : string) (assetJson : list Sync.AssetFileInfo) :
  neat assetJson ->
  neat (assetJson ≫= assetWithout key)
  /\ forall key', mentions key' (assetJson ≫= assetWithout key)
                  <-> mentions key' assetJson /\ key' <> key.
Proof.
  intros Hneat. split.
  - intros asset' (asset & Ha' & Ha)%list_elem_of_bind.
    destruct (Hneat asset Ha) as [Hne Hincs].
    apply elem_of_assetWithout in Ha' as [Heq Hkeep].
    split; [auto|]. intros inc'. rewrite Heq.
    intros (inc & Hi' & Hi)%list_elem_of_bind.
    destruct (Hincs inc Hi) as [Hfiles Hnodup].
    apply elem_of_inclusionWithout in Hi' as [[_ ->]|[Hw Hfiles']]; [now split|].
    split; [exact Hfiles'|].
    destruct (withoutLast_Some _ _ _ Hw) as (Hsub & _).
    eapply sublist_NoDup; eassumption.
  - intros key'. split.
    + intros (asset' & inc' & (asset & Ha' & Ha)%list_elem_of_bind & Hi' & Hk).
      destruct (Hneat asset Ha) as [Hne Hincs].
      apply elem_of_assetWithout in Ha' as [Heq _]. rewrite Heq in Hi'.
      apply list_elem_of_bind in Hi' as (inc & Hi' & Hi).
      destruct (Hincs inc Hi) as [_ Hnodup].
      apply elem_of_inclusionWithout in Hi' as [[Hnone ->]|[Hw _]].
      * split; [now exists asset, inc|].
        intros ->. now apply withoutLast_None in Hnone.
      * destruct (withoutLast_Some _ _ _ Hw) as (Hsub & _ & Hgone).
        split.
        -- exists asset, inc. split; [exact Ha|]. split; [exact Hi|].
           eapply sublist_subseteq; eassumption.
        -- intros ->. now apply Hgone.
    + intros [(asset & inc & Ha & Hi & Hk) Hne].
      destruct (inclusionWithout_keeps key key' inc Hne Hk) as (inc' & Hi' & Hk').
      assert (Hin : inc' ∈ Sync.AssetTypeInDocument asset ≫= inclusionWithout key)
        by (apply list_elem_of_bind; eauto).
      exists {| Sync.AssetTypeInDocument :=
                  Sync.AssetTypeInDocument asset ≫= inclusionWithout key |}, inc'.
      split; [|split; [exact Hin | exact Hk']].
      apply list_elem_of_bind. exists asset. split; [|exact Ha].
      unfold assetWithout.
      destruct (Sync.AssetTypeInDocument asset) as [|i0 is0]; [now left|].
      destruct ((i0 :: is0) ≫= inclusionWithout key) as [|i1 is1]; [inversion Hin | now left].
Qed.

Lemma deletedKey_cons (f : Main.FilesToProcess) (rest : list Main.FilesToProcess)
    (key : string) :
  deletedKey (f :: rest) key
  <-> (Main.pathKey f = Some key /\ Js.truthy key = true) \/ deletedKey rest key.
Proof.
  unfold deletedKey. split.
  - intros (g & [->|Hg]%elem_of_cons & Hk & Ht); [now left | right; eauto].
  - intros [[Hk Ht]|(g & Hg & Hk & Ht)].
    + exists f. split; [now left | auto].
    + exists g. split; [now right | auto].
Qed.

(** X9.  [processAssetDeletion] never fails: its loops, which go down
    through the assets, the inclusions of an asset and the users of an
    inclusion while removing elements, never read past an end, and remove
    an asset at most once.  For every file to delete with a path key, in
    turn, each inclusion loses the last occurrence of the key among its
    users; an inclusion left without user is removed, and an asset that had
    inclusions and is left without any is removed. *)
Theorem processAssetDeletion_forgets_documents
    (filesToDelete : list Main.FilesToProcess) (assetJson : list Sync.AssetFileInfo) :
  Sync.processAssetDeletion filesToDelete assetJson
  = Ok (registryWithout filesToDelete assetJson).
Proof. apply processAssetDeletion_spec. Qed.

(** X10.  In a registry where every asset has an inclusion and every
    inclusion has users, each listed once, [processAssetDeletion] keeps
    these properties, and the documents the result mentions are exactly the
    documents mentioned before that are not deleted: no deleted document is
    left among the users of an asset, and no other user is lost. *)
Theorem processAssetDeletion_keeps_registry_neat
    (filesToDelete : list Main.FilesToProcess) (assetJson : list Sync.AssetFileInfo) :
  neat assetJson ->
  exists assetJson',
    Sync.processAssetDeletion filesToDelete assetJson = Ok assetJson'
    /\ neat assetJson'
    /\ forall key, mentions key assetJson'
                   <-> mentions key assetJson /\ ~ deletedKey filesToDelete key.
Proof.
  rewrite processAssetDeletion_spec. intros Hneat. eexists. split; [reflexivity|].
  unfold registryWithout. revert assetJson Hneat.
  induction filesToDelete as [|f rest IH]; intros assetJson Hneat.
  - cbn. split; [exact Hneat|]. intros key. split; [|tauto].
    intros H. split; [exact H|]. intros (g & Hg & _). inversion Hg.
  - cbn [foldl].
    assert (Hstep : neat (documentForgotten assetJson f)
              /\ forall key, mentions key (documentForgotten assetJson f)
                   <-> mentions key assetJson
                       /\ ~ (Main.pathKey f = Some key /\ Js.truthy key = true)).
    { unfold documentForgotten.
      destruct (Main.pathKey f) as [k|] eqn:Hk.
      - destruct (Js.truthy k) eqn:Ht.
        + destruct (assetWithout_neat k assetJson Hneat) as [Hneat1 Hm1].
          split; [exact Hneat1|]. intros key. rewrite Hm1. split.
          * intros [H1 H2]. split; [exact H1|]. intros [[= ->] _]. contradiction.
          * intros [H1 H2]. split; [exact H1|]. intros ->. apply H2. auto.
        + split; [exact Hneat|]. intros key. split; [|tauto].
          intros H. split; [exact H|]. intros [[= ->] Hkey]. congruence.
      - split; [exact Hneat|]. intros key. split; [|tauto].
        intros H. split; [exact H|]. intros [? _]. discriminate. }
    destruct Hstep as [Hneat1 Hm1]. destruct (IH _ Hneat1) as [Hn Hm].
    split; [exact Hn|]. intros key. rewrite Hm, Hm1, deletedKey_cons. tauto.
Qed.

Lemma processAssetDeletion_keeps_registry_neat_witness :
  exists assetJson',
    Sync.processAssetDeletion [deleteA] registryAB = Ok assetJson'
    /\ neat assetJson'
    /\ forall key, mentions key assetJson'
                   <-> mentions key registryAB /\ ~ deletedKey [deleteA] key.
Proof.
  refine (processAssetDeletion_keeps_registry_neat [deleteA] registryAB _).
  intros asset ->%list_elem_of_singleton. split; [discriminate|].
  intros inclusion ->%list_elem_of_singleton. split; [discriminate|].
  cbn. apply NoDup_cons. split; [|apply NoDup_singleton].
  rewrite list_elem_of_singleton. discriminate.
Defined.

(** ** Lines without links, assets or callouts *)

Lemma includes_app (p x y : string) : Js.includes p (x +:+ p +:+ y) = true.
Proof.
  unfold Js.includes. destruct (cut_first p x y) as (b & a & -> & _). reflexivity.
Qed.

(** a pattern whose matches hold the text [p] matches nowhere in a line
    without [p] *)
Lemma search_None {G : Type} (at_ : string -> option (G * string)) (p line : string) :
  (forall s g r, at_ s = Some (g, r) -> exists u v, s = u +:+ p +:+ v) ->
  Js.includes p line = false -> search at_ line = None.
Proof.
  intros Hat Hno. destruct (search at_ line) as [m|] eqn:Hm; [|reflexivity].
  destruct (search_at _ _ _ Hm) as ((y & Hy & Hy') & _).
  destruct (Hat _ _ _ Hy') as (u & v & ->).
  rewrite <- sapp_assoc in Hy. rewrite Hy, includes_app in Hno. discriminate.
Qed.

Lemma matchWiki_None (line : string) :
  Js.includes "[[" line = false -> matchWiki line = None.
Proof.
  apply search_None. intros s g r. unfold wikiAt.
  set (bang := if Js.startsWith "!" s then "!" else "").
  assert (Hb : s = bang +:+ Js.drop (String.length bang) s).
  { subst bang. destruct (Js.startsWith "!" s) eqn:E; [|reflexivity].
    now apply startsWith_inv. }
  destruct (Js.startsWith "[[" _) eqn:E; [|discriminate].
  intros _. apply startsWith_inv in E. rewrite E in Hb. eauto.
Qed.

Lemma matchAsset_None (line : string) :
  Js.includes "![" line = false -> matchAsset line = None.
Proof.
  apply search_None. intros s g r. unfold assetAt.
  destruct (Js.startsWith "![" s) eqn:E; [|discriminate].
  intros _. apply startsWith_inv in E. exists "". eauto.
Qed.

Lemma matchLink_None (line : string) :
  Js.includes "](" line = false -> matchLink line = None.
Proof.
  apply search_None. intros s g r H. apply linkAt_text in H.
  unfold linkText in H. exists ("[" +:+ fst g), (snd g +:+ ")" +:+ r).
  rewrite H. snorm. reflexivity.
Qed.

Lemma takeWhile_dropWhile (p : ascii -> bool) (s : string) :
  s = Js.takeWhile p s +:+ Js.dropWhile p s.
Proof.
  induction s as [|c s IH]; [reflexivity|]. simpl.
  destruct (p c); [simpl; now f_equal | reflexivity].
Qed.

Lemma matchAdmonition_None (line : string) :
  Js.startsWith ">" line && Js.includes "[!" line = false ->
  matchAdmonition line = None.
Proof.
  unfold matchAdmonition. destruct (Js.startsWith ">" line) eqn:E; [|reflexivity].
  cbn [andb]. intros Hno.
  destruct (Js.startsWith "[!" _) eqn:E2; [|reflexivity].
  apply startsWith_inv in E, E2. cbn [String.length] in E, E2.
  pose proof (takeWhile_dropWhile Js.isSpace (Js.drop 1 line)) as T.
  assert (Hline : line = (">" +:+ Js.takeWhile Js.isSpace (Js.drop 1 line)) +:+ "[!"
                         +:+ Js.drop 2 (Js.dropWhile Js.isSpace (Js.drop 1 line))).
  { rewrite <- E2, sapp_assoc, <- T. exact E. }
  rewrite Hline, includes_app in Hno. discriminate.
Qed.

Section PlainLines.

Variable config : Config.
Variable now : string.
Variable fileProcessor : FileProcessor.
Variable processedFileName : string.
Variable allSourceAssetsInfo : list SourceFileInfo.

(** the rewrites of links and assets leave such a line as it is *)
Lemma noLinkSyntax_rewrites (line : string) (assetJson : list Asset) :
  noLinkSyntax line = true ->
  convertObsidianLinks line fileProcessor = line
  /\ checkForAssets config now line processedFileName assetJson allSourceAssetsInfo
     = Ok (line, assetJson)
  /\ checkForLinks line = Ok line.
Proof.
  unfold noLinkSyntax. intros [[H1 H2]%andb_prop H3]%andb_prop.
  apply negb_true_iff in H1, H2, H3.
  unfold convertObsidianLinks, checkForAssets, checkForLinks.
  rewrite (matchAsset_None _ H2). cbn [mbind Result_bind].
  now rewrite (matchWiki_None _ H1), (matchLink_None _ H3).
Qed.

Lemma processLine_plain (line content : string) (assetJson : list Asset) :
  plainLine line = true ->
  processLine config now fileProcessor processedFileName allSourceAssetsInfo
    (idleState content assetJson) line
  = Ok (idleState (content +:+ line +:+ Js.nl) assetJson).
Proof.
  unfold plainLine. intros [Hlinks Hcallout]%andb_prop.
  apply negb_true_iff in Hcallout.
  destruct (noLinkSyntax_rewrites line assetJson Hlinks) as (H1 & H2 & H3).
  unfold processLine. cbn [idleState registry inAdmonition inQuote admonition
                           transformedContent].
  rewrite H1, H2. cbn [mbind Result_bind]. rewrite H3. cbn [mbind Result_bind].
  unfold convertAdmonition, parseAdmonitionData. cbn [negb andb].
  now rewrite (matchAdmonition_None _ Hcallout).
Qed.

Lemma processLines_plain (lines : list string) :
  forall (content : string) (assetJson : list Asset),
  Forall (fun line => plainLine line = true) lines ->
  processLines config now fileProcessor processedFileName allSourceAssetsInfo
    (idleState content assetJson) lines
  = Ok (idleState (content +:+ unlines Js.nl lines) assetJson).
Proof.
  induction lines as [|line rest IH]; intros content assetJson H.
  - cbn. now rewrite sapp_nil_r.
  - apply Forall_cons in H as [Hline Hrest].
    cbn [processLines]. rewrite processLine_plain by exact Hline.
    cbn [mbind Result_bind]. rewrite IH by exact Hrest.
    cbn [unlines foldr]. now rewrite !sapp_assoc.
Qed.

End PlainLines.

(** ** The lines of a text *)

Lemma splitLines_cons (line : string) (rest : string) (c : ascii) (h : string)
    (t : list string) :
  noLineTerminator line = true ->
  splitLines (String c rest) = h :: t ->
  splitLines (line +:+ String c rest) = (line +:+ h) :: t.
Proof.
  intros Hline E. induction line as [|d line IH]; [exact E|].
  unfold noLineTerminator in Hline. simpl in Hline.
  apply andb_prop in Hline as [Hd Hline].
  apply negb_true_iff in Hd. unfold Js.isLineTerminator in Hd.
  apply orb_false_iff in Hd as [H10 H13].
  change (String d line +:+ String c rest) with (String d (line +:+ String c rest)).
  cbn [splitLines]. rewrite H10, H13. now rewrite (IH Hline).
Qed.

Lemma splitLines_nonempty (s : string) : splitLines s <> [].
Proof.
  induction s as [|c s IH]; [discriminate|]. cbn [splitLines].
  destruct (Nat.eqb (Js.code c) 10); [discriminate|].
  destruct (Nat.eqb (Js.code c) 13).
  - destruct s as [|d s]; [discriminate|]. destruct (Nat.eqb (Js.code d) 10); discriminate.
  - destruct (splitLines s); discriminate.
Qed.

(** a line ended by LF or by CR LF is a line of the text *)
Lemma splitLines_line (line rest : string) :
  noLineTerminator line = true ->
  splitLines (line +:+ Js.nl +:+ rest) = line :: splitLines rest
  /\ splitLines (line +:+ crlf +:+ rest) = line :: splitLines rest.
Proof.
  intros Hline. split.
  - rewrite <- (sapp_nil_r line) at 2.
    apply (splitLines_cons line rest (ascii_of_nat 10) "" (splitLines rest) Hline).
    reflexivity.
  - rewrite <- (sapp_nil_r line) at 2.
    apply (splitLines_cons line (Js.nl +:+ rest) (ascii_of_nat 13) "" (splitLines rest) Hline).
    reflexivity.
Qed.

Lemma splitLines_unlines (lines : list string) :
  Forall (fun line => noLineTerminator line = true) lines ->
  splitLines (unlines Js.nl lines) = lines ++ [""]
  /\ splitLines (unlines crlf lines) = lines ++ [""].
Proof.
  induction 1 as [|line rest Hline _ [IH1 IH2]]; [now split|].
  cbn [unlines foldr]. fold (unlines Js.nl rest). fold (unlines crlf rest).
  destruct (splitLines_line line (unlines Js.nl rest) Hline) as [-> _].
  destruct (splitLines_line line (unlines crlf rest) Hline) as [_ ->].
  rewrite IH1, IH2. now split.
Qed.

Lemma readLines_unlines (lines : list string) :
  Forall (fun line => noLineTerminator line = true) lines ->
  readLines (unlines Js.nl lines) = lines
  /\ readLines (unlines crlf lines) = lines.
Proof.
  intros H. destruct (splitLines_unlines lines H) as [H1 H2].
  unfold readLines. rewrite H1, H2.
  rewrite last_last. cbn [String.eqb]. now rewrite removelast_last.
Qed.

Lemma splitLines_plain (line : string) :
  noLineTerminator line = true -> splitLines line = [line].
Proof.
  induction line as [|d line IH]; intros Hline; [reflexivity|].
  unfold noLineTerminator in Hline. simpl in Hline.
  apply andb_prop in Hline as [Hd Hline].
  apply negb_true_iff in Hd. unfold Js.isLineTerminator in Hd.
  apply orb_false_iff in Hd as [H10 H13].
  cbn [splitLines]. rewrite H10, H13. now rewrite (IH Hline).
Qed.

(** the lines of a text whose last line has no line end *)
Lemma readLines_join (lines : list string) (final : string) :
  Forall (fun line => noLineTerminator line = true) lines ->
  noLineTerminator final = true -> final <> "" ->
  readLines (unlines Js.nl lines +:+ final) = lines ++ [final].
Proof.
  intros Hlines Hfinal Hne.
  assert (H : splitLines (unlines Js.nl lines +:+ final) = lines ++ [final]).
  { induction Hlines as [|line rest Hline _ IH]; [now apply splitLines_plain|].
    cbn [unlines foldr]. fold (unlines Js.nl rest). rewrite !sapp_assoc.
    destruct (splitLines_line line (unlines Js.nl rest +:+ final) Hline) as [-> _].
    now rewrite IH. }
  unfold readLines. rewrite H, last_last.
  destruct final; [contradiction | reflexivity].
Qed.

(** X11.  A text without links, assets or callout starts goes through
    [processMarkdown] unchanged, but for its line ends: every line of the
    output ends with a line feed, whether the line of the source ended with
    a line feed, with a carriage return and a line feed, or, for the last
    line, with nothing.  The registry is not touched, and nothing is
    looked up. *)
Theorem plain_text_is_copied (config : Config) (now doc : string)
    (assetJson : list Asset) (fileInfo allSourceAssetsInfo : list SourceFileInfo)
    (lines : list string) :
  Forall (fun line => plainLine line = true) lines ->
  Forall (fun line => noLineTerminator line = true) lines ->
  processMarkdown config now doc (unlines Js.nl lines) assetJson fileInfo allSourceAssetsInfo
  = Ok (unlines Js.nl lines, assetJson)
  /\ processMarkdown config now doc (unlines crlf lines) assetJson fileInfo
       allSourceAssetsInfo
     = Ok (unlines Js.nl lines, assetJson)
  /\ forall final,
       plainLine final = true -> noLineTerminator final = true -> final <> "" ->
       processMarkdown config now doc (unlines Js.nl lines +:+ final) assetJson fileInfo
         allSourceAssetsInfo
       = Ok (unlines Js.nl (lines ++ [final]), assetJson).
Proof.
  intros Hplain Hlines.
  destruct (readLines_unlines lines Hlines) as [Hlf Hcrlf].
  assert (Hrun : forall content ls,
            readLines content = ls -> Forall (fun line => plainLine line = true) ls ->
            processMarkdown config now doc content assetJson fileInfo allSourceAssetsInfo
            = Ok (unlines Js.nl ls, assetJson)).
  { intros content ls Hread Hls. unfold processMarkdown. rewrite Hread.
    change {| transformedContent := ""; inAdmonition := false; inQuote := false;
              admonition := {| type := ""; title := ""; whitespaces := 0 |};
              registry := assetJson |} with (idleState "" assetJson).
    now rewrite processLines_plain by exact Hls. }
  split; [now apply Hrun|]. split; [now apply Hrun|].
  intros final Hp Hf Hne. apply Hrun; [now apply readLines_join|].
  apply Forall_app. split; [exact Hplain | now constructor].
Qed.

Lemma plain_text_is_copied_witness :
  processMarkdown someConfig "" "doc.md" (unlines Js.nl ["# Title"; ""; "> quoted (a) [b]"])
    [] [] []
  = Ok (unlines Js.nl ["# Title"; ""; "> quoted (a) [b]"], []).
Proof.
  refine (proj1 (plain_text_is_copied someConfig "" "doc.md" [] [] []
                   ["# Title"; ""; "> quoted (a) [b]"] _ _)); repeat constructor.
Defined.

(** ** Callouts and quotes *)

Lemma dropWhile_app (p : ascii -> bool) (a b : string) :
  Js.all p a = true -> Js.dropWhile p (a +:+ b) = Js.dropWhile p b.
Proof.
  induction a as [|c a IH]; intros H; [reflexivity|].
  simpl in H. apply andb_prop in H as [Hc Ha]. simpl. rewrite Hc. now apply IH.
Qed.

Lemma takeWhile_all (p : ascii -> bool) (a : string) :
  Js.all p a = true -> Js.takeWhile p a = a.
Proof.
  induction a as [|c a IH]; intros H; [reflexivity|].
  simpl in H. apply andb_prop in H as [Hc Ha]. simpl. rewrite Hc. now rewrite IH.
Qed.

(** the first occurrence of a character *)
Lemma cut_char (c : ascii) (x y : string) :
  Js.all (fun d => negb (Ascii.eqb d c)) x = true ->
  Js.cut (String c "") (x +:+ String c y) = Some (x, y).
Proof.
  induction x as [|d x IH]; intros H.
  - change ("" +:+ String c y) with (String c "" +:+ y).
    now rewrite cut_eq, startsWith_app, drop_app.
  - simpl in H. apply andb_prop in H as [Hd Hx]. apply negb_true_iff in Hd.
    change (String d x +:+ String c y) with (String d (x +:+ String c y)).
    rewrite cut_eq. unfold Js.startsWith. cbn [String.prefix].
    destruct (ascii_dec c d) as [->|_]; [now rewrite Ascii.eqb_refl in Hd|].
    now rewrite IH.
Qed.

(** the last occurrence of a character *)
Lemma cutLast_app (c : ascii) (x y : string) :
  Js.all (fun d => negb (Ascii.eqb d c)) y = true ->
  cutLast c (x +:+ String c y) = Some (x, y).
Proof.
  intros Hy.
  assert (Hnone : cutLast c y = None).
  { induction y as [|d y IH]; [reflexivity|].
    simpl in Hy. apply andb_prop in Hy as [Hd Hy]. apply negb_true_iff in Hd.
    cbn [cutLast]. now rewrite IH, Hd. }
  induction x as [|d x IH].
  - cbn [String.append cutLast]. now rewrite Hnone, Ascii.eqb_refl.
  - change (String d x +:+ String c y) with (String d (x +:+ String c y)).
    cbn [cutLast]. now rewrite IH.
Qed.

Lemma isSpace_not_bracket (ws : string) :
  Js.all Js.isSpace ws = true ->
  Js.all (fun d => negb (Ascii.eqb d "[")) ws = true.
Proof.
  induction ws as [|c ws IH]; intros H; [reflexivity|].
  simpl in H. apply andb_prop in H as [Hc Hws]. simpl. rewrite (IH Hws), andb_true_r.
  destruct c as [[] [] [] [] [] [] [] []]; try reflexivity; discriminate Hc.
Qed.

(** what the start of a callout holds *)
Lemma parseAdmonitionData_start (ws ty ti : string) :
  Js.all Js.isSpace ws = true ->
  noLineTerminator (ty +:+ "]" +:+ ti) = true ->
  Js.all (fun d => negb (Ascii.eqb d "]")) ti = true ->
  parseAdmonitionData (calloutStart ws ty ti)
  = {| type := ty; title := Js.trim ti;
       whitespaces := Z.of_nat (S (String.length ws)) |}.
Proof.
  intros Hws Hline Hti. unfold parseAdmonitionData, matchAdmonition, calloutStart.
  rewrite startsWith_app.
  change (Js.drop 1 (">" +:+ ws +:+ "[!" +:+ ty +:+ "]" +:+ ti))
    with (ws +:+ "[!" +:+ ty +:+ "]" +:+ ti).
  rewrite dropWhile_app by exact Hws.
  change (Js.dropWhile Js.isSpace ("[!" +:+ ty +:+ "]" +:+ ti))
    with ("[!" +:+ ty +:+ "]" +:+ ti).
  rewrite startsWith_app.
  change (Js.drop 2 ("[!" +:+ ty +:+ "]" +:+ ti)) with (ty +:+ "]" +:+ ti).
  rewrite takeWhile_all by exact Hline.
  change (ty +:+ "]" +:+ ti) with (ty +:+ String "]" ti).
  rewrite cutLast_app by exact Hti.
  f_equal. unfold Js.indexOf.
  change (">" +:+ ws +:+ "[!" +:+ ty +:+ String "]" ti)
    with (String ">" (ws +:+ String "[" ("!" +:+ ty +:+ String "]" ti))).
  rewrite (cut_eq ">"). cbn [Js.startsWith String.prefix].
  destruct (ascii_dec ">" ">") as [_|Hne]; [|congruence].
  assert (Hp : String.prefix "" (ws +:+ String "[" ("!" +:+ ty +:+ String "]" ti)) = true)
    by now destruct ws.
  rewrite Hp.
  change (String ">" (ws +:+ String "[" ("!" +:+ ty +:+ String "]" ti)))
    with (String ">" ws +:+ String "[" ("!" +:+ ty +:+ String "]" ti)).
  rewrite cut_char.
  - cbn [String.length]. lia.
  - simpl. now apply isSpace_not_bracket.
Qed.

Section Blocks.

Variable config : Config.
Variable now : string.
Variable fileProcessor : FileProcessor.
Variable processedFileName : string.
Variable allSourceAssetsInfo : list SourceFileInfo.

Variables ws ty ti : string.
Hypothesis Hws : Js.all Js.isSpace ws = true.
Hypothesis Hline : noLineTerminator (ty +:+ "]" +:+ ti) = true.
Hypothesis Hti : Js.all (fun d => negb (Ascii.eqb d "]")) ti = true.
Hypothesis Hty : Js.truthy ty = true.
Hypothesis Hlinks : noLinkSyntax (calloutStart ws ty ti) = true.

(** the start of a block, met outside of a block *)
Lemma processLine_blockStart (content : string) (previous : Admonition)
    (assetJson : list Asset) :
  processLine config now fileProcessor processedFileName allSourceAssetsInfo
    {| transformedContent := content; inAdmonition := false; inQuote := false;
         admonition := previous; registry := assetJson |} (calloutStart ws ty ti)
  = Ok (if String.eqb ty "quote"
        then blockState (content +:+ Js.nl) false true ws ty ti assetJson
        else blockState (content +:+ openingFence ty ti +:+ Js.nl) true false ws ty ti
               assetJson).
Proof.
  destruct (noLinkSyntax_rewrites config now fileProcessor processedFileName
              allSourceAssetsInfo _ assetJson Hlinks) as (H1 & H2 & H3).
  unfold processLine. cbn [registry inAdmonition inQuote admonition transformedContent].
  rewrite H1, H2. cbn [mbind Result_bind]. rewrite H3. cbn [mbind Result_bind].
  unfold convertAdmonition. cbn [negb andb].
  rewrite (parseAdmonitionData_start ws ty ti Hws Hline Hti).
  cbn [type title whitespaces]. rewrite Hty.
  destruct (String.eqb ty "quote"); [reflexivity|].
  unfold blockState, openingFence. do 2 f_equal.
  destruct (Js.truthy (Js.trim ti)); snorm; reflexivity.
Qed.

Lemma slice_of_nat (n : nat) (line : string) :
  Js.slice (Z.of_nat n) line = Js.drop n line.
Proof.
  unfold Js.slice. destruct (Z.of_nat n <? 0) eqn:E; [apply Z.ltb_lt in E; lia|].
  now rewrite Nat2Z.id.
Qed.

(** a line inside a callout loses the offset of the start marker *)
Lemma processLine_calloutBody (content line : string) (assetJson : list Asset) :
  noLinkSyntax line = true -> notBlank line = true ->
  processLine config now fileProcessor processedFileName allSourceAssetsInfo
    (blockState content true false ws ty ti assetJson) line
  = Ok (blockState (content +:+ Js.drop (S (String.length ws)) line +:+ Js.nl)
          true false ws ty ti assetJson).
Proof.
  intros Hl Hb. apply negb_true_iff in Hb.
  destruct (noLinkSyntax_rewrites config now fileProcessor processedFileName
              allSourceAssetsInfo _ assetJson Hl) as (H1 & H2 & H3).
  unfold processLine. cbn [blockState registry inAdmonition inQuote admonition
                           transformedContent].
  rewrite H1, H2. cbn [mbind Result_bind]. rewrite H3. cbn [mbind Result_bind].
  unfold convertAdmonition. cbn [negb andb whitespaces]. rewrite Hb, slice_of_nat.
  reflexivity.
Qed.

(** an empty line closes the callout *)
Lemma processLine_calloutEnd (content line : string) (assetJson : list Asset) :
  noLinkSyntax line = true -> notBlank line = false ->
  processLine config now fileProcessor processedFileName allSourceAssetsInfo
    (blockState content true false ws ty ti assetJson) line
  = Ok (blockState (content +:+ (":::" +:+ Js.nl) +:+ Js.nl) false false ws ty ti assetJson).
Proof.
  intros Hl Hb. apply negb_false_iff in Hb.
  destruct (noLinkSyntax_rewrites config now fileProcessor processedFileName
              allSourceAssetsInfo _ assetJson Hl) as (H1 & H2 & H3).
  unfold processLine. cbn [blockState registry inAdmonition inQuote admonition
                           transformedContent].
  rewrite H1, H2. cbn [mbind Result_bind]. rewrite H3. cbn [mbind Result_bind].
  unfold convertAdmonition. cbn [negb andb whitespaces]. rewrite Hb.
  reflexivity.
Qed.

(** a line inside a quote is kept *)
Lemma processLine_quoteBody (content line : string) (assetJson : list Asset) :
  noLinkSyntax line = true -> notBlank line = true ->
  processLine config now fileProcessor processedFileName allSourceAssetsInfo
    (blockState content false true ws ty ti assetJson) line
  = Ok (blockState (content +:+ line +:+ Js.nl) false true ws ty ti assetJson).
Proof.
  intros Hl Hb. apply negb_true_iff in Hb.
  destruct (noLinkSyntax_rewrites config now fileProcessor processedFileName
              allSourceAssetsInfo _ assetJson Hl) as (H1 & H2 & H3).
  unfold processLine. cbn [blockState registry inAdmonition inQuote admonition
                           transformedContent].
  rewrite H1, H2. cbn [mbind Result_bind]. rewrite H3. cbn [mbind Result_bind].
  unfold convertAdmonition. cbn [negb andb whitespaces]. rewrite Hb.
  reflexivity.
Qed.

(** an empty line closes the quote, with the title as its source *)
Lemma processLine_quoteEnd (content line : string) (assetJson : list Asset) :
  noLinkSyntax line = true -> notBlank line = false ->
  processLine config now fileProcessor processedFileName allSourceAssetsInfo
    (blockState content false true ws ty ti assetJson) line
  = Ok (blockState (content +:+ quoteFooter ti +:+ Js.nl) false false ws ty ti assetJson).
Proof.
  intros Hl Hb. apply negb_false_iff in Hb.
  destruct (noLinkSyntax_rewrites config now fileProcessor processedFileName
              allSourceAssetsInfo _ assetJson Hl) as (H1 & H2 & H3).
  unfold processLine. cbn [blockState registry inAdmonition inQuote admonition
                           transformedContent].
  rewrite H1, H2. cbn [mbind Result_bind]. rewrite H3. cbn [mbind Result_bind].
  unfold convertAdmonition. cbn [negb andb whitespaces title]. rewrite Hb.
  reflexivity.
Qed.

Lemma processLines_calloutBody (body : list string) :
  forall (content : string) (assetJson : list Asset),
  Forall (fun line => noLinkSyntax line = true /\ notBlank line = true) body ->
  processLines config now fileProcessor processedFileName allSourceAssetsInfo
    (blockState content true false ws ty ti assetJson) body
  = Ok (blockState (content +:+ unlines Js.nl (Js.drop (S (String.length ws)) <$> body))
          true false ws ty ti assetJson).
Proof.
  induction body as [|line rest IH]; intros content assetJson H.
  - cbn. now rewrite sapp_nil_r.
  - apply Forall_cons in H as [[Hl Hb] Hrest].
    cbn [processLines]. rewrite processLine_calloutBody by assumption.
    cbn [mbind Result_bind]. rewrite IH by exact Hrest.
    rewrite fmap_cons. cbn [unlines foldr]. now rewrite !sapp_assoc.
Qed.

Lemma processLines_quoteBody (body : list string) :
  forall (content : string) (assetJson : list Asset),
  Forall (fun line => noLinkSyntax line = true /\ notBlank line = true) body ->
  processLines config now fileProcessor processedFileName allSourceAssetsInfo
    (blockState content false true ws ty ti assetJson) body
  = Ok (blockState (content +:+ unlines Js.nl body) false true ws ty ti assetJson).
Proof.
  induction body as [|line rest IH]; intros content assetJson H.
  - cbn. now rewrite sapp_nil_r.
  - apply Forall_cons in H as [[Hl Hb] Hrest].
    cbn [processLines]. rewrite processLine_quoteBody by assumption.
    cbn [mbind Result_bind]. rewrite IH by exact Hrest.
    cbn [unlines foldr]. now rewrite !sapp_assoc.
Qed.

End Blocks.

(** X12.  A callout in lines of ASCII text without links or assets: the
    start marker [>], white space, [[!type]] and a title, met outside of a
    block, opens a block with the fence [:::type title]; every line up to the next blank
    line loses as many characters as precede the opening bracket of the
    marker, whatever these characters are; the blank line closes the block
    with [:::].  Every line of the output has a line feed more, and the
    registry is not touched.  A callout that no blank line follows is left
    open: nothing closes it at the end of the text. *)
Theorem callout_block (config : Config) (now doc : string)
    (fileProcessor : FileProcessor) (allSourceAssetsInfo : list SourceFileInfo)
    (ws ty ti content blank : string) (previous : Admonition)
    (assetJson : list Asset) (body : list string) :
  Forall (fun line => asciiText line = true) (calloutStart ws ty ti :: body ++ [blank]) ->
  Js.all Js.isSpace ws = true ->
  noLineTerminator (ty +:+ "]" +:+ ti) = true ->
  Js.all (fun d => negb (Ascii.eqb d "]")) ti = true ->
  Js.truthy ty = true -> String.eqb ty "quote" = false ->
  noLinkSyntax (calloutStart ws ty ti) = true ->
  Forall (fun line => noLinkSyntax line = true /\ notBlank line = true) body ->
  noLinkSyntax blank = true -> notBlank blank = false ->
  let start := {| transformedContent := content; inAdmonition := false; inQuote := false;
                  admonition := previous; registry := assetJson |} in
  let inside := content +:+ openingFence ty ti +:+ Js.nl
                +:+ unlines Js.nl (Js.drop (S (String.length ws)) <$> body) in
  processLines config now fileProcessor doc allSourceAssetsInfo start
    (calloutStart ws ty ti :: body)
  = Ok (blockState inside true false ws ty ti assetJson)
  /\ processLines config now fileProcessor doc allSourceAssetsInfo start
       (calloutStart ws ty ti :: body ++ [blank])
     = Ok (blockState (inside +:+ ":::" +:+ Js.nl +:+ Js.nl) false false ws ty ti assetJson).
Proof.
  intros _ Hws Hline Hti Hty Hquote Hlinks Hbody Hl Hb start inside.
  assert (Hopen : processLines config now fileProcessor doc allSourceAssetsInfo start
                    (calloutStart ws ty ti :: body)
                  = Ok (blockState inside true false ws ty ti assetJson)).
  { cbn [processLines]. subst start.
    rewrite (processLine_blockStart config now fileProcessor doc allSourceAssetsInfo
               ws ty ti Hws Hline Hti Hty Hlinks), Hquote.
    cbn [mbind Result_bind]. rewrite processLines_calloutBody by exact Hbody.
    subst inside. now rewrite !sapp_assoc. }
  split; [exact Hopen|].
  change (calloutStart ws ty ti :: body ++ [blank])
    with ((calloutStart ws ty ti :: body) ++ [blank]).
  rewrite processLines_app, Hopen. cbn [mbind Result_bind processLines].
  rewrite processLine_calloutEnd by assumption. cbn [mbind Result_bind].
  now rewrite !sapp_assoc.
Qed.

Lemma callout_block_witness :
  processLines someConfig "" emptyProcessor "doc.md" [] (idleState "" [])
    (calloutStart " " "tip" " Mind the gap" :: ["> first"; "second"] ++ [""])
  = Ok (blockState (":::tip Mind the gap" +:+ Js.nl +:+ Js.nl +:+ "first" +:+ Js.nl
                    +:+ "cond" +:+ Js.nl +:+ ":::" +:+ Js.nl +:+ Js.nl)
          false false " " "tip" " Mind the gap" []).
Proof.
  refine (proj2 (callout_block someConfig "" "doc.md" emptyProcessor [] " " "tip"
                   " Mind the gap" "" "" idle [] ["> first"; "second"]
                   _ _ _ _ _ _ _ _ _ _)); try reflexivity; repeat constructor.
Defined.

(** X13.  A quote in lines of ASCII text without links or assets: the start
    marker of
    type [quote] opens the block and leaves an empty line in the output;
    the lines up to the next blank line are kept as they are; the blank
    line closes the block with a line holding [>] and a line that gives the
    title of the marker as the source of the quote. *)
Theorem quote_block (config : Config) (now doc : string)
    (fileProcessor : FileProcessor) (allSourceAssetsInfo : list SourceFileInfo)
    (ws ti content blank : string) (previous : Admonition)
    (assetJson : list Asset) (body : list string) :
  Forall (fun line => asciiText line = true) (calloutStart ws "quote" ti :: body ++ [blank]) ->
  Js.all Js.isSpace ws = true ->
  noLineTerminator ti = true ->
  Js.all (fun d => negb (Ascii.eqb d "]")) ti = true ->
  noLinkSyntax (calloutStart ws "quote" ti) = true ->
  Forall (fun line => noLinkSyntax line = true /\ notBlank line = true) body ->
  noLinkSyntax blank = true -> notBlank blank = false ->
  processLines config now fileProcessor doc allSourceAssetsInfo
    {| transformedContent := content; inAdmonition := false; inQuote := false;
       admonition := previous; registry := assetJson |}
    (calloutStart ws "quote" ti :: body ++ [blank])
  = Ok (blockState (content +:+ Js.nl +:+ unlines Js.nl body +:+ quoteFooter ti +:+ Js.nl)
          false false ws "quote" ti assetJson).
Proof.
  intros _ Hws Hline Hti Hlinks Hbody Hl Hb.
  assert (Hline' : noLineTerminator ("quote" +:+ "]" +:+ ti) = true) by exact Hline.
  cbn [processLines].
  rewrite (processLine_blockStart config now fileProcessor doc allSourceAssetsInfo
             ws "quote" ti Hws Hline' Hti eq_refl Hlinks).
  cbn [String.eqb Ascii.eqb Bool.eqb mbind Result_bind].
  rewrite processLines_app, processLines_quoteBody by exact Hbody.
  cbn [mbind Result_bind processLines].
  rewrite processLine_quoteEnd by assumption. cbn [mbind Result_bind].
  now rewrite !sapp_assoc.
Qed.

Lemma quote_block_witness :
  processLines someConfig "" emptyProcessor "doc.md" [] (idleState "" [])
    (calloutStart " " "quote" " Ada" :: ["> To be"] ++ [""])
  = Ok (blockState (Js.nl +:+ unlines Js.nl ["> To be"] +:+ quoteFooter " Ada" +:+ Js.nl)
          false false " " "quote" " Ada" []).
Proof.
  refine (quote_block someConfig "" "doc.md" emptyProcessor [] " " " Ada" "" "" idle []
            ["> To be"] _ _ _ _ _ _ _ _); try reflexivity; repeat constructor.
Defined.

(** ** Wiki-style links, in general *)

Lemma plain_app (a b : string) : plain (a +:+ b) = plain a && plain b.
Proof. apply all_app. Qed.

(** X14.  The first wiki-style link of a line is rewritten where it stands,
    and the text around it is kept.  The file it names is looked up among
    the documents first, under the name before the first bar, with [.md]
    added unless it is there: when found, the link becomes a markdown link
    to the path of the document, with the text after the last bar as its
    title (the name itself when there is no bar).  Otherwise the whole inner
    text, bars included, is looked up among the attachments: when found,
    the link becomes an image without alternative text.  (The title and the
    path are taken as they are when they hold no dollar sign.) *)
Theorem wiki_link_rewritten_in_place (line : string) (fp : FileProcessor)
    (m : Match (string * string)) (p : string) :
  matchWiki line = Some m ->
  plain p = true ->
  let inner := snd (groups m) in
  let title := List.last (Js.split "|" inner) "" in
  (getPathOfFile fp (linkedFileName inner) = Some p -> plain title = true ->
   convertObsidianLinks line fp
   = before m +:+ ("[" +:+ title +:+ "](" +:+ p +:+ ")") +:+ after m)
  /\ (getPathOfFile fp (linkedFileName inner) = None ->
      getPathOfImage fp inner = Some p ->
      convertObsidianLinks line fp = before m +:+ ("![](" +:+ p +:+ ")") +:+ after m).
Proof.
  intros Hm Hp inner title. pose proof (matchWiki_cut _ _ Hm) as Hcut.
  unfold convertObsidianLinks. rewrite Hm. subst inner title.
  destruct (groups m) as [match0 match1]. cbn [fst snd] in *.
  unfold linkedFileName. cbv zeta. split.
  - intros -> Htitle. unfold Js.replace. rewrite Hcut.
    rewrite getSubstitution_plain; [reflexivity|].
    rewrite !plain_app, Htitle, Hp. reflexivity.
  - intros -> ->. unfold Js.replace. rewrite Hcut.
    rewrite getSubstitution_plain; [reflexivity|].
    rewrite !plain_app, Hp. reflexivity.
Qed.

Lemma wiki_link_rewritten_in_place_witness :
  convertObsidianLinks "see [[B|the|second]] and [[A]]" twoNotes
  = "see " +:+ ("[" +:+ "second" +:+ "](" +:+ "docs/B.md" +:+ ")") +:+ " and [[A]]".
Proof.
  refine (proj1 (wiki_link_rewritten_in_place "see [[B|the|second]] and [[A]]" twoNotes
                   {| before := "see "; groups := ("[[B|the|second]]", "B|the|second");
                      after := " and [[A]]" |} "docs/B.md" eq_refl eq_refl)
                eq_refl eq_refl).
Defined.

(** ** Links that are rooted already *)

Lemma rooted_setLast (x : string) (urlParts : list string) :
  rooted urlParts -> rooted (setLast x urlParts).
Proof.
  intros (h & t & ->). unfold setLast, rooted. cbn [length Nat.pred].
  destruct t as [|h2 t]; cbn; [eauto|].
  destruct (length t); cbn; eauto.
Qed.

Lemma rooted_fmap (urlParts : list string) :
  rooted urlParts -> rooted (removeNumberPrefix <$> urlParts).
Proof. intros (h & t & ->). unfold rooted. rewrite !fmap_cons. eauto. Qed.

Lemma rooted_pop (h h2 : string) (t : list string) :
  rooted (pop ("" :: h :: h2 :: t)).
Proof.
  unfold pop, rooted. cbn [removelast]. eauto.
Qed.

Lemma processUrlParts_rooted (urlParts : list string) :
  rooted urlParts ->
  exists urlParts', processUrlParts urlParts false = Ok urlParts' /\ rooted urlParts'.
Proof.
  intros Hr. pose proof Hr as (h & t & ->). unfold processUrlParts.
  assert (Hshape : (t = [] /\ List.rev ("" :: h :: t) = [h; ""])
                   \/ exists lastPart parentFolder more h2 t2,
                        t = h2 :: t2
                        /\ List.rev ("" :: h :: t) = lastPart :: parentFolder :: more).
  { destruct t as [|h2 t2]; [left; now split|]. right.
    cbn [List.rev]. destruct (List.rev t2) as [|z [|z2 zs]]; cbn; eauto 10. }
  assert (Hrest : forall (u : list string) (anchor : option string), rooted u ->
            exists urlParts',
              Ok (match anchor with
                  | Some a =>
                      if Js.truthy a
                      then setLast (List.last (removeNumberPrefix <$> u) "" +:+ "#"
                                    +:+ Js.toLowerCase (Js.replaceAll "%20" "-" a))
                             (removeNumberPrefix <$> u)
                      else removeNumberPrefix <$> u
                  | None => removeNumberPrefix <$> u
                  end) = Ok urlParts' /\ rooted urlParts').
  { intros u anchor Hu. eexists. split; [reflexivity|].
    destruct anchor as [a|]; [destruct (Js.truthy a)|];
      auto using rooted_setLast, rooted_fmap. }
  destruct Hshape as [[-> ->]|(lastPart & parentFolder & more & h2 & t2 & -> & ->)].
  - change (Js.endsWith "+" "") with false. cbv iota. cbn [negb].
    apply Hrest. destruct (Js.endsWith ".md" _); auto using rooted_setLast.
  - cbn [negb]. apply Hrest.
    destruct (Js.endsWith "+" parentFolder).
    + apply rooted_setLast, rooted_pop.
    + destruct (Js.endsWith ".md" _); auto using rooted_setLast.
Qed.

Lemma split_rooted (u : string) : rooted (Js.split "/" (String "/" u)).
Proof.
  cbn [Js.split]. change (Ascii.eqb "/" "/") with true. cbv iota.
  unfold rooted. induction u as [|c u IH]; [cbn; eauto|].
  cbn [Js.split]. destruct (Ascii.eqb c "/"); [eauto|].
  destruct IH as (h & t & [= ->]). eauto.
Qed.

(** a link that begins with [/] is rooted once more *)
Lemma checkForLinks_rooted (line : string) (m : Match (string * string)) :
  matchLink line = Some m ->
  Js.startsWith "/" (snd (groups m)) = true ->
  Js.includes "http" (snd (groups m)) = false ->
  exists rest,
    checkForLinks line = Ok (Js.replace (snd (groups m)) ("//" +:+ rest) line).
Proof.
  intros Hm Hslash Hhttp. unfold checkForLinks. rewrite Hm, Hhttp.
  destruct (snd (groups m)) as [|c u]; [discriminate|].
  unfold Js.startsWith in Hslash. cbn [String.prefix] in Hslash.
  destruct (ascii_dec "/" c) as [<-|]; [|discriminate].
  destruct (split_rooted u) as (h & t & Hsplit). rewrite Hsplit.
  cbn [length Nat.leb List.hd].
  change (isBlogFolder "") with false. cbv iota.
  destruct (processUrlParts_rooted ("" :: h :: t)) as (parts & -> & h' & t' & ->);
    [unfold rooted; eauto|].
  cbn [mbind Result_bind]. exists (Js.join "/" (h' :: t')). reflexivity.
Qed.


(** X15.  A link whose path begins with [/] already, and is not taken for
    an external one, gets a second [/] in front: [checkForLinks] splits the
    path at every [/], which gives an empty first part, and roots the
    joined parts once more. *)
Theorem rooted_link_gains_slash (line : string) (m : Match (string * string)) :
  matchLink line = Some m ->
  Js.startsWith "/" (snd (groups m)) = true ->
  Js.includes "http" (snd (groups m)) = false ->
  exists rest,
    checkForLinks line = Ok (Js.replace (snd (groups m)) ("//" +:+ rest) line).
Proof. apply checkForLinks_rooted. Qed.

Lemma rooted_link_gains_slash_witness :
  exists rest,
    checkForLinks "![pic](/assets/pic.webp)"
    = Ok (Js.replace "/assets/pic.webp" ("//" +:+ rest) "![pic](/assets/pic.webp)").
Proof.
  exact (rooted_link_gains_slash "![pic](/assets/pic.webp)"
           {| before := "!"; groups := ("pic", "/assets/pic.webp"); after := "" |}
           eq_refl eq_refl eq_refl).
Defined.



(** ** The inventory of the vault *)

Section VaultInventory.

Variable config : Vault.Settings.
Variable pathJoin : string -> string -> string -> string.
Variable pathResolve : string -> string -> string -> string -> string.
Variable parse : string -> string * string.

Hypothesis HmainLanguage : Js.truthy (Vault.mainLanguage config) = true.

(** with a main language, [sanitizeFileName] does not throw, and gives the
    extension [parse] gives *)
Lemma sanitizeFileName_Ok (fileName' : string) :
  exists clean language,
    Vault.sanitizeFileName config parse fileName'
    = Ok (clean, snd (parse fileName'), language).
Proof.
  unfold Vault.sanitizeFileName. destruct (parse fileName') as [name ext]. cbn [snd].
  destruct (Vault.languageMatch name) as [tag|]; cbn [mbind Result_bind]; [eauto|].
  rewrite HmainLanguage. cbn [mbind Result_bind]. eauto.
Qed.

(** the only exception of [getSourceFileInfo] is then that of
    [getTargetPath] *)
Lemma getSourceFileInfo_cases (basePath : string) (folder : Vault.MainFolder)
    (file : Vault.VaultFile) :
  (exists info, Vault.getSourceFileInfo config pathJoin pathResolve parse basePath folder file
                = Ok info)
  \/ Vault.getSourceFileInfo config pathJoin pathResolve parse basePath folder file
     = Throw "Missing required properties on sourceFileInfo".
Proof.
  unfold Vault.getSourceFileInfo.
  destruct (sanitizeFileName_Ok (Vault.baseName file)) as (clean & language & ->).
  cbn [mbind Result_bind]. unfold Vault.getTargetPath.
  match goal with |- context [if ?c then _ else _] => destruct c end; eauto.
Qed.

Lemma getSourceFileInfo_noExtension (basePath : string) (folder : Vault.MainFolder)
    (file : Vault.VaultFile) :
  snd (parse (Vault.baseName file)) = "" ->
  Vault.getSourceFileInfo config pathJoin pathResolve parse basePath folder file
  = Throw "Missing required properties on sourceFileInfo".
Proof.
  intros Hext. unfold Vault.getSourceFileInfo.
  destruct (sanitizeFileName_Ok (Vault.baseName file)) as (clean & language & ->).
  rewrite Hext. cbn [mbind Result_bind]. unfold Vault.getTargetPath.
  cbn [Vault.fileExtension Vault.missing Js.truthy negb].
  now rewrite !orb_true_r.
Qed.

Lemma infoOfFiles_noExtension (basePath : string) (folder : Vault.MainFolder)
    (files : list Vault.VaultFile) (file : Vault.VaultFile) :
  file ∈ files -> snd (parse (Vault.baseName file)) = "" ->
  Vault.infoOfFiles config pathJoin pathResolve parse basePath folder files
  = Throw "Missing required properties on sourceFileInfo".
Proof.
  intros Hin Hext. induction files as [|f rest IH]; [inversion Hin|].
  cbn [Vault.infoOfFiles].
  apply elem_of_cons in Hin as [<-|Hin].
  - now rewrite getSourceFileInfo_noExtension.
  - destruct (getSourceFileInfo_cases basePath folder f) as [[info ->]| ->]; [|reflexivity].
    cbn [mbind Result_bind]. now rewrite IH.
Qed.

Lemma infoOfFiles_cases (basePath : string) (folder : Vault.MainFolder)
    (files : list Vault.VaultFile) :
  (exists infos, Vault.infoOfFiles config pathJoin pathResolve parse basePath folder files
                 = Ok infos)
  \/ Vault.infoOfFiles config pathJoin pathResolve parse basePath folder files
     = Throw "Missing required properties on sourceFileInfo".
Proof.
  induction files as [|f rest IH]; [left; now exists []|].
  cbn [Vault.infoOfFiles].
  destruct (getSourceFileInfo_cases basePath folder f) as [[info ->]| ->]; [|now right].
  cbn [mbind Result_bind]. destruct IH as [[infos ->]| ->]; [left|right]; cbn; eauto.
Qed.

Lemma allInfo_noExtension (basePath : string) (mainFolders : list Vault.MainFolder)
    (folder : Vault.MainFolder) (file : Vault.VaultFile) :
  folder ∈ mainFolders -> file ∈ Vault.files folder ->
  snd (parse (Vault.baseName file)) = "" ->
  Vault.allInfo config pathJoin pathResolve parse basePath mainFolders
  = Throw "Missing required properties on sourceFileInfo".
Proof.
  intros Hfolder Hfile Hext. induction mainFolders as [|f rest IH]; [inversion Hfolder|].
  cbn [Vault.allInfo].
  apply elem_of_cons in Hfolder as [<-|Hfolder].
  - now rewrite (infoOfFiles_noExtension basePath folder _ file Hfile Hext).
  - destruct (infoOfFiles_cases basePath f (Vault.files f)) as [[infos ->]| ->];
      [|reflexivity].
    cbn [mbind Result_bind]. now rewrite IH.
Qed.

End VaultInventory.

(** X17.  One file without an extension, in any of the main folders of the
    vault, ends the inventory, and with it the run: when a main language is
    configured, [getSourceFileInfo] throws for this file, [getTargetPath]
    taking the empty extension for a missing property, and nothing catches
    the exception. *)
Theorem file_without_extension_ends_inventory (config : Vault.Settings)
    (pathJoin : string -> string -> string -> string)
    (pathResolve : string -> string -> string -> string -> string)
    (parse : string -> string * string) (basePath : string)
    (mainFolders : list Vault.MainFolder) (folder : Vault.MainFolder)
    (file : Vault.VaultFile) :
  Js.truthy (Vault.mainLanguage config) = true ->
  folder ∈ mainFolders -> file ∈ Vault.files folder ->
  snd (parse (Vault.baseName file)) = "" ->
  Vault.getSourceFileInfo config pathJoin pathResolve parse basePath folder file
  = Throw "Missing required properties on sourceFileInfo"
  /\ Vault.allInfo config pathJoin pathResolve parse basePath mainFolders
     = Throw "Missing required properties on sourceFileInfo".
Proof.
  intros Hlang Hfolder Hfile Hext. split.
  - now apply getSourceFileInfo_noExtension.
  - now apply (allInfo_noExtension config pathJoin pathResolve parse Hlang basePath
                 mainFolders folder file).
Qed.

Lemma file_without_extension_ends_inventory_witness :
  Vault.getSourceFileInfo vaultSettings joinWithBars resolveWithBars parseAtLastDot
    "/vault" (docsFolder [readmeFile]) readmeFile
  = Throw "Missing required properties on sourceFileInfo"
  /\ Vault.allInfo vaultSettings joinWithBars resolveWithBars parseAtLastDot "/vault"
       [docsFolder [readmeFile]]
     = Throw "Missing required properties on sourceFileInfo".
Proof.
  refine (file_without_extension_ends_inventory vaultSettings joinWithBars resolveWithBars
            parseAtLastDot "/vault" [docsFolder [readmeFile]] (docsFolder [readmeFile])
            readmeFile eq_refl _ _ eq_refl); now left.
Defined.

(** ** File names and language tags *)





(** ** Folders that stand for a page *)

Lemma split_plain (c : ascii) (f : string) :
  Js.all (fun d => negb (Ascii.eqb d c)) f = true -> Js.split c f = [f].
Proof.
  induction f as [|a f IH]; intros H; [reflexivity|].
  simpl in H. apply andb_prop in H as [Ha Hf]. apply negb_true_iff in Ha.
  cbn [Js.split]. now rewrite Ha, (IH Hf).
Qed.

Lemma split_nonempty (c : ascii) (s : string) : Js.split c s <> [].
Proof.
  induction s as [|a s IH]; [discriminate|]. cbn [Js.split].
  destruct (Ascii.eqb a c); [discriminate|]. destruct (Js.split c s); discriminate.
Qed.

(** the parts of a path, up to its last part *)
Lemma split_snoc (c : ascii) (d f : string) :
  Js.all (fun x => negb (Ascii.eqb x c)) f = true ->
  Js.split c (d +:+ String c f) = Js.split c d ++ [f].
Proof.
  intros Hf. induction d as [|a d IH].
  - cbn [String.append Js.split]. rewrite Ascii.eqb_refl. now rewrite split_plain.
  - change (String a d +:+ String c f) with (String a (d +:+ String c f)).
    cbn [Js.split]. rewrite IH. destruct (Ascii.eqb a c); [reflexivity|].
    pose proof (split_nonempty c d) as Hne.
    destruct (Js.split c d) as [|h t]; [contradiction | reflexivity].
Qed.

Lemma truthy_app (a b : string) (c : ascii) : Js.truthy (a +:+ String c b) = true.
Proof. now destruct a. Qed.

(** X19.  [getTargetPath] splits the relative source path at backslashes
    only.  When this path is written with backslashes, as [directory\file]
    with a file name that holds none, and the folder of the file has a name
    that ends with [+], the name of the file plays no part in its target
    path: [getTargetPath] drops the last part of the source path and puts
    the extension after the name of the folder.  Two files of such a folder
    that have the same type, language, main folder and extension are given
    the same target paths, as soon as [getTargetPath] succeeds on the first
    one. *)
Theorem plus_folder_ignores_file_name (config : Vault.Settings)
    (pathJoin : string -> string -> string -> string)
    (pathResolve : string -> string -> string -> string -> string)
    (basePath directory parent file1 file2 : string)
    (info1 info2 result1 : Vault.SourceFileDetails) :
  Vault.fileType info2 = Vault.fileType info1 ->
  Vault.language info2 = Vault.language info1 ->
  Vault.mainFolder info2 = Vault.mainFolder info1 ->
  Vault.fileExtension info2 = Vault.fileExtension info1 ->
  Vault.parentFolder info1 = Some parent ->
  Vault.parentFolder info2 = Some parent ->
  Js.endsWith "+" parent = true ->
  pathSourceRelative (Vault.base info1) = Some (directory +:+ Vault.sep +:+ file1) ->
  pathSourceRelative (Vault.base info2) = Some (directory +:+ Vault.sep +:+ file2) ->
  Js.all (fun c => negb (Ascii.eqb c Vault.separator)) file1 = true ->
  Js.all (fun c => negb (Ascii.eqb c Vault.separator)) file2 = true ->
  Vault.getTargetPath config pathJoin pathResolve info1 basePath = Ok result1 ->
  exists result2,
    Vault.getTargetPath config pathJoin pathResolve info2 basePath = Ok result2
    /\ pathTargetRelative (Vault.base result2) = pathTargetRelative (Vault.base result1)
    /\ pathTargetAbsolute (Vault.base result2) = pathTargetAbsolute (Vault.base result1).
Proof.
  intros Htype Hlang Hmain Hext Hp1 Hp2 Hplus Hs1 Hs2 Hf1 Hf2.
  unfold Vault.getTargetPath. cbv zeta.
  rewrite Htype, Hlang, Hmain, Hext, Hp1, Hp2, Hs1, Hs2.
  cbn [default from_option id Vault.missing]. rewrite Hplus.
  change (directory +:+ Vault.sep +:+ file1)
    with (directory +:+ String Vault.separator file1).
  change (directory +:+ Vault.sep +:+ file2)
    with (directory +:+ String Vault.separator file2).
  rewrite !truthy_app, !split_snoc by assumption.
  unfold pop. rewrite !removelast_last.
  assert (Hlen : Nat.ltb 0 (length (Js.split Vault.separator directory)) = true).
  { pose proof (split_nonempty Vault.separator directory) as Hne.
    destruct (Js.split Vault.separator directory); [contradiction | reflexivity]. }
  rewrite Hlen.
  destruct (_ || _); [discriminate|].
  intros [= <-]. eexists. split; [reflexivity|]. split; reflexivity.
Qed.

Lemma plus_folder_ignores_file_name_witness :
  exists result2,
    Vault.getTargetPath vaultSettings joinWithBars resolveWithBars
      (pageFile "notes.md") "/vault" = Ok result2
    /\ pathTargetRelative (Vault.base result2)
       = Some (joinWithBars (".." +:+ Vault.sep +:+ "website" +:+ Vault.sep) ""
                 ("docs" +:+ Vault.sep +:+ "Topic.md")).
Proof.
  destruct (plus_folder_ignores_file_name vaultSettings joinWithBars resolveWithBars
              "/vault" ("docs" +:+ Vault.sep +:+ "Topic+") "Topic+" "Topic.md" "notes.md"
              (pageFile "Topic.md") (pageFile "notes.md") _
              eq_refl eq_refl eq_refl eq_refl eq_refl eq_refl eq_refl eq_refl eq_refl
              eq_refl eq_refl eq_refl) as (result2 & Hrun & Hrel & _).
  exists result2. split; [exact Hrun | exact Hrel].
Defined.

(** ** The main folders of the vault *)

Lemma drop_split (n : nat) (s : string) : exists x, s = x +:+ Js.drop n s.
Proof.
  revert s. induction n as [|n IH]; intros s; [now exists ""|].
  destruct s as [|c s]; [now exists ""|].
  destruct (IH s) as (x & Hx). exists (String c x). cbn. now f_equal.
Qed.

Lemma endsWith_inv (p s : string) : Js.endsWith p s = true -> exists x, s = x +:+ p.
Proof.
  unfold Js.endsWith. intros [_ H]%andb_prop. apply String.eqb_eq in H.
  destruct (drop_split (String.length s - String.length p) s) as (x & Hx).
  exists x. now rewrite H in Hx.
Qed.

Lemma endsWith_blog (s : string) :
  Js.endsWith "__blog" s = true -> Js.includes "blog" s = true.
Proof.
  intros (x & ->)%endsWith_inv.
  change (x +:+ "__blog") with (x +:+ "__" +:+ "blog" +:+ "").
  rewrite <- sapp_assoc. apply includes_app.
Qed.

Lemma folderType_kept (config : Vault.Settings) (object : string) :
  negb (String.eqb (Vault.folderType config object) "ignore")
  = (Js.includes "blog" object || Js.includes "docs" object
     || Js.includes (Vault.obsidianAssetSubfolderName config) object).
Proof.
  unfold Vault.folderType.
  destruct (Js.endsWith "__blog" object) eqn:E.
  - now rewrite (endsWith_blog _ E).
  - destruct (Js.includes "blog" object); [reflexivity|].
    destruct (Js.includes "docs" object); [reflexivity|].
    now destruct (Js.includes _ object).
Qed.

(** X20.  [getMainfolders] keeps, in the order of the vault folder, exactly
    the directories whose name holds [blog], [docs] or the name of the
    asset folder, each with its type and no file yet; files and all other
    directories are left out.  A folder that the rewrite of links takes for
    a blog is typed as a blog here; the converse does not hold, the type
    [blog] being given to every name that holds [blog]. *)
Theorem getMainfolders_keeps (config : Vault.Settings) (objects : list (string * bool)) :
  Vault.getMainfolders config objects
  = (fun object => {| Vault.name := fst object;
                      Vault.type := Vault.folderType config (fst object);
                      Vault.files := [] |})
    <$> filter (fun object => keptFolder config object = true) objects
  /\ (forall name, isBlogFolder name = true ->
        Vault.folderType config name = "blogMulti"
        \/ Vault.folderType config name = "blog")
  /\ Vault.folderType config "weblog" = "blog" /\ isBlogFolder "weblog" = false.
Proof.
  split; [|split; [|split; reflexivity]].
  - unfold Vault.getMainfolders.
    enough (H : forall folders,
              foldl (fun folders '(object, isDirectory) =>
                       if isDirectory : bool then
                         if negb (String.eqb (Vault.folderType config object) "ignore")
                         then folders ++ [ {| Vault.name := object;
                                              Vault.type := Vault.folderType config object;
                                              Vault.files := [] |} ]
                         else folders
                       else folders) folders objects
              = folders ++ ((fun object => {| Vault.name := fst object;
                                              Vault.type := Vault.folderType config (fst object);
                                              Vault.files := [] |})
                            <$> filter (fun object => keptFolder config object = true) objects))
      by apply (H []).
    induction objects as [|[object isDirectory] rest IH]; intros folders.
    + cbn. now rewrite app_nil_r.
    + assert (Hk : keptFolder config (object, isDirectory)
                   = isDirectory
                     && negb (String.eqb (Vault.folderType config object) "ignore")).
      { unfold keptFolder. cbn [fst snd]. now rewrite folderType_kept. }
      cbn [foldl]. rewrite IH, filter_cons, Hk.
      destruct isDirectory; cbn [andb].
      * destruct (negb _) eqn:E.
        -- destruct (decide (true = true)); [|congruence].
           rewrite fmap_cons. cbn [fst]. now rewrite <- app_assoc.
        -- destruct (decide (false = true)); [discriminate | reflexivity].
      * destruct (decide (false = true)); [discriminate | reflexivity].
  - intros name Hblog. unfold isBlogFolder in Hblog. unfold Vault.folderType.
    destruct (Js.endsWith "__blog" name); [now left|]. right.
    rewrite orb_false_r in Hblog. apply String.eqb_eq in Hblog. now subst name.
Qed.

(** ** The sweep of empty directories is complete *)

Lemma readdir_nonempty (d : Fs.Path) (fs : Fs.FileSystem) :
  Fs.readdir d fs <> []
  <-> exists p, Fs.isChildOf d p = true /\ (p ∈ Fs.directories fs \/ p ∈ Fs.files fs).
Proof.
  unfold Fs.readdir, Fs.subdirectories. split.
  - intros Hne.
    destruct (filter _ (Fs.directories fs) ++ filter _ (Fs.files fs)) as [|p l] eqn:E;
      [contradiction|].
    assert (Hin : p ∈ filter (fun p => Fs.isChildOf d p = true) (Fs.directories fs)
                      ++ filter (fun p => Fs.isChildOf d p = true) (Fs.files fs))
      by (rewrite E; now left).
    apply elem_of_app in Hin as [[? ?]%list_elem_of_filter|[? ?]%list_elem_of_filter]; eauto.
  - intros (p & Hc & Hp) E. apply app_eq_nil in E as [E1 E2].
    destruct Hp as [Hp|Hp].
    + assert (Hin : p ∈ filter (fun p => Fs.isChildOf d p = true) (Fs.directories fs))
        by now apply list_elem_of_filter.
      rewrite E1 in Hin. inversion Hin.
    + assert (Hin : p ∈ filter (fun p => Fs.isChildOf d p = true) (Fs.files fs))
        by now apply list_elem_of_filter.
      rewrite E2 in Hin. inversion Hin.
Qed.

(** in a closed file system the directories on the way up are there *)
Lemma closed_strip (fs : Fs.FileSystem) (k c : Fs.Path) :
  closed fs -> k ++ c ∈ Fs.directories fs -> c ∈ Fs.directories fs.
Proof.
  intros Hclosed. induction k as [|y k IH]; [auto|].
  intros H. apply IH. exact (Hclosed y (k ++ c) H).
Qed.

Lemma closed_child (fs : Fs.FileSystem) (c e : Fs.Path) :
  closed fs -> e ∈ Fs.directories fs -> below c e ->
  exists z, z :: c ∈ Fs.directories fs /\ (z :: c) `suffix_of` e.
Proof.
  intros Hclosed He (k & Hk & ->).
  destruct k as [|y k] using rev_ind; [contradiction|]. clear IHk.
  rewrite <- app_assoc in He |- *. cbn [app] in *.
  exists y. split; [now apply (closed_strip fs k)|]. now exists k.
Qed.

(** two children of a directory have nothing in common below them *)
Lemma siblings_apart (d e : Fs.Path) (x x' : string) :
  (x :: d) `suffix_of` e -> (x' :: d) `suffix_of` e -> x = x'.
Proof.
  intros [k ->] [k' H]. apply app_inj_2 in H as [_ [= ->]]; reflexivity.
Qed.

Lemma suffix_child (c e : Fs.Path) (y : string) :
  below c (y :: e) -> c `suffix_of` e.
Proof.
  intros (k & Hk & H). destruct k as [|z k]; [contradiction|].
  injection H as _ ->. now exists k.
Qed.

Lemma suffix_below (c e : Fs.Path) : c `suffix_of` e -> e = c \/ below c e.
Proof.
  intros [k ->]. destruct k as [|y k]; [now left|]. right. exists (y :: k). now split.
Qed.

Lemma fold_stuck {A : Type} (f : option (Result Fs.FileSystem) -> A ->
                                 option (Result Fs.FileSystem))
    (l : list A) (acc : option (Result Fs.FileSystem)) (fs' : Fs.FileSystem) :
  (forall a, f None a = None) -> (forall m a, f (Some (Throw m)) a = Some (Throw m)) ->
  foldl f acc l = Some (Ok fs') -> exists fs1, acc = Some (Ok fs1).
Proof.
  intros Hnone Hthrow. revert acc. induction l as [|a l IH]; intros acc H.
  - cbn in H. eauto.
  - cbn [foldl] in H. apply IH in H as [fs1 H].
    destruct acc as [[fs0|m]|]; [eauto | |].
    + rewrite Hthrow in H. discriminate.
    + rewrite Hnone in H. discriminate.
Qed.

Lemma removeEmptyDirectories_complete (sourceFolder : Fs.Path) (fuel : nat) :
  forall (d : Fs.Path) (fs fs' : Fs.FileSystem),
  closed fs -> ~ d `suffix_of` sourceFolder ->
  Fs.removeEmptyDirectories fuel sourceFolder d fs = Some (Ok fs') ->
  closed fs' /\ noEmptyBelow d fs'.
Proof.
  induction fuel as [|fuel IH]; intros d fs fs' Hclosed Hsf Hrun; [discriminate|].
  pose proof (removeEmptyDirectories_sweptBelow _ _ _ _ _ Hrun) as (_ & Hsub & _).
  cbn [Fs.removeEmptyDirectories] in Hrun.
  destruct (bool_decide (d ∈ Fs.directories fs)); [|discriminate].
  assert (Hd : d <> sourceFolder) by (intros ->; now apply Hsf).
  rewrite (bool_decide_eq_true_2 _ Hd) in Hrun.
  set (f := fun (acc : option (Result Fs.FileSystem)) (fullDirPath : Fs.Path) =>
              match acc with
              | Some (Ok fs) =>
                  match Fs.removeEmptyDirectories fuel sourceFolder fullDirPath fs with
                  | Some (Ok fs1) =>
                      match Fs.readdir fullDirPath fs1 with
                      | [] => match Fs.rmdir fullDirPath fs1 with
                              | inl fs2 => Some (Ok fs2)
                              | inr _ => Some (Throw "rmdir")
                              end
                      | _ :: _ => Some (Ok fs1)
                      end
                  | other => other
                  end
              | other => other
              end) in Hrun.
  assert (Hfold : forall (l done : list Fs.Path) (fs1 : Fs.FileSystem),
            (forall c, c ∈ done ++ l -> exists x, c = x :: d) ->
            closed fs1 ->
            (forall c e, c ∈ done -> e ∈ Fs.directories fs1 -> c `suffix_of` e ->
               Fs.readdir e fs1 <> []) ->
            foldl f (Some (Ok fs1)) l = Some (Ok fs') ->
            closed fs'
            /\ forall c e, c ∈ done ++ l -> e ∈ Fs.directories fs' -> c `suffix_of` e ->
                 Fs.readdir e fs' <> []).
  { clear Hrun Hclosed Hsub. induction l as [|c l IHl]; intros done fs1 Hchildren Hc1 Hinv Hrun.
    - cbn in Hrun. injection Hrun as <-. rewrite app_nil_r. auto.
    - cbn [foldl] in Hrun.
      destruct (fold_stuck f l _ fs' ltac:(reflexivity) ltac:(reflexivity) Hrun) as [fs3 Hstep].
      rewrite Hstep in Hrun.
      destruct (Hchildren c) as [x ->]; [apply elem_of_app; right; now left|].
      unfold f in Hstep.
      destruct (Fs.removeEmptyDirectories fuel sourceFolder (x :: d) fs1)
        as [[fs2|m]|] eqn:Hrec; try discriminate.
      pose proof (removeEmptyDirectories_sweptBelow _ _ _ _ _ Hrec) as (Hf2 & Hsub2 & Hkeep2).
      destruct (IH (x :: d) fs1 fs2 Hc1) as [Hc2 Hclean2]; [|exact Hrec|].
      { intros [k ->]. apply Hsf. exists (k ++ [x]). now rewrite <- app_assoc. }
      assert (Hother : forall c' e, c' ∈ done -> c' <> x :: d ->
                e ∈ Fs.directories fs2 -> c' `suffix_of` e ->
                exists p, Fs.isChildOf e p = true
                          /\ ((p ∈ Fs.directories fs2 /\ p <> x :: d) \/ p ∈ Fs.files fs2)).
      { intros c' e Hc' Hne He Hsuf.
        destruct (Hchildren c') as [x' ->]; [apply elem_of_app; now left|].
        assert (Hnonempty : Fs.readdir e fs1 <> []) by (eapply Hinv; eauto).
        apply readdir_nonempty in Hnonempty as (p & Hchild & [Hp|Hp]);
          [|exists p; split; [exact Hchild | right; congruence]].
        exists p. split; [exact Hchild|]. left.
        pose proof Hchild as [y ->]%isChildOf_inv.
        assert (Hapart : ~ (x :: d) `suffix_of` e).
        { intros Hx. apply Hne. f_equal. symmetry. eapply siblings_apart; eassumption. }
        split.
        - apply Hkeep2; [exact Hp|]. intros Hb. now apply suffix_child in Hb.
        - intros [= -> ->]. destruct Hsuf as [k Hk].
          apply (f_equal length) in Hk. rewrite length_app in Hk. cbn in Hk. lia. }
      assert (Hgoal : closed fs3
                /\ forall c' e, c' ∈ done ++ [x :: d] -> e ∈ Fs.directories fs3 ->
                      c' `suffix_of` e -> Fs.readdir e fs3 <> []).
      { destruct (Fs.readdir (x :: d) fs2) as [|q qs] eqn:Hread.
        - destruct (Fs.rmdir (x :: d) fs2) as [fs4|err] eqn:Hrm; [|discriminate].
          injection Hstep as <-.
          apply rmdir_inl in Hrm as (_ & _ & _ & Hdirs & Hfiles).
          assert (Hnochild : forall z, z :: x :: d ∉ Fs.directories fs2).
          { intros z Hz.
            assert (Hnonempty : Fs.readdir (x :: d) fs2 <> []); [|contradiction].
            apply readdir_nonempty. exists (z :: x :: d). split; [|now left].
            cbn. now apply bool_decide_eq_true. }
          split.
          + intros y p Hyp. rewrite Hdirs in Hyp |- *.
            apply elem_of_removePath in Hyp as [Hne Hyp]. apply elem_of_removePath.
            split; [|exact (Hc2 y p Hyp)].
            intros ->. exact (Hnochild y Hyp).
          + intros c' e Hc' He Hsuf. rewrite Hdirs in He.
            apply elem_of_removePath in He as [Hne He].
            assert (Hgone : ~ (x :: d) `suffix_of` e).
            { intros Hx. apply suffix_below in Hx as [->|Hb]; [contradiction|].
              destruct (closed_child fs2 (x :: d) e Hc2 He Hb) as (z & Hz & _).
              exact (Hnochild z Hz). }
            apply elem_of_app in Hc' as [Hc'|Hc'%list_elem_of_singleton];
              [|subst c'; contradiction].
            destruct (Hother c' e Hc' ltac:(intros ->; contradiction) He Hsuf)
              as (p & Hchild & Hp).
            apply readdir_nonempty. exists p. split; [exact Hchild|].
            destruct Hp as [[Hp Hpne]|Hp]; [left | right; congruence].
            rewrite Hdirs. now apply elem_of_removePath.
        - injection Hstep as <-. split; [exact Hc2|].
          intros c' e Hc' He Hsuf.
          assert (Hhere : (x :: d) `suffix_of` e -> Fs.readdir e fs2 <> []).
          { intros Hx. apply suffix_below in Hx as [->|Hb]; [now rewrite Hread|].
            now apply Hclean2. }
          destruct (decide (c' = x :: d)) as [->|Hne]; [now apply Hhere|].
          apply elem_of_app in Hc' as [Hc'|Hc'%list_elem_of_singleton]; [|contradiction].
          destruct (Hother c' e Hc' Hne He Hsuf) as (p & Hchild & Hp).
          apply readdir_nonempty. exists p. split; [exact Hchild|].
          destruct Hp as [[Hp _]|Hp]; auto. }
      destruct Hgoal as [Hc3 Hinv3].
      assert (Eapp : forall c0 : Fs.Path,
                c0 ∈ done ++ (x :: d) :: l <-> c0 ∈ (done ++ [x :: d]) ++ l).
      { intros c0. rewrite !elem_of_app, elem_of_cons, list_elem_of_singleton. tauto. }
      destruct (IHl (done ++ [x :: d]) fs3) as [Hc4 Hinv4];
        [intros c0 Hc0; apply Hchildren; now apply Eapp
        |exact Hc3|exact Hinv3|exact Hrun|].
      split; [exact Hc4|]. intros c0 e Hc0. apply Hinv4. now apply Eapp. }
  destruct (Hfold (Fs.subdirectories d fs) [] fs) as [Hc' Hinv'];
    [|exact Hclosed|intros c e Hc; inversion Hc|exact Hrun|].
  { intros c Hc. cbn [app] in Hc. apply list_elem_of_filter in Hc as [Hc _].
    now apply isChildOf_inv. }
  split; [exact Hc'|].
  intros e He Hb. pose proof (Hsub e He) as He0.
  destruct (closed_child fs d e Hclosed He0 Hb) as (z & Hz & Hsuf).
  apply (Hinv' (z :: d) e); [|exact He|exact Hsuf].
  cbn [app]. apply list_elem_of_filter. split; [|exact Hz].
  cbn. now apply bool_decide_eq_true.
Qed.

(** X21.  The sweep at the end of a run of the handler is complete: in a
    file system where every directory has its parent, when the source
    folder is neither the directory swept nor a directory below it (paths
    are lists of names, innermost first, so that a directory below [root]
    has [root] as a suffix), a sweep that ends normally leaves no empty
    directory below the directory it is called on, and the parents of the
    directories that stay are still there. *)
Theorem sweep_leaves_no_empty_directory (sourceFolder root : Fs.Path) (fuel : nat)
    (fs fs' : Fs.FileSystem) :
  closed fs -> ~ root `suffix_of` sourceFolder ->
  Fs.removeEmptyDirectories fuel sourceFolder root fs = Some (Ok fs') ->
  closed fs' /\ noEmptyBelow root fs'.
Proof. apply removeEmptyDirectories_complete. Qed.

Lemma sweep_leaves_no_empty_directory_witness :
  closed {| Fs.directories := [[]; ["site"]]; Fs.files := [] |}
  /\ noEmptyBelow ["site"] {| Fs.directories := [[]; ["site"]]; Fs.files := [] |}.
Proof.
  refine (sweep_leaves_no_empty_directory ["vault"] ["site"] 3 emptiedSite _ _ _ eq_refl).
  - intros x p Hin. cbn in Hin.
    apply elem_of_cons in Hin as [Hin|Hin]; [discriminate|].
    apply elem_of_cons in Hin as [Hin|Hin]; [injection Hin as _ ->; now left|].
    apply list_elem_of_singleton in Hin. injection Hin as _ ->. right. now left.
  - intros [k Hk]. destruct k as [|y [|z k]]; discriminate.
Defined.

(** ** The only exception of a conversion *)

Section ConversionFails.

Variable config : Config.
Variable now : string.

Lemma addToAssetJson_throws (assetJson : list Asset) (name : string)
    (original extension path : option string) (size' document message : string) :
  addToAssetJson now assetJson name original extension path size' document = Throw message ->
  path = None /\ message = "Could not find path for asset: " +:+ name.
Proof.
  unfold addToAssetJson. destruct path as [path|]; [|now intros [= <-]].
  destruct (list_find _ assetJson) as [[i existing]|].
  - destruct (getOrCreateSize (sizes existing) size' document). discriminate.
  - destruct (getOrCreateSize [] size' document). discriminate.
Qed.

Lemma checkForAssets_throws (line document : string) (assetJson : list Asset)
    (allSourceAssetsInfo : list SourceFileInfo) (message : string) :
  checkForAssets config now line document assetJson allSourceAssetsInfo = Throw message ->
  exists name, message = "Could not find path for asset: " +:+ name.
Proof.
  unfold checkForAssets.
  set (first := match matchAsset line with Some _ => _ | None => _ end).
  assert (Hfirst : exists r, first = Ok r).
  { subst first. destruct (matchAsset line) as [m|]; [|eauto].
    destruct (groups m) as [size' path].
    destruct (addToAssetJson _ _ _ _ _ (Some path) _ _) as [[reg ref]|msg] eqn:E.
    - cbn [mbind Result_bind]. eauto.
    - apply addToAssetJson_throws in E as [? _]. discriminate. }
  destruct Hfirst as [[line1 reg1] ->]. cbn [mbind Result_bind].
  destruct (matchWiki line1) as [m|]; [|discriminate].
  destruct (addToAssetJson _ _ _ _ _ _ _ _) as [[reg ref]|msg] eqn:E.
  - cbn [mbind Result_bind]. discriminate.
  - cbn [mbind Result_bind]. intros [= <-].
    apply addToAssetJson_throws in E as [_ ->]. eauto.
Qed.

Lemma checkForLinks_total (line : string) : exists out, checkForLinks line = Ok out.
Proof.
  destruct (matchLink line) as [m|] eqn:Hm.
  - destruct (checkForLinks_rewritesBefore line m Hm) as (out & H & _). eauto.
  - unfold checkForLinks. rewrite Hm. eauto.
Qed.

Lemma processLine_throws (fileProcessor : FileProcessor) (document : string)
    (allSourceAssetsInfo : list SourceFileInfo) (st : LoopState) (line message : string) :
  processLine config now fileProcessor document allSourceAssetsInfo st line = Throw message ->
  exists name, message = "Could not find path for asset: " +:+ name.
Proof.
  unfold processLine.
  destruct (checkForAssets _ _ _ _ _ _) as [[line1 reg1]|msg] eqn:E.
  - cbn [mbind Result_bind].
    destruct (checkForLinks_total line1) as [out ->]. cbn [mbind Result_bind].
    destruct (convertAdmonition _ _ _ _) as [[[? ?] ?] ?]. discriminate.
  - cbn [mbind Result_bind]. intros [= <-]. now apply checkForAssets_throws in E.
Qed.

Lemma processLines_throws (fileProcessor : FileProcessor) (document : string)
    (allSourceAssetsInfo : list SourceFileInfo) (lines : list string) :
  forall (st : LoopState) (message : string),
  processLines config now fileProcessor document allSourceAssetsInfo st lines
  = Throw message ->
  exists name, message = "Could not find path for asset: " +:+ name.
Proof.
  induction lines as [|line rest IH]; intros st message H; [discriminate|].
  cbn [processLines] in H.
  destruct (processLine _ _ _ _ _ st line) as [st'|msg] eqn:E.
  - cbn [mbind Result_bind] in H. eauto.
  - cbn [mbind Result_bind] in H. injection H as <-. now apply processLine_throws in E.
Qed.

End ConversionFails.

(** X22.  The conversion of a document fails in one way only: whenever
    [processMarkdown] throws, the exception is the one of [addToAssetJson]
    for an asset without a path, which [checkForAssets] meets at a
    wiki-style link, left in the line, that names no attachment of the
    vault.  No other step of the conversion throws, whatever the text. *)
Theorem conversion_fails_only_for_missing_asset (config : Config) (now document : string)
    (content : string) (assetJson : list Asset)
    (fileInfo allSourceAssetsInfo : list SourceFileInfo) (message : string) :
  processMarkdown config now document content assetJson fileInfo allSourceAssetsInfo
  = Throw message ->
  exists name, message = "Could not find path for asset: " +:+ name.
Proof.
  unfold processMarkdown.
  destruct (processLines _ _ _ _ _ _ _) as [st|msg] eqn:E; [discriminate|].
  cbn [mbind Result_bind]. intros [= <-]. now apply processLines_throws in E.
Qed.

Lemma conversion_fails_only_for_missing_asset_witness :
  exists name, "Could not find path for asset: Missing"
               = "Could not find path for asset: " +:+ name.
Proof.
  exact (conversion_fails_only_for_missing_asset someConfig "" "doc.md" "[[Missing]]"
           [] [] [] "Could not find path for asset: Missing" eq_refl).
Defined.

(** ** The registry only grows *)

Lemma sizeGrows_refl (s : Size) : sizeGrows s s.
Proof. unfold sizeGrows. auto. Qed.

Lemma sizesGrow_refl (sizes : list Size) : sizesGrow sizes sizes.
Proof. intros j s H. eauto using sizeGrows_refl. Qed.

Lemma assetGrows_refl (a : Asset) : assetGrows a a.
Proof. unfold assetGrows. auto 10 using sizesGrow_refl. Qed.

Lemma registryGrows_refl (assetJson : list Asset) : registryGrows assetJson assetJson.
Proof. intros i a H. eauto using assetGrows_refl. Qed.

Lemma registryGrows_trans (r1 r2 r3 : list Asset) :
  registryGrows r1 r2 -> registryGrows r2 r3 -> registryGrows r1 r3.
Proof.
  intros H12 H23 i a Ha.
  destruct (H12 i a Ha) as (a2 & Ha2 & (E1 & E2 & E3 & E4 & E5 & Hs12)).
  destruct (H23 i a2 Ha2) as (a3 & Ha3 & (F1 & F2 & F3 & F4 & F5 & Hs23)).
  exists a3. split; [exact Ha3|].
  unfold assetGrows. repeat split; try congruence.
  intros j s Hs. destruct (Hs12 j s Hs) as (s2 & Hs2 & (G1 & G2 & G3)).
  destruct (Hs23 j s2 Hs2) as (s3 & Hs3 & (K1 & K2 & K3)).
  exists s3. split; [exact Hs3|]. unfold sizeGrows.
  split; [congruence|]. split; etransitivity; eassumption.
Qed.

(** a list in which one element has grown *)
Lemma grows_insert {A : Type} (R : A -> A -> Prop) (l : list A) (i : nat) (x y : A) :
  (forall z, R z z) -> l !! i = Some x -> R x y ->
  forall k z, l !! k = Some z -> exists z', <[i:=y]> l !! k = Some z' /\ R z z'.
Proof.
  intros Hrefl Hx Hxy k z Hz. destruct (decide (k = i)) as [->|Hne].
  - exists y. split.
    + apply list_lookup_insert_eq. now apply lookup_lt_Some in Hx.
    + congruence.
  - exists z. split; [|apply Hrefl]. now rewrite list_lookup_insert_ne by congruence.
Qed.

Lemma grows_app {A : Type} (R : A -> A -> Prop) (l more : list A) :
  (forall z, R z z) ->
  forall k z, l !! k = Some z -> exists z', (l ++ more) !! k = Some z' /\ R z z'.
Proof.
  intros Hrefl k z Hz. exists z. split; [|apply Hrefl]. now apply lookup_app_l_Some.
Qed.

Section RegistryGrows.

Variable config : Config.
Variable now : string.

Lemma getOrCreateSize_grows (sizes sizes1 : list Size) (size' document : string) (j : nat) :
  getOrCreateSize sizes size' document = (sizes1, j) -> sizesGrow sizes sizes1.
Proof.
  unfold getOrCreateSize.
  destruct (list_find _ sizes) as [[k existing]|] eqn:Hfind.
  - apply list_find_Some in Hfind as (Hk & _ & _).
    destruct (bool_decide _); intros [= <- <-]; [apply sizesGrow_refl|].
    refine (grows_insert sizeGrows sizes k existing _ sizeGrows_refl Hk _).
    unfold sizeGrows. cbn. split; [reflexivity|]. split; [|reflexivity].
    now apply prefix_app_r.
  - intros [= <- <-]. exact (grows_app sizeGrows sizes _ sizeGrows_refl).
Qed.

Lemma addToAssetJson_grows (assetJson assetJson1 : list Asset) (name : string)
    (original extension path : option string) (size' document : string) (r : SizeRef) :
  addToAssetJson now assetJson name original extension path size' document
  = Ok (assetJson1, r) ->
  registryGrows assetJson assetJson1.
Proof.
  unfold addToAssetJson. destruct path as [path|]; [|discriminate].
  destruct (list_find _ assetJson) as [[i existing]|] eqn:Hfind.
  - apply list_find_Some in Hfind as (Hi & _ & _).
    destruct (getOrCreateSize (sizes existing) size' document) as [sizes1 j] eqn:Hsize.
    intros [= <- <-].
    refine (grows_insert assetGrows assetJson i existing _ assetGrows_refl Hi _).
    unfold assetGrows. cbn. repeat split. eapply getOrCreateSize_grows. exact Hsize.
  - destruct (getOrCreateSize [] size' document) as [sizes1 j].
    intros [= <- <-]. exact (grows_app assetGrows assetJson _ assetGrows_refl).
Qed.

Lemma pushNewName_grows (sizeObject : SizeRef) (name : string) (assetJson : list Asset) :
  registryGrows assetJson (pushNewName sizeObject name assetJson).
Proof.
  unfold pushNewName. destruct sizeObject as [i j].
  destruct (assetJson !! i) as [a|] eqn:Ha; [|apply registryGrows_refl].
  destruct (sizes a !! j) as [s|] eqn:Hs; [|apply registryGrows_refl].
  destruct (bool_decide _); [apply registryGrows_refl|].
  refine (grows_insert assetGrows assetJson i a _ assetGrows_refl Ha _).
  unfold assetGrows. cbn. repeat split.
  refine (grows_insert sizeGrows (sizes a) j s _ sizeGrows_refl Hs _).
  unfold sizeGrows. cbn. split; [reflexivity|]. split; [reflexivity|].
  now apply prefix_app_r.
Qed.

Lemma emitAsset_grows (line name : string) (extension : option string) (size' : string)
    (sizeObject : SizeRef) (assetJson : list Asset) :
  registryGrows assetJson
    (snd (emitAsset config line name extension size' sizeObject assetJson)).
Proof.
  unfold emitAsset. destruct extension as [ext|]; [|apply registryGrows_refl].
  destruct (bool_decide _); [|apply registryGrows_refl].
  unfold processImage. cbn [snd].
  destruct (Js.truthy _); [apply pushNewName_grows | apply registryGrows_refl].
Qed.

Lemma checkForAssets_grows (line document line1 : string) (assetJson assetJson1 : list Asset)
    (allSourceAssetsInfo : list SourceFileInfo) :
  checkForAssets config now line document assetJson allSourceAssetsInfo
  = Ok (line1, assetJson1) ->
  registryGrows assetJson assetJson1.
Proof.
  unfold checkForAssets.
  set (first := match matchAsset line with Some _ => _ | None => _ end).
  assert (Hfirst : forall r, first = Ok r -> registryGrows assetJson (snd r)).
  { subst first. destruct (matchAsset line) as [m|];
      [|intros r [= <-]; apply registryGrows_refl].
    destruct (groups m) as [size' path].
    destruct (addToAssetJson _ _ _ _ _ (Some path) _ _) as [[reg ref]|msg] eqn:E;
      [|discriminate].
    cbn [mbind Result_bind]. intros r [= <-].
    eapply registryGrows_trans; [eapply addToAssetJson_grows; exact E|].
    apply emitAsset_grows. }
  destruct first as [[line2 reg2]|msg]; [|discriminate].
  specialize (Hfirst _ eq_refl). cbn [snd mbind Result_bind] in *.
  destruct (matchWiki line2) as [m|]; [|now intros [= <- <-]].
  destruct (addToAssetJson _ _ _ _ _ _ _ _) as [[reg ref]|msg] eqn:E; [|discriminate].
  cbn [mbind Result_bind]. intros H.
  assert (Hsnd : assetJson1 = snd (emitAsset config line2
                   (cleanName (hd "" (Js.split "." (snd (groups m)))))
                   (Js.split "." (snd (groups m)) !! 1%nat) "standard" ref reg))
    by (injection H as ->; reflexivity).
  rewrite Hsnd.
  eapply registryGrows_trans; [exact Hfirst|].
  eapply registryGrows_trans; [eapply addToAssetJson_grows; exact E|].
  apply emitAsset_grows.
Qed.

Lemma processLine_grows (fileProcessor : FileProcessor) (document : string)
    (allSourceAssetsInfo : list SourceFileInfo) (st st' : LoopState) (line : string) :
  processLine config now fileProcessor document allSourceAssetsInfo st line = Ok st' ->
  registryGrows (registry st) (registry st').
Proof.
  unfold processLine.
  destruct (checkForAssets _ _ _ _ _ _) as [[line1 reg1]|msg] eqn:E; [|discriminate].
  cbn [mbind Result_bind].
  destruct (checkForLinks line1) as [out|msg]; [|discriminate].
  cbn [mbind Result_bind].
  destruct (convertAdmonition _ _ _ _) as [[[? ?] ?] ?]. intros [= <-]. cbn [registry].
  eapply checkForAssets_grows. exact E.
Qed.

Lemma processLines_grows (fileProcessor : FileProcessor) (document : string)
    (allSourceAssetsInfo : list SourceFileInfo) (lines : list string) :
  forall st st' : LoopState,
  processLines config now fileProcessor document allSourceAssetsInfo st lines = Ok st' ->
  registryGrows (registry st) (registry st').
Proof.
  induction lines as [|line rest IH]; intros st st' H.
  - injection H as <-. apply registryGrows_refl.
  - cbn [processLines] in H.
    destruct (processLine _ _ _ _ _ st line) as [st1|msg] eqn:E; [|discriminate].
    cbn [mbind Result_bind] in H.
    eapply registryGrows_trans; [eapply processLine_grows; exact E | eapply IH; exact H].
Qed.

End RegistryGrows.

(** X23.  The conversion of a document only adds to the asset registry.
    Every asset is still there afterwards, at its place, with the names,
    the extension, the path and the date of its first registration, and so
    is every size variant of it; the documents and the names of a size
    variant are still there, in their order, with the new ones after
    them.  So nothing is ever removed from the registry by a conversion,
    and the date of an asset is never brought up to date. *)
Theorem conversion_only_adds_to_registry (config : Config) (now document content : string)
    (assetJson assetJson' : list Asset)
    (fileInfo allSourceAssetsInfo : list SourceFileInfo) (output : string) :
  processMarkdown config now document content assetJson fileInfo allSourceAssetsInfo
  = Ok (output, assetJson') ->
  registryGrows assetJson assetJson'.
Proof.
  unfold processMarkdown.
  destruct (processLines _ _ _ _ _ _ _) as [st|msg] eqn:E; [|discriminate].
  cbn [mbind Result_bind]. intros [= _ <-].
  apply (processLines_grows config now) in E. exact E.
Qed.

Lemma conversion_only_adds_to_registry_witness :
  registryGrows (registryPic ["a.md"] []) (registryPic ["a.md"; "b.md"] ["pic.webp"]).
Proof.
  exact (conversion_only_adds_to_registry someConfig "t2" "b.md" "![](img/pic.png)"
           (registryPic ["a.md"] []) (registryPic ["a.md"; "b.md"] ["pic.webp"]) [] []
           ("![pic](//assets/pic.webp)" +:+ Js.nl) eq_refl).
Defined.

(** ** Links into a blog, and links with an anchor *)

Lemma lastPart_snoc (l : list string) (x : string) : List.last (l ++ [x]) "" = x.
Proof. apply last_last. Qed.

(** X24.  The path of a link into a blog: the parts keep their numeric
    prefixes; when the last part ends with [.md], the first [.md] in it is
    removed, which is not the one at its end when the name holds [.md]
    before; then every dash of the last part becomes a [/], those of a
    title as those of a date.  When the parent folder ends with [+], the
    file name is dropped and every dash of the name of the folder, without
    the first [+] in it, becomes a [/]. *)
Theorem blog_link_path (parts : list string) (parent file : string) :
  Js.split "#" file = [file] ->
  (Js.endsWith "+" parent = false ->
   processUrlParts (parts ++ [parent; file]) true
   = Ok (parts ++ [parent;
                   Js.join "/" (Js.split "-" (if Js.endsWith ".md" file
                                              then Js.replace ".md" "" file else file))]))
  /\ (Js.endsWith "+" parent = true ->
      processUrlParts (parts ++ [parent; file]) true
      = Ok (parts ++ [Js.join "/"
                        (Js.split "-"
                           (Js.join "/" (Js.split "-" (Js.replace "+" "" parent))))])).
Proof.
  intros Hanchor. split; intros Hplus; unfold processUrlParts;
    rewrite rev_app_distr; cbn [List.rev List.app];
    rewrite Hanchor, Hplus; cbn [List.hd lookup list_lookup negb];
    change (parts ++ [parent; file]) with (parts ++ [parent] ++ [file]);
    rewrite !app_assoc.
  - destruct (Js.endsWith ".md" file).
    + rewrite setLast_app, lastPart_snoc, setLast_app. now rewrite <- !app_assoc.
    + rewrite lastPart_snoc, setLast_app. now rewrite <- !app_assoc.
  - unfold pop. rewrite removelast_last, setLast_app, lastPart_snoc, setLast_app. reflexivity.
Qed.

Lemma blog_link_path_witness :
  processUrlParts (["blog"] ++ ["2023"; "05-12-my-first-post.md"]) true
  = Ok (["blog"] ++ ["2023"; "05/12/my/first/post"])
  /\ processUrlParts (["blog"] ++ ["2023"; "x.md.bak.md"]) true
     = Ok (["blog"] ++ ["2023"; "x.bak.md"])
  /\ checkForLinks "[post](news__blog/2023/05-12-my-first-post.md)"
     = Ok "[post](/news/2023/05/12/my/first/post)".
Proof.
  split; [|split; [|reflexivity]].
  - exact (proj1 (blog_link_path ["blog"] "2023" "05-12-my-first-post.md" eq_refl) eq_refl).
  - exact (proj1 (blog_link_path ["blog"] "2023" "x.md.bak.md" eq_refl) eq_refl).
Defined.

(** X25.  In a link of ASCII text outside a blog, the anchor is put in
    lower case, with [-] for every [%20], after the last part of the path.
    When the file name ends with [.md], the path ends with the name, without
    the first [.md] in it and without its number prefix, and this anchor.
    When it does not, the last part has kept the anchor as it was written,
    and the path ends with both. *)
Theorem link_anchor (parts : list string) (parent file anchor : string) :
  Forall (fun part => asciiText part = true) (parts ++ [parent; file; anchor]) ->
  Js.endsWith "+" parent = false ->
  Js.all (fun c => negb (Ascii.eqb c "#")) file = true ->
  Js.all (fun c => negb (Ascii.eqb c "#")) anchor = true ->
  Js.truthy anchor = true ->
  let written := file +:+ String "#" anchor in
  let lowered := "#" +:+ Js.toLowerCase (Js.replaceAll "%20" "-" anchor) in
  processUrlParts (parts ++ [parent; written]) false
  = Ok ((removeNumberPrefix <$> parts ++ [parent])
        ++ [ if Js.endsWith ".md" file
             then removeNumberPrefix (Js.replace ".md" "" file) +:+ lowered
             else removeNumberPrefix written +:+ lowered ]).
Proof.
  intros _ Hplus Hfile Hanchor Htruthy written lowered.
  assert (Hsplit : Js.split "#" written = [file; anchor]).
  { subst written. rewrite split_snoc by exact Hanchor. now rewrite split_plain. }
  unfold processUrlParts. rewrite rev_app_distr. cbn [List.rev List.app].
  rewrite Hsplit, Hplus. cbn [List.hd lookup list_lookup negb]. rewrite Htruthy.
  change (parts ++ [parent; written]) with (parts ++ [parent] ++ [written]).
  rewrite !app_assoc.
  destruct (Js.endsWith ".md" file).
  - rewrite setLast_app, fmap_app, fmap_cons, fmap_nil, lastPart_snoc, setLast_app.
    subst lowered. reflexivity.
  - rewrite fmap_app, fmap_cons, fmap_nil, lastPart_snoc, setLast_app.
    subst lowered. reflexivity.
Qed.

Lemma link_anchor_witness :
  processUrlParts ([] ++ ["01-docs"; "02-intro#My%20Part"]) false
  = Ok (["docs"] ++ ["intro#My%20Part#my-part"])
  /\ checkForLinks "[x](01-docs/02-intro.md#My%20Part)" = Ok "[x](/docs/intro#my-part)".
Proof.
  split; [|reflexivity].
  refine (link_anchor [] "01-docs" "02-intro" "My%20Part" _ eq_refl eq_refl eq_refl eq_refl).
  repeat constructor.
Defined.

(** ** A newer source file: what is deleted, and what is dropped *)




